(** * node-google-spreadsheet: the document cache, its transport and its rows

    A shallow embedding of [src/lib/GoogleSpreadsheet.ts] and
    [src/lib/GoogleSpreadsheetRow.ts].

    - JavaScript values of type [any] are [Json] values.
    - A thrown exception is a [Throw] result; an [async] method is a
      computation in the monad [M], which threads the document object, the
      store of worksheet objects and the list of requests put on the wire.
    - The remote service is a family of reply functions ([RemoteService]):
      what it answers may depend on every request sent before.
    - [GoogleSpreadsheetWorksheet.ts] and [utils.ts] are not part of the
      sources at hand: the worksheet object is the interface
      [WorksheetClass], the helpers are the interface [Utils]. *)

From Stdlib Require Import ZArith String Ascii List Bool Lia DecimalString Sorted.
From Stdlib Require DecimalZ.
From stdpp Require Import base option list gmap strings fin_maps.

Open Scope string_scope.
Open Scope list_scope.
Open Scope Z_scope.

(** ** JavaScript values *)

#[warnings="-register-all"]
Inductive Json :=
| JUndefined
| JNull
| JBool (b : bool)
| JNum (n : Z)
| JStr (s : string)
| JArr (items : list Json)
| JObj (fields : list (string * Json)).

(** Template-literal rendering of an integer, as in [`${code}`]. *)
Definition number_toString (n : Z) : string :=
  NilZero.string_of_int (Z.to_int n).

(** [`${x}`] for a value that may be missing. *)
Definition template (render : option string) : string :=
  match render with Some s => s | None => "undefined" end.

(** Truthiness of an optional string: [undefined], [null] and [''] are falsy. *)
Definition truthy_string (s : option string) : bool :=
  match s with
  | Some EmptyString => false
  | Some _ => true
  | None => false
  end.

(** Truthiness of an optional number: [undefined] and [0] are falsy. *)
Definition truthy_number (n : option Z) : bool :=
  match n with
  | Some 0 => false
  | Some _ => true
  | None => false
  end.

(** [o[k] = v] on the fields of an object: an own key keeps its place. *)
Fixpoint set_field (k : string) (v : Json) (o : list (string * Json))
  : list (string * Json) :=
  match o with
  | [] => [(k, v)]
  | (k', v') :: rest =>
      if String.eqb k' k then (k, v) :: rest else (k', v') :: set_field k v rest
  end.

(** [{...a, ...b}]: the fields of [b] are written over those of [a]. *)
Definition spread (a b : list (string * Json)) : list (string * Json) :=
  foldl (fun o kv => set_field kv.1 kv.2 o) a b.

(** ** Errors *)

(** The response part of an [AxiosError]: [error.response.data.error] is the
    service's [{code, message}] record when the body carries one. *)
Record ApiError := {
  code : option Z;
  message : option string;
}.

Record ErrorBody := {
  error : option ApiError;       (* [None]: [data.error] is falsy *)
}.

Record ErrorResponse := {
  status : Z;
  data : option ErrorBody;       (* [None]: [response.data] is falsy *)
}.

Record AxiosError := {
  error_message : string;
  response : option ErrorResponse;
}.

(** The taxonomy of the specification, section 7; the message is the text of
    the [new Error(...)] in the source. *)
Inductive ErrorKind :=
| NotLoaded
| RowDeleted
| InvalidCredential
| UnsupportedFilterForCredential
| InvalidFilter
| UnsupportedExportTarget
| AccessDeniedPrivateDocument
| DirectAssignment
| HeadersNotLoaded
| TypeError
| ProviderFailure.

Inductive Exn :=
| Error (kind : ErrorKind) (msg : string)
| Rethrown (e : AxiosError).

Inductive Result (A : Type) :=
| Ok (a : A)
| Throw (e : Exn).
Arguments Ok {A} a.
Arguments Throw {A} e.

(** ** Credentials: [getAuthMode] and [getRequestAuthConfig] *)

(** What awaiting [auth.authorize()] or [auth.getAccessToken()] leaves: the
    promise rejects, or it resolves and the token field holds [token]. *)
Inductive Refresh :=
| Rejects (reason : string)
| Resolves (token : option string).

(** The shape of the credential object is read with [in]: a field is either
    present or not, whatever else the object holds. *)
Record GoogleSpreadsheetAuth := {
  apiKey : option string;
  authorize : option Refresh;
  getAccessToken : option Refresh;
  token : option string;
}.

Inductive AUTH_MODES := API_KEY | RAW_ACCESS_TOKEN | JWT | OAUTH.

Definition invalid_auth : Exn := Error InvalidCredential "Invalid auth".

(** ['field' in auth] *)
Definition has {A} (field : option A) : bool :=
  match field with Some _ => true | None => false end.

Definition getAuthMode (auth : GoogleSpreadsheetAuth) : Result AUTH_MODES :=
  if has (apiKey auth) then Ok API_KEY
  else if has (authorize auth) then Ok JWT
  else if has (getAccessToken auth) then Ok OAUTH
  else if has (token auth) then Ok RAW_ACCESS_TOKEN
  else Throw invalid_auth.

(** The object [getRequestAuthConfig] returns: [{ params: { key } }] or
    [{ headers: { Authorization } }]. *)
Record AuthConfig := {
  params_key : option string;
  headers_Authorization : option string;
}.

Definition await_refresh (r : Refresh) : Result (option string) :=
  match r with
  | Rejects reason => Throw (Error ProviderFailure reason)
  | Resolves tok => Ok tok
  end.

Definition getRequestAuthConfig (auth : GoogleSpreadsheetAuth) : Result AuthConfig :=
  match apiKey auth with
  | Some key => Ok {| params_key := Some key; headers_Authorization := None |}
  | None =>
      let fetched :=
        match authorize auth, getAccessToken auth, token auth with
        | Some jwt, _, _ => await_refresh jwt
        | None, Some oauth, _ => await_refresh oauth
        | None, None, Some t => Ok (Some t)
        | None, None, None => Ok None
        end in
      match fetched with
      | Throw e => Throw e
      | Ok authToken =>
          if truthy_string authToken
          then Ok {| params_key := None;
                     headers_Authorization := Some ("Bearer " +:+ template authToken) |}
          else Throw invalid_auth
      end
  end.

(** ** The response interceptor for failures: [_handleAxiosErrors] *)

Definition private_sheet_message : string :=
  "Sheet is private. Use authentication or make public. (see https://github.com/theoephraim/node-google-spreadsheet#a-note-on-authentication for details)".

Definition api_error_message (e : ApiError) : string :=
  "Google API error - [" +:+ template (number_toString <$> code e) +:+ "] "
    +:+ template (message e).

Definition response_data (err : AxiosError) : option ErrorBody :=
  r ← response err; data r.

(** The interceptor always throws; the value is what it throws. *)
Definition _handleAxiosErrors (auth : GoogleSpreadsheetAuth) (err : AxiosError) : Exn :=
  match response_data err with
  | Some body =>
      match error body with
      | None => Rethrown err
      | Some e =>
          Rethrown {| error_message := api_error_message e; response := response err |}
      end
  | None =>
      if bool_decide (status <$> response err = Some 403) && has (apiKey auth)
      then Error AccessDeniedPrivateDocument private_sheet_message
      else Rethrown err
  end.

(** ** Resources of the service *)

Record SpreadsheetProperties := {
  title : Json;
  locale : Json;
  timeZone : Json;
  autoRecalc : Json;
  defaultFormat : Json;
  spreadsheetTheme : Json;
  iterativeCalculationSettings : Json;
}.

(** [keyof SpreadsheetProperties], for the properties the document exposes. *)
Inductive SpreadsheetProperty :=
| P_title
| P_locale
| P_timeZone
| P_autoRecalc
| P_defaultFormat
| P_spreadsheetTheme
| P_iterativeCalculationSettings.

(** [props[param]] *)
Definition prop (props : SpreadsheetProperties) (param : SpreadsheetProperty) : Json :=
  match param with
  | P_title => title props
  | P_locale => locale props
  | P_timeZone => timeZone props
  | P_autoRecalc => autoRecalc props
  | P_defaultFormat => defaultFormat props
  | P_spreadsheetTheme => spreadsheetTheme props
  | P_iterativeCalculationSettings => iterativeCalculationSettings props
  end.

Record WorksheetProperties := {
  sheetId : Z;
  sheet_title : string;
  sheet_index : Z;
  sheetType : string;
  gridProperties : Json;
}.

(** One entry of [sheets] in a spreadsheet resource. *)
Record SheetInfo := {
  properties : WorksheetProperties;
  grid_data : Json;
}.

(** The spreadsheet resource: the body of [GET /], of [:getByDataFilter] and
    of the creation request, and [updatedSpreadsheet] in a batch reply. *)
Record Spreadsheet := {
  new_spreadsheetId : string;
  spreadsheetUrl : option string;
  spreadsheet_properties : SpreadsheetProperties;
  sheets : list SheetInfo;
}.

Record BatchUpdateResponse := {
  updatedSpreadsheet : Spreadsheet;
  replies : list (list (string * Json));
}.

(** [response.data.updatedData.values] of a values update. *)
Record UpdateValuesResponse := {
  updatedData_values : list Json;
}.

(** An entry of [PermissionsList] ([drive-types.ts]). *)
Record Permission := {
  permission_id : string;
  permission_type : string;
  permission_role : string;
}.

(** ** Requests *)

Record Request := {
  method : string;
  baseURL : string;
  url : string;
  params : list (string * Json);
  headers : list (string * Json);
  body : Json;
  responseType : option string;
}.

Definition SHEETS_API_BASE_URL : string := "https://sheets.googleapis.com/v4/spreadsheets".
Definition DRIVE_API_BASE_URL : string := "https://www.googleapis.com/drive/v3/files".

(** What the network answers to a request, given the requests sent before. *)
Definition Network (A : Type) : Type := list Request -> Request -> AxiosError + A.

Class RemoteService := {
  reply_spreadsheet : Network Spreadsheet;
  reply_batchUpdate : Network BatchUpdateResponse;
  reply_values : Network UpdateValuesResponse;
  reply_export : Network Json;
  reply_permissions : Network (list Permission);
  reply_drive : Network Json;
}.

(** The request interceptor [_setAxiosRequestAuth]: the directive is resolved
    anew and merged into the request. *)
Definition _setAxiosRequestAuth (auth : GoogleSpreadsheetAuth) (config : Request)
  : Result Request :=
  match getRequestAuthConfig auth with
  | Throw e => Throw e
  | Ok authConfig =>
      Ok {| method := method config;
            baseURL := baseURL config;
            url := url config;
            params := spread (params config)
                        (from_option (fun k => [("key", JStr k)]) [] (params_key authConfig));
            headers := spread (headers config)
                        (from_option (fun a => [("Authorization", JStr a)]) []
                           (headers_Authorization authConfig));
            body := body config;
            responseType := responseType config |}
  end.

(** ** Collaborators that are not among the sources *)

(** The worksheet object, as the document and the row use it: the
    constructor, [updateRawData], and the getters read through [_.sortBy],
    [_.keyBy] and the row's [a1Range]. [headerValues] is [None] while the
    header row has not been fetched. *)
Class WorksheetClass := {
  GoogleSpreadsheetWorksheet : Type;
  new_GoogleSpreadsheetWorksheet : WorksheetProperties -> Json -> GoogleSpreadsheetWorksheet;
  updateRawData :
    GoogleSpreadsheetWorksheet -> WorksheetProperties -> Json -> GoogleSpreadsheetWorksheet;
  worksheet_title : GoogleSpreadsheetWorksheet -> string;
  worksheet_index : GoogleSpreadsheetWorksheet -> Z;
  worksheet_sheetId : GoogleSpreadsheetWorksheet -> Z;
  a1SheetName : GoogleSpreadsheetWorksheet -> string;
  headerValues : GoogleSpreadsheetWorksheet -> option (list string);
}.

(** What the specification asks of the worksheet's merge: applying the same
    echoed properties and data again changes nothing, and a worksheet just
    built from them is already up to date. *)
Class WorksheetLaws `{WorksheetClass} : Prop := {
  updateRawData_idemp ws p d :
    updateRawData (updateRawData ws p d) p d = updateRawData ws p d;
  updateRawData_new p d :
    updateRawData (new_GoogleSpreadsheetWorksheet p d) p d = new_GoogleSpreadsheetWorksheet p d;
}.

(** [utils.ts] and the global [encodeURIComponent]. *)
Class Utils := {
  columnToLetter : Z -> string;
  getFieldMask : Json -> string;
  encodeURIComponent : string -> string;
}.

(** ** The document object *)

(** [_rawSheets] maps a sheet id to a worksheet object, that is to its
    address in the store of worksheet objects. *)
Record GoogleSpreadsheet := {
  spreadsheetId : string;
  auth : GoogleSpreadsheetAuth;
  _rawSheets : gmap Z nat;
  _rawProperties : option SpreadsheetProperties;
  _spreadsheetUrl : option string;
  _deleted : bool;
}.

(** [new GoogleSpreadsheet(spreadsheetId, auth)] *)
Definition new_GoogleSpreadsheet (id : string) (a : GoogleSpreadsheetAuth) : GoogleSpreadsheet :=
  {| spreadsheetId := id; auth := a; _rawSheets := ∅;
     _rawProperties := None; _spreadsheetUrl := None; _deleted := false |}.

Definition set_rawSheets (m : gmap Z nat) (d : GoogleSpreadsheet) : GoogleSpreadsheet :=
  {| spreadsheetId := spreadsheetId d; auth := auth d; _rawSheets := m;
     _rawProperties := _rawProperties d; _spreadsheetUrl := _spreadsheetUrl d;
     _deleted := _deleted d |}.

Definition set_rawProperties (p : option SpreadsheetProperties) (d : GoogleSpreadsheet)
  : GoogleSpreadsheet :=
  {| spreadsheetId := spreadsheetId d; auth := auth d; _rawSheets := _rawSheets d;
     _rawProperties := p; _spreadsheetUrl := _spreadsheetUrl d; _deleted := _deleted d |}.

Definition set_spreadsheetUrl (u : option string) (d : GoogleSpreadsheet) : GoogleSpreadsheet :=
  {| spreadsheetId := spreadsheetId d; auth := auth d; _rawSheets := _rawSheets d;
     _rawProperties := _rawProperties d; _spreadsheetUrl := u; _deleted := _deleted d |}.

(** [obj[key]] on a record of fields; a missing key reads [undefined]. *)
Fixpoint get_field (key : string) (fields : list (string * Json)) : Json :=
  match fields with
  | [] => JUndefined
  | (k, v) :: rest => if String.eqb k key then v else get_field key rest
  end.

(** [s.replace(pattern, replacement)] with a string pattern: the first
    occurrence only. *)
Fixpoint replace (pattern replacement s : string) : string :=
  if String.prefix pattern s
  then replacement +:+
       String.substring (String.length pattern) (String.length s - String.length pattern)%nat s
  else match s with
       | EmptyString => EmptyString
       | String c rest => String c (replace pattern replacement rest)
       end.

(** [_.sortBy]: a stable sort by ascending key. *)
Fixpoint insert_by {A} (key : A -> Z) (x : A) (l : list A) : list A :=
  match l with
  | [] => [x]
  | y :: rest => if key y <=? key x then y :: insert_by key x rest else x :: y :: rest
  end.

Definition sortBy {A} (key : A -> Z) (l : list A) : list A :=
  foldl (fun sorted x => insert_by key x sorted) [] l.

(** The table [EXPORT_CONFIG]: the [singleWorksheet] flag of each format. *)
Definition EXPORT_CONFIG : list (string * bool) :=
  [("html", false); ("zip", false); ("xlsx", false); ("ods", false);
   ("csv", true); ("tsv", true); ("pdf", true)].

(** [EXPORT_CONFIG] is an object literal: a key it does not own is looked up
    in [Object.prototype], whose members are all truthy and have no
    [singleWorksheet]. *)
Definition Object_prototype : list string :=
  ["constructor"; "__defineGetter__"; "__defineSetter__"; "hasOwnProperty";
   "__lookupGetter__"; "__lookupSetter__"; "isPrototypeOf"; "propertyIsEnumerable";
   "toString"; "valueOf"; "__proto__"; "toLocaleString"].

(** [EXPORT_CONFIG[fileType]]: [None] when the lookup is [undefined], else the
    truth of [.singleWorksheet] on what was found. *)
Definition EXPORT_CONFIG_lookup (fileType : string) : option bool :=
  match list_find (fun kv => kv.1 = fileType) EXPORT_CONFIG with
  | Some (_, (_, singleWorksheet)) => Some singleWorksheet
  | None => if bool_decide (fileType ∈ Object_prototype) then Some false else None
  end.

Section Model.
Context {W : WorksheetClass} {U : Utils} {R : RemoteService}.

(** The document, the worksheet objects it and its callers hold, and the
    requests that went out. *)
Record World := {
  doc : GoogleSpreadsheet;
  heap : list GoogleSpreadsheetWorksheet;
  sent : list Request;
}.

Definition M (A : Type) : Type := World -> Result A * World.

#[global] Instance M_ret : MRet M := fun A a w => (Ok a, w).
#[global] Instance M_bind : MBind M := fun A B k m w =>
  match m w with
  | (Ok a, w') => k a w'
  | (Throw e, w') => (Throw e, w')
  end.
#[global] Instance M_fmap : FMap M := fun A B f m w =>
  match m w with
  | (Ok a, w') => (Ok (f a), w')
  | (Throw e, w') => (Throw e, w')
  end.

Definition throw {A} (e : Exn) : M A := fun w => (Throw e, w).
Definition lift {A} (r : Result A) : M A := fun w => (r, w).
Definition this : M GoogleSpreadsheet := fun w => (Ok (doc w), w).
Definition objects : M (list GoogleSpreadsheetWorksheet) := fun w => (Ok (heap w), w).
Definition assign (f : GoogleSpreadsheet -> GoogleSpreadsheet) : M unit :=
  fun w => (Ok tt, {| doc := f (doc w); heap := heap w; sent := sent w |}).
Definition deref (a : nat) : M GoogleSpreadsheetWorksheet :=
  fun w => match heap w !! a with
           | Some ws => (Ok ws, w)
           | None => (Throw (Error TypeError "Cannot read properties of undefined"), w)
           end.

(** [_.each(list, f)] *)
Fixpoint each {A} (l : list A) (f : A -> M unit) : M unit :=
  match l with
  | [] => mret tt
  | x :: rest => f x;; each rest f
  end.

(** The world once [request] has gone out. *)
Definition put_sent (request : Request) (w : World) : World :=
  {| doc := doc w; heap := heap w; sent := sent w ++ [request] |}.

(** A request through an axios instance of the document: the request
    interceptor attaches the credential, the request goes out, and a failure
    passes through [_handleAxiosErrors] ([_handleAxiosResponse] is the
    identity). *)
Definition axios {A} (net : Network A) (config : Request) : M A :=
  fun w =>
    match _setAxiosRequestAuth (auth (doc w)) config with
    | Throw e => (Throw e, w)
    | Ok wired =>
        match net (sent w) wired with
        | inr reply => (Ok reply, put_sent wired w)
        | inl err => (Throw (_handleAxiosErrors (auth (doc w)) err), put_sent wired w)
        end
    end.

Definition sheetsApi (d : GoogleSpreadsheet) (meth path : string)
    (query : list (string * Json)) (payload : Json) : Request :=
  {| method := meth; baseURL := SHEETS_API_BASE_URL +:+ "/" +:+ spreadsheetId d;
     url := path; params := query; headers := []; body := payload; responseType := None |}.

Definition driveApi (d : GoogleSpreadsheet) (meth path : string)
    (query : list (string * Json)) (payload : Json) : Request :=
  {| method := meth; baseURL := DRIVE_API_BASE_URL +:+ "/" +:+ spreadsheetId d;
     url := path; params := query; headers := []; body := payload; responseType := None |}.

Definition not_loaded : Exn :=
  Error NotLoaded "You must call `doc.loadInfo()` before accessing this property".

Definition _ensureInfoLoaded : M unit :=
  d ← this;
  if has (_rawProperties d) then mret tt else throw not_loaded.

Definition _updateRawProperties (newProperties : SpreadsheetProperties) : M unit :=
  assign (set_rawProperties (Some newProperties)).

Definition _updateOrCreateSheet (sheetInfo : SheetInfo) : M unit :=
  fun w =>
    let id := sheetId (properties sheetInfo) in
    match _rawSheets (doc w) !! id with
    | None =>
        let created := new_GoogleSpreadsheetWorksheet (properties sheetInfo) (grid_data sheetInfo) in
        (Ok tt, {| doc := set_rawSheets (<[id := length (heap w)]> (_rawSheets (doc w))) (doc w);
                   heap := heap w ++ [created];
                   sent := sent w |})
    | Some a =>
        (Ok tt, {| doc := doc w;
                   heap := alter (fun ws => updateRawData ws (properties sheetInfo)
                                              (grid_data sheetInfo)) a (heap w);
                   sent := sent w |})
    end.

(** Applying an echoed (or loaded) document state to the cache. *)
Definition apply_snapshot (s : Spreadsheet) : M unit :=
  _updateRawProperties (spreadsheet_properties s);;
  each (sheets s) _updateOrCreateSheet.

Definition _makeSingleUpdateRequest (requestType : string) (requestParams : Json) : M Json :=
  d ← this;
  response ← axios reply_batchUpdate
    (sheetsApi d "post" ":batchUpdate" []
       (JObj [("requests", JArr [JObj [(requestType, requestParams)]]);
              ("includeSpreadsheetInResponse", JBool true)]));
  _updateRawProperties (spreadsheet_properties (updatedSpreadsheet response));;
  each (sheets (updatedSpreadsheet response)) _updateOrCreateSheet;;
  match replies response with
  | [] => throw (Error TypeError "Cannot read properties of undefined")
  | reply :: _ => mret (get_field requestType reply)
  end.

Definition _getProp (param : SpreadsheetProperty) : M Json :=
  _ensureInfoLoaded;;
  d ← this;
  match _rawProperties d with
  | Some props => mret (prop props param)
  | None => throw (Error TypeError "Cannot read properties of null")
  end.

Definition direct_assignment : Exn :=
  Error DirectAssignment "Do not update directly - use `updateProperties()`".

Definition _setProp (param : SpreadsheetProperty) (newVal : Json) : M unit :=
  throw direct_assignment.

Definition updateProperties (props : Json) : M unit :=
  _makeSingleUpdateRequest "updateSpreadsheetProperties"
    (JObj [("properties", props); ("fields", JStr (getFieldMask props))]);;
  mret tt.

Definition loadInfo (includeCells : bool) : M unit :=
  d ← this;
  response ← axios reply_spreadsheet
    (sheetsApi d "get" "/" (if includeCells then [("includeGridData", JBool true)] else [])
       JUndefined);
  assign (set_spreadsheetUrl (spreadsheetUrl response));;
  assign (set_rawProperties (Some (spreadsheet_properties response)));;
  each (sheets response) _updateOrCreateSheet.

Definition resetLocalCache : M unit :=
  assign (set_rawProperties None);;
  assign (set_rawSheets ∅).

(** *** Worksheet accessors *)

(** [_.values(this._rawSheets)]: sheet ids are array-index keys, which a
    JavaScript object enumerates in ascending order. *)
Definition values (m : gmap Z nat) : list nat :=
  (sortBy fst (map_to_list m)).*2.

Definition sheetCount : M Z :=
  _ensureInfoLoaded;;
  d ← this;
  mret (Z.of_nat (length (values (_rawSheets d)))).

Definition sheetsById : M (gmap Z nat) :=
  _ensureInfoLoaded;;
  d ← this;
  mret (_rawSheets d).

Definition sheetsByIndex : M (list nat) :=
  _ensureInfoLoaded;;
  d ← this;
  store ← objects;
  mret (sortBy (fun a => from_option worksheet_index 0 (store !! a))
          (values (_rawSheets d))).

Definition sheetsByTitle : M (gmap string nat) :=
  _ensureInfoLoaded;;
  d ← this;
  store ← objects;
  mret (foldl (fun byTitle a =>
                 <[from_option worksheet_title "undefined" (store !! a) := a]> byTitle)
          ∅ (values (_rawSheets d))).

(** *** Loading cells *)

Definition read_only_filter : Exn :=
  Error UnsupportedFilterForCredential
    "Only A1 ranges are supported when fetching cells with read-only access (using only an API key)".

Definition invalid_filter : Exn :=
  Error InvalidFilter "Each filter must be an A1 range string or a gridrange object".

(** [_.isString], [_.isObject] (which holds of objects and arrays) and
    [_.isArray]. *)
Definition isString (v : Json) : bool :=
  match v with JStr _ => true | _ => false end.

Definition isObject (v : Json) : bool :=
  match v with JObj _ | JArr _ => true | _ => false end.

Definition filtersArray (filters : Json) : list Json :=
  match filters with JArr l => l | _ => [filters] end.

(** The callback of [_.map(filtersArray, ...)]. *)
Definition dataFilter (readOnlyMode : bool) (filter : Json) : Result Json :=
  if isString filter
  then Ok (if readOnlyMode then filter else JObj [("a1Range", filter)])
  else if isObject filter
  then if readOnlyMode then Throw read_only_filter
       else Ok (JObj [("gridRange", filter)])
  else Throw invalid_filter.

(** [_.map] with a callback that may throw: the first throw ends it. *)
Fixpoint map_throwing {A B} (f : A -> Result B) (l : list A) : Result (list B) :=
  match l with
  | [] => Ok []
  | x :: rest =>
      match f x with
      | Throw e => Throw e
      | Ok y => match map_throwing f rest with
                | Throw e => Throw e
                | Ok ys => Ok (y :: ys)
                end
      end
  end.

Definition authMode : M AUTH_MODES :=
  d ← this; lift (getAuthMode (auth d)).

Definition is_API_KEY (mode : AUTH_MODES) : bool :=
  match mode with API_KEY => true | _ => false end.

Definition loadCells (filters : Json) : M unit :=
  mode ← authMode;
  let readOnlyMode := is_API_KEY mode in
  dataFilters ← lift (map_throwing (dataFilter readOnlyMode) (filtersArray filters));
  mode' ← authMode;
  d ← this;
  result ←
    (if is_API_KEY mode'
     then axios reply_spreadsheet
            (sheetsApi d "get" "/"
               [("includeGridData", JBool true); ("ranges", JArr dataFilters)] JUndefined)
     else axios reply_spreadsheet
            (sheetsApi d "post" ":getByDataFilter" []
               (JObj [("includeGridData", JBool true); ("dataFilters", JArr dataFilters)])));
  each (sheets result) _updateOrCreateSheet.

(** *** Exporting *)

Definition export_error (text fileType : string) : Exn :=
  Error UnsupportedExportTarget (text +:+ fileType).

Definition export_not_loaded : Exn :=
  Error NotLoaded "Cannot export sheet that is not fully loaded".

(** The part of [_downloadAs] after the checks on the format. *)
Definition export_request (fileType : string) (worksheetId : option Z)
    (returnStreamInsteadOfBuffer : bool) : M Json :=
  let fileType' := if String.eqb fileType "html" then "zip" else fileType in
  d ← this;
  if negb (truthy_string (_spreadsheetUrl d)) then throw export_not_loaded
  else
    let exportUrl := replace "/edit" "/export" (template (_spreadsheetUrl d)) in
    reply ← axios reply_export
      {| method := "get"; baseURL := ""; url := exportUrl;
         params := [("id", JStr (spreadsheetId d)); ("format", JStr fileType')]
                   ++ (if truthy_number worksheetId
                       then [("gid", JNum (default 0 worksheetId))] else []);
         headers := []; body := JUndefined;
         responseType := Some (if returnStreamInsteadOfBuffer
                               then "stream" else "arraybuffer") |};
    mret reply.

Definition _downloadAs (fileType : string) (worksheetId : option Z)
    (returnStreamInsteadOfBuffer : bool) : M Json :=
  match EXPORT_CONFIG_lookup fileType with
  | None => throw (export_error "unsupported export fileType - " fileType)
  | Some singleWorksheet =>
      (if singleWorksheet
       then if has worksheetId then mret tt
            else throw (export_error "Must specify worksheetId when exporting as " fileType)
       else if truthy_number worksheetId
            then throw (export_error "Cannot specify worksheetId when exporting as " fileType)
            else mret tt);;
      export_request fileType worksheetId returnStreamInsteadOfBuffer
  end.

Definition downloadAsHTML (stream : bool) : M Json := _downloadAs "html" None stream.
Definition downloadAsXLSX (stream : bool) : M Json := _downloadAs "xlsx" None stream.
Definition downloadAsODS (stream : bool) : M Json := _downloadAs "ods" None stream.

(** *** Permissions *)

Definition listPermissions : M (list Permission) :=
  d ← this;
  axios reply_permissions
    (driveApi d "GET" "/permissions"
       [("fields",
         JStr "permissions(id,type,emailAddress,domain,role,displayName,photoLink,deleted)")]
       JUndefined).

(** [role] is [None] for [false]. *)
Definition setPublicAccessLevel (role : option string) : M unit :=
  permissions ← listPermissions;
  let existingPublicPermission :=
    find (fun p => String.eqb (permission_type p) "anyone") permissions in
  d ← this;
  match role with
  | None =>
      match existingPublicPermission with
      | None => mret tt
      | Some p =>
          axios reply_drive
            (driveApi d "DELETE" ("/permissions/" +:+ permission_id p) [] JUndefined);;
          mret tt
      end
  | Some r =>
      axios reply_drive
        (driveApi d "POST" "/permissions" []
           (JObj [("role", JStr (if truthy_string (Some r) then r else "viewer"));
                  ("type", JStr "anyone")]));;
      mret tt
  end.

(** *** Creating a document *)

Definition api_key_cannot_create : Exn :=
  Error InvalidCredential
    "Cannot use api key only to create a new spreadsheet - it is only usable for read-only access of public docs".

(** The static [createNewSpreadsheetDocument]: the new document with its
    store, and the requests that went out. It calls [Axios.request] itself,
    so no interceptor of a document is in the way. *)
Definition createNewSpreadsheetDocument (a : GoogleSpreadsheetAuth) (props : Json)
  : Result World * list Request :=
  if has (apiKey a) then (Throw api_key_cannot_create, [])
  else
    match getRequestAuthConfig a with
    | Throw e => (Throw e, [])
    | Ok authConfig =>
        let request :=
          {| method := "POST"; baseURL := ""; url := SHEETS_API_BASE_URL;
             params := from_option (fun k => [("key", JStr k)]) [] (params_key authConfig);
             headers := from_option (fun h => [("Authorization", JStr h)]) []
                          (headers_Authorization authConfig);
             body := JObj [("properties", props)]; responseType := None |} in
        match reply_spreadsheet [] request with
        | inl err => (Throw (Rethrown err), [request])
        | inr reply =>
            let newSpreadsheet :=
              {| doc := new_GoogleSpreadsheet (new_spreadsheetId reply) a;
                 heap := []; sent := [request] |} in
            let seeded :=
              (assign (set_spreadsheetUrl (spreadsheetUrl reply));;
               assign (set_rawProperties (Some (spreadsheet_properties reply)));;
               each (sheets reply) _updateOrCreateSheet) newSpreadsheet in
            (match seeded.1 with Ok _ => Ok seeded.2 | Throw e => Throw e end, [request])
        end
    end.

(** *** The accessors of the document, as one family *)

Inductive Accessor :=
| Property (param : SpreadsheetProperty)
| SheetCount
| SheetsById
| SheetsByIndex
| SheetsByTitle.

Inductive Value :=
| VProperty (v : Json)
| VCount (n : Z)
| VById (m : gmap Z nat)
| VByIndex (l : list nat)
| VByTitle (m : gmap string nat).

Definition access (a : Accessor) : M Value :=
  match a with
  | Property param => VProperty <$> _getProp param
  | SheetCount => VCount <$> sheetCount
  | SheetsById => VById <$> sheetsById
  | SheetsByIndex => VByIndex <$> sheetsByIndex
  | SheetsByTitle => VByTitle <$> sheetsByTitle
  end.
End Model.

(** ** The row view: [GoogleSpreadsheetRow.ts] *)

Module Row.
Section Row.
Context {W : WorksheetClass} {U : Utils} {R : RemoteService}.

(** [_worksheet] is a reference to the worksheet object. *)
Record t := {
  _worksheet : nat;
  _rowNumber : Z;
  _rawData : Json;
  _deleted : bool;
}.

(** [new GoogleSpreadsheetRow(worksheet, rowNumber, rawData)] *)
Definition new (worksheet : nat) (rowNumber : Z) (rawData : Json) : t :=
  {| _worksheet := worksheet; _rowNumber := rowNumber; _rawData := rawData;
     _deleted := false |}.

Definition deleted (row : t) : bool := _deleted row.
Definition rowNumber (row : t) : Z := _rowNumber row.

Definition row_deleted : Exn :=
  Error RowDeleted "This row has been deleted - call getRows again before making updates.".

(** Modelled from the spec: the [headerValues] getter of the worksheet, which
    is not among the sources, raises [HeadersNotLoaded] until the header row
    has been fetched (section 4.4). *)
Definition worksheet_headerValues (ws : GoogleSpreadsheetWorksheet) : M (list string) :=
  match headerValues ws with
  | Some hs => mret hs
  | None => throw (Error HeadersNotLoaded "Header values are not yet loaded")
  end.

(** Modelled from the spec: [_makeSingleUpdateRequest] of the worksheet,
    which is not among the sources, is the single mutation request of its
    document (sections 4.3 and 4.5). *)
Definition worksheet_makeSingleUpdateRequest (requestType : string) (requestParams : Json)
  : M Json :=
  _makeSingleUpdateRequest requestType requestParams.

Definition a1Range (row : t) : M string :=
  ws ← deref (_worksheet row);
  hs ← worksheet_headerValues ws;
  mret (a1SheetName ws +:+ "!" +:+ "A" +:+ number_toString (_rowNumber row) +:+ ":"
          +:+ columnToLetter (Z.of_nat (length hs)) +:+ number_toString (_rowNumber row)).

(** [save(options)]: [raw] is [options?.raw]. On success the row holds the
    echoed values. *)
Definition save (raw : bool) (row : t) : M t :=
  if _deleted row then throw row_deleted
  else
    range ← a1Range row;
    d ← this;
    response ← axios reply_values
      (sheetsApi d "put" ("/values/" +:+ encodeURIComponent range)
         [("valueInputOption", JStr (if raw then "RAW" else "USER_ENTERED"));
          ("includeValuesInResponse", JBool true)]
         (JObj [("range", JStr range); ("majorDimension", JStr "ROWS");
                ("values", JArr [_rawData row])]));
    mret {| _worksheet := _worksheet row; _rowNumber := _rowNumber row;
            _rawData := nth 0 (updatedData_values response) JUndefined;
            _deleted := _deleted row |}.

(** [delete()]: the reply of the request, and the row with its flag set. *)
Definition delete (row : t) : M (Json * t) :=
  if _deleted row then throw row_deleted
  else
    ws ← deref (_worksheet row);
    result ← worksheet_makeSingleUpdateRequest "deleteRange"
      (JObj [("range", JObj [("sheetId", JNum (worksheet_sheetId ws));
                             ("startRowIndex", JNum (_rowNumber row - 1));
                             ("endRowIndex", JNum (_rowNumber row))]);
             ("shiftDimension", JStr "ROWS")]);
    mret (result, {| _worksheet := _worksheet row; _rowNumber := _rowNumber row;
                     _rawData := _rawData row; _deleted := true |}).

(** A caller's use of a row over time: each call acts on the row as the
    calls before left it; a call that throws leaves the row as it was. *)
Inductive Call :=
| Save (raw : bool)
| Delete.

Definition call (c : Call) (row : t) (w : World) : Result Json * t * World :=
  match c with
  | Save raw =>
      match save raw row w with
      | (Ok row', w') => (Ok JUndefined, row', w')
      | (Throw e, w') => (Throw e, row, w')
      end
  | Delete =>
      match delete row w with
      | (Ok (result, row'), w') => (Ok result, row', w')
      | (Throw e, w') => (Throw e, row, w')
      end
  end.

(** A sequence of calls; [others] is what else happens to the document
    before each call. The outcomes are listed in order. *)
Fixpoint calls (cs : list (Call * (World -> World))) (row : t) (w : World)
  : list (Result Json) * t * World :=
  match cs with
  | [] => ([], row, w)
  | (c, others) :: rest =>
      let '(r, row', w') := call c row (others w) in
      let '(rs, row'', w'') := calls rest row' w' in
      (r :: rs, row'', w'')
  end.
End Row.
End Row.

(** ** Stand-ins for the collaborators, to run the model on examples *)

Module Fixture.

(** Modelled from the spec: a worksheet holds its properties, a cache of
    cells by coordinate and the header row once fetched (section 3 and 4.4);
    [GoogleSpreadsheetWorksheet.ts] is not among the sources. Grid data is
    read as a list of [[row, column, value]] entries, each written over the
    cell at its coordinate. *)
Record Worksheet := {
  rawProperties : WorksheetProperties;
  cells : gmap (Z * Z) Json;
  headerRow : option (list string);
}.

(** The coordinate and value of a well-formed entry. *)
Definition entry (e : Json) : option ((Z * Z) * Json) :=
  match e with
  | JArr [JNum r; JNum c; v] => Some ((r, c), v)
  | _ => None
  end.

Definition fillCell (cache : gmap (Z * Z) Json) (e : Json) : gmap (Z * Z) Json :=
  match entry e with
  | Some (at_, v) => <[at_ := v]> cache
  | None => cache
  end.

Definition fillCellData (cache : gmap (Z * Z) Json) (data : Json) : gmap (Z * Z) Json :=
  match data with
  | JArr entries => foldl fillCell cache entries
  | _ => cache
  end.

Definition worksheet : WorksheetClass := {|
  GoogleSpreadsheetWorksheet := Worksheet;
  new_GoogleSpreadsheetWorksheet p d :=
    {| rawProperties := p; cells := fillCellData ∅ d; headerRow := None |};
  updateRawData ws p d :=
    {| rawProperties := p; cells := fillCellData (cells ws) d; headerRow := headerRow ws |};
  worksheet_title ws := sheet_title (rawProperties ws);
  worksheet_index ws := sheet_index (rawProperties ws);
  worksheet_sheetId ws := sheetId (rawProperties ws);
  a1SheetName ws := sheet_title (rawProperties ws);
  headerValues ws := headerRow ws;
|}.

Fixpoint columnToLetter_loop (fuel : nat) (col : Z) (letter : string) : string :=
  match fuel with
  | O => letter
  | S fuel' =>
      if 0 <? col
      then let temp := (col - 1) mod 26 in
           columnToLetter_loop fuel' ((col - temp - 1) / 26)
             (String (ascii_of_nat (Z.to_nat (temp + 65))) letter)
      else letter
  end.

Definition join_keys (fields : list (string * Json)) : string :=
  String.concat "," fields.*1.

Definition encode_char (c : ascii) : string :=
  if Ascii.eqb c ":" then "%3A"
  else if Ascii.eqb c " " then "%20"
  else String c EmptyString.

Definition utils : Utils := {|
  columnToLetter col := columnToLetter_loop 64 col "";
  getFieldMask o := match o with JObj fields => join_keys fields | _ => "" end;
  encodeURIComponent s := String.concat "" (encode_char <$> list_ascii_of_string s);
|}.

Definition budget : SpreadsheetProperties :=
  {| title := JStr "Budget"; locale := JStr "en_US"; timeZone := JStr "Etc/GMT";
     autoRecalc := JStr "ON_CHANGE"; defaultFormat := JObj [];
     spreadsheetTheme := JObj []; iterativeCalculationSettings := JUndefined |}.

Definition sheet1 : SheetInfo :=
  {| properties := {| sheetId := 0; sheet_title := "Sheet1"; sheet_index := 0;
                      sheetType := "GRID"; gridProperties := JObj [] |};
     grid_data := JArr [JArr [JNum 0; JNum 0; JStr "name"]; JArr [JNum 0; JNum 1; JStr "age"]] |}.

Definition sheet2 : SheetInfo :=
  {| properties := {| sheetId := 7; sheet_title := "Notes"; sheet_index := 1;
                      sheetType := "GRID"; gridProperties := JObj [] |};
     grid_data := JArr [] |}.

Definition snapshot : Spreadsheet :=
  {| new_spreadsheetId := "doc-1";
     spreadsheetUrl := Some "https://docs.google.com/spreadsheets/d/doc-1/edit";
     spreadsheet_properties := budget;
     sheets := [sheet1; sheet2] |}.

Definition public_permissions : list Permission :=
  [ {| permission_id := "0123"; permission_type := "user"; permission_role := "owner" |};
    {| permission_id := "anyoneWithLink"; permission_type := "anyone";
       permission_role := "reader" |} ].

Definition private_permissions : list Permission :=
  [ {| permission_id := "0123"; permission_type := "user"; permission_role := "owner" |} ].

(** A service that accepts every request and echoes [snapshot]. *)
Definition service (permissions : list Permission) : RemoteService := {|
  reply_spreadsheet _ _ := inr snapshot;
  reply_batchUpdate _ _ := inr {| updatedSpreadsheet := snapshot; replies := [[]] |};
  reply_values _ _ := inr {| updatedData_values := [JArr [JStr "Al"; JStr "30"]] |};
  reply_export _ _ := inr (JStr "payload");
  reply_permissions _ _ := inr permissions;
  reply_drive _ _ := inr JUndefined;
|}.

Definition key_auth : GoogleSpreadsheetAuth :=
  {| apiKey := Some "k-123"; authorize := None; getAccessToken := None; token := None |}.

Definition token_auth : GoogleSpreadsheetAuth :=
  {| apiKey := None; authorize := None; getAccessToken := None; token := Some "t-456" |}.

(** A document just constructed, with nothing sent. *)
Definition fresh (a : GoogleSpreadsheetAuth) : @World worksheet :=
  {| doc := new_GoogleSpreadsheet "doc-1" a; heap := []; sent := [] |}.

(** A document whose first sheet has its header row fetched, and the row
    read from line 2 of that sheet. *)
Definition people : @GoogleSpreadsheetWorksheet worksheet :=
  {| rawProperties := properties sheet1; cells := ∅; headerRow := Some ["name"; "age"] |}.

Definition listed (a : GoogleSpreadsheetAuth) : @World worksheet :=
  {| doc := set_rawSheets {[0 := 0%nat]}
              (set_rawProperties (Some budget) (new_GoogleSpreadsheet "doc-1" a));
     heap := [people]; sent := [] |}.

Definition row2 : Row.t := Row.new 0 2 (JArr [JStr "Al"; JStr "30"]).

Definition row2_deleted : Row.t :=
  Row.Build_t 0 2 (JArr [JStr "Al"; JStr "30"]) true.

End Fixture.

(** ** Vocabulary of the statements *)

(** A transport failure with a response of status [st] and body [b]. *)
Definition failure (text : string) (st : Z) (b : option ErrorBody) : AxiosError :=
  {| error_message := text; response := Some {| status := st; data := b |} |}.

(** A failure body with the structured error [{code: c, message: m}]. *)
Definition structured (c : Z) (m : string) : option ErrorBody :=
  Some {| error := Some {| code := Some c; message := Some m |} |}.

Section Vocabulary.
Context {W : WorksheetClass} {U : Utils} {R : RemoteService}.

(** The batch envelope of a single mutation request: one entry in
    [requests], and the updated document asked back. *)
Definition envelope (d : GoogleSpreadsheet) (requestType : string) (requestParams : Json)
  : Request :=
  sheetsApi d "post" ":batchUpdate" []
    (JObj [("requests", JArr [JObj [(requestType, requestParams)]]);
           ("includeSpreadsheetInResponse", JBool true)]).

(** The world after a computation. *)
Definition after {A} (m : M A) (w : World) : World := (m w).2.

(** The outcome of a computation. *)
Definition outcome {A} (m : M A) (w : World) : Result A := (m w).1.

(** The kind of error a result carries, if it is one of the library's own. *)
Definition raised {A} (r : Result A) : option ErrorKind :=
  match r with
  | Throw (Error kind _) => Some kind
  | _ => None
  end.

(** Every worksheet reference of the document points into the store, and
    no two sheet ids share a worksheet object. *)
Definition well_formed (w : World) : Prop :=
  (forall id a, _rawSheets (doc w) !! id = Some a -> (a < length (heap w))%nat)
  /\ (forall id1 id2 a,
        _rawSheets (doc w) !! id1 = Some a -> _rawSheets (doc w) !! id2 = Some a -> id1 = id2).

(** The request an export sends, for a document whose export base is [u]. *)
Definition export_config (d : GoogleSpreadsheet) (u fileType : string)
    (worksheetId : option Z) (stream : bool) : Request :=
  {| method := "get"; baseURL := ""; url := replace "/edit" "/export" u;
     params := [("id", JStr (spreadsheetId d));
                ("format", JStr (if String.eqb fileType "html" then "zip" else fileType))]
               ++ (if truthy_number worksheetId
                   then [("gid", JNum (default 0 worksheetId))] else []);
     headers := []; body := JUndefined;
     responseType := Some (if stream then "stream" else "arraybuffer") |}.

(** The two ways [loadCells] fetches: the plain [GET] with [ranges], and the
    [:getByDataFilter] [POST]; either way the sheets of the reply are
    upserted. *)
Definition fetch_by_get (dataFilters : list Json) : M unit :=
  d ← this;
  result ← axios reply_spreadsheet
    (sheetsApi d "get" "/"
       [("includeGridData", JBool true); ("ranges", JArr dataFilters)] JUndefined);
  each (sheets result) _updateOrCreateSheet.

Definition fetch_by_post (dataFilters : list Json) : M unit :=
  d ← this;
  result ← axios reply_spreadsheet
    (sheetsApi d "post" ":getByDataFilter" []
       (JObj [("includeGridData", JBool true); ("dataFilters", JArr dataFilters)]));
  each (sheets result) _updateOrCreateSheet.

(** A filter as [:getByDataFilter] takes it. *)
Definition as_data_filter (filter : Json) : Json :=
  if isString filter then JObj [("a1Range", filter)] else JObj [("gridRange", filter)].

(** The request that lists the permissions, and the one that deletes one. *)
Definition permissions_request (d : GoogleSpreadsheet) : Request :=
  driveApi d "GET" "/permissions"
    [("fields",
      JStr "permissions(id,type,emailAddress,domain,role,displayName,photoLink,deleted)")]
    JUndefined.

Definition delete_permission_request (d : GoogleSpreadsheet) (p : Permission) : Request :=
  driveApi d "DELETE" ("/permissions/" +:+ permission_id p) [] JUndefined.

(** The cache is up to date with an echoed worksheet: its sheet id has a
    worksheet object, and merging the echoed properties and data into that
    object changes nothing. *)
Definition current (info : SheetInfo) (w : World) : Prop :=
  exists a ws,
    _rawSheets (doc w) !! sheetId (properties info) = Some a
    /\ heap w !! a = Some ws
    /\ updateRawData ws (properties info) (grid_data info) = ws.

(** The sheet ids of an echoed document state. *)
Definition sheetIds (s : Spreadsheet) : list Z :=
  (fun info => sheetId (properties info)) <$> sheets s.

(** The A1 range of a row on worksheet [ws] with header row [hs], and the
    requests the row sends. *)
Definition row_range (ws : GoogleSpreadsheetWorksheet) (hs : list string) (row : Row.t)
  : string :=
  a1SheetName ws +:+ "!" +:+ "A" +:+ number_toString (Row._rowNumber row) +:+ ":"
    +:+ columnToLetter (Z.of_nat (length hs)) +:+ number_toString (Row._rowNumber row).

Definition save_request (d : GoogleSpreadsheet) (range : string) (raw : bool) (row : Row.t)
  : Request :=
  sheetsApi d "put" ("/values/" +:+ encodeURIComponent range)
    [("valueInputOption", JStr (if raw then "RAW" else "USER_ENTERED"));
     ("includeValuesInResponse", JBool true)]
    (JObj [("range", JStr range); ("majorDimension", JStr "ROWS");
           ("values", JArr [Row._rawData row])]).

Definition delete_range (ws : GoogleSpreadsheetWorksheet) (row : Row.t) : Json :=
  JObj [("range", JObj [("sheetId", JNum (worksheet_sheetId ws));
                        ("startRowIndex", JNum (Row._rowNumber row - 1));
                        ("endRowIndex", JNum (Row._rowNumber row))]);
        ("shiftDimension", JStr "ROWS")].

(** What else happened to the document over a sequence of calls. *)
Definition others (cs : list (Row.Call * (World -> World))) (w : World) : World :=
  foldl (fun v c => c.2 v) w cs.

End Vocabulary.

(** ** More of the document, and reading a row *)

(** Truthiness of a value. *)
Definition truthy (v : Json) : bool :=
  match v with
  | JUndefined | JNull => false
  | JBool b => b
  | JNum n => negb (n =? 0)
  | JStr s => negb (String.eqb s "")
  | JArr _ | JObj _ => true
  end.

(** [s.includes(pattern)] *)
Fixpoint includes (pattern s : string) : bool :=
  String.prefix pattern s
  || match s with
     | EmptyString => false
     | String _ rest => includes pattern rest
     end.

(** [list.indexOf(x)]: the first index of [x], or -1. *)
Fixpoint indexOf (x : string) (l : list string) : Z :=
  match l with
  | [] => -1
  | y :: rest =>
      if String.eqb y x then 0
      else let i := indexOf x rest in if i <? 0 then -1 else i + 1
  end.

(** [v[index]]: an element of an array ([undefined] out of range), a field
    of an object, a character of a string; [undefined] on a number or a
    boolean, and a [TypeError] on [undefined] and [null]. *)
Definition element (v : Json) (index : Z) : Result Json :=
  match v with
  | JArr items => Ok (if index <? 0 then JUndefined else nth (Z.to_nat index) items JUndefined)
  | JObj fields => Ok (get_field (number_toString index) fields)
  | JStr s =>
      Ok (if index <? 0 then JUndefined
          else match String.get (Z.to_nat index) s with
               | Some c => JStr (String c EmptyString)
               | None => JUndefined
               end)
  | JBool _ | JNum _ => Ok JUndefined
  | JUndefined | JNull => Throw (Error TypeError "Cannot read properties of undefined")
  end.

(** The options of [share]; [share_emailMessage] is [undefined] when not
    given. *)
Record ShareOptions := {
  share_role : option string;
  share_isGroup : bool;
  share_emailMessage : Json;
}.

Definition set_deleted (b : bool) (d : GoogleSpreadsheet) : GoogleSpreadsheet :=
  {| spreadsheetId := spreadsheetId d; auth := auth d; _rawSheets := _rawSheets d;
     _rawProperties := _rawProperties d; _spreadsheetUrl := _spreadsheetUrl d; _deleted := b |}.

Section More.
Context {W : WorksheetClass} {U : Utils} {R : RemoteService}.

(** [responseRanges] is [undefined] when not given. *)
Definition _makeBatchUpdateRequest (requests : list Json) (responseRanges : Json) : M unit :=
  d ← this;
  response ← axios reply_batchUpdate
    (sheetsApi d "post" ":batchUpdate" []
       (JObj (spread [("requests", JArr requests);
                      ("includeSpreadsheetInResponse", JBool true)]
                (if truthy responseRanges
                 then spread [("responseIncludeGridData", JBool true)]
                        (match responseRanges with
                         | JStr "*" => []
                         | _ => [("responseRanges", responseRanges)]
                         end)
                 else []))));
  _updateRawProperties (spreadsheet_properties (updatedSpreadsheet response));;
  each (sheets (updatedSpreadsheet response)) _updateOrCreateSheet.

Definition getInfo : M unit := loadInfo false.

Definition deleteSheet (id : Z) : M unit :=
  _makeSingleUpdateRequest "deleteSheet" (JObj [("sheetId", JNum id)]);;
  assign (fun d => set_rawSheets (delete id (_rawSheets d)) d).

(** [namedRangeId] is [undefined] when not given. *)
Definition addNamedRange (name : string) (range : Json) (namedRangeId : Json) : M Json :=
  _makeSingleUpdateRequest "addNamedRange"
    (JObj [("name", JStr name); ("namedRangeId", namedRangeId); ("range", range)]).

Definition deleteNamedRange (namedRangeId : string) : M Json :=
  _makeSingleUpdateRequest "deleteNamedRange" (JObj [("namedRangeId", JStr namedRangeId)]).

(** [delete()] of the document. *)
Definition delete_spreadsheet : M Json :=
  d ← this;
  response ← axios reply_drive (driveApi d "delete" "" [] JUndefined);
  assign (set_deleted true);;
  mret response.

Definition share (emailAddressOrDomain : string) (opts : option ShareOptions) : M Json :=
  let isEmail := includes "@" emailAddressOrDomain in
  let emailAddress := if isEmail then Some emailAddressOrDomain else None in
  let domain := if isEmail then None else Some emailAddressOrDomain in
  let emailMessage := from_option share_emailMessage JUndefined opts in
  let role := opts ≫= share_role in
  let isGroup := from_option share_isGroup false opts in
  d ← this;
  shareReq ← axios reply_drive
    (driveApi d "POST" "/permissions"
       (spread
          (spread
             (match emailMessage with
              | JBool false => [("sendNotificationEmail", JBool false)]
              | _ => []
              end)
             (if isString emailMessage then [("emailMessage", emailMessage)] else []))
          (if bool_decide (role = Some "owner")
           then [("transferOwnership", JBool true)] else []))
       (JObj
          (spread
             (spread
                [("role", JStr (if truthy_string role then template role else "writer"))]
                (if truthy_string emailAddress
                 then [("type", JStr (if isGroup then "group" else "user"));
                       ("emailAddress", JStr (template emailAddress))]
                 else []))
             (if truthy_string domain
              then [("type", JStr "domain"); ("domain", JStr (template domain))]
              else []))));
  mret shareReq.

(** *** Reading a row

    [get] and [toObject] of [GoogleSpreadsheetRow]. ([set] and [assign]
    write [_rawData[index]], which for a key that is no header is the
    property -1 of the array: a row in that state is not a value of
    [Row.t], so they are left out.) *)

Definition row_get (key : string) (row : Row.t) : M Json :=
  ws ← deref (Row._worksheet row);
  hs ← Row.worksheet_headerValues ws;
  lift (element (Row._rawData row) (indexOf key hs)).

(** The loop of [toObject] from column [i] on. An empty header is skipped;
    so is [__proto__], whose assignment gives the object no field. *)
Fixpoint toObject_from (hs : list string) (i : Z) (rawData : Json)
    (o : list (string * Json)) : Result (list (string * Json)) :=
  match hs with
  | [] => Ok o
  | key :: rest =>
      if String.eqb key "" then toObject_from rest (i + 1) rawData o
      else match element rawData i with
           | Throw e => Throw e
           | Ok v =>
               toObject_from rest (i + 1) rawData
                 (if String.eqb key "__proto__" then o else set_field key v o)
           end
  end.

Definition row_toObject (row : Row.t) : M (list (string * Json)) :=
  ws ← deref (Row._worksheet row);
  hs ← Row.worksheet_headerValues ws;
  lift (toObject_from hs 0 (Row._rawData row) []).

End More.

(** *** Adding a worksheet *)

(** [String(v)], which a value becomes as a property key. *)
Fixpoint toString (v : Json) : string :=
  match v with
  | JUndefined => "undefined"
  | JNull => "null"
  | JBool b => if b then "true" else "false"
  | JNum n => number_toString n
  | JStr s => s
  | JArr items =>
      String.concat ","
        (map (fun item => match item with
                          | JUndefined | JNull => ""
                          | _ => toString item
                          end) items)
  | JObj _ => "[object Object]"
  end.

(** [_.omit(o, ...keys)] *)
Definition omit (keys : list string) (o : list (string * Json)) : list (string * Json) :=
  List.filter (fun kv => negb (existsb (String.eqb kv.1) keys)) o.

(** [v.k] for a key [k] that no prototype holds: [undefined] on a value
    that does not own it, and a [TypeError] on [undefined] and [null]. *)
Definition member (v : Json) (k : string) : Result Json :=
  match v with
  | JUndefined | JNull => Throw (Error TypeError "Cannot read properties of undefined")
  | JObj fields => Ok (get_field k fields)
  | _ => Ok JUndefined
  end.

(** What [sheetsById[key]] finds: the worksheet under an own key, a member
    of [Object.prototype] (the map is a plain object), or [undefined]. *)
Inductive Found :=
| Own (a : nat)
| Inherited
| Missing.

Definition sheet_member (byId : gmap Z nat) (key : Json) : Found :=
  match find (fun kv => String.eqb (number_toString kv.1) (toString key))
          (map_to_list byId) with
  | Some (_, a) => Own a
  | None => if bool_decide (toString key ∈ Object_prototype) then Inherited else Missing
  end.

Section Adding.
Context {W : WorksheetClass} {U : Utils} {R : RemoteService}.

(** [setHeaderRow(headerValues, headerRowIndex)] of the worksheet at an
    address; [GoogleSpreadsheetWorksheet.ts] is not among the sources. *)
Variable setHeaderRow : nat -> Json -> Json -> M unit.

(** [properties] is the fields of the object given, [[]] when none is. *)
Definition addSheet (properties : list (string * Json)) : M Found :=
  response ← _makeSingleUpdateRequest "addSheet"
    (JObj [("properties", JObj (omit ["headerValues"; "headerRowIndex"] properties))]);
  response_properties ← lift (member response "properties");
  newSheetId ← lift (member response_properties "sheetId");
  byId ← sheetsById;
  let newSheet := sheet_member byId newSheetId in
  (if truthy (get_field "headerValues" properties)
   then match newSheet with
        | Own a =>
            setHeaderRow a (get_field "headerValues" properties)
              (get_field "headerRowIndex" properties)
        | Inherited => throw (Error TypeError "newSheet.setHeaderRow is not a function")
        | Missing => throw (Error TypeError "Cannot read properties of undefined")
        end
   else mret tt);;
  mret newSheet.

End Adding.

(** ** A caller's use of a document over time *)

Section Operations.
Context {W : WorksheetClass} {U : Utils} {R : RemoteService}.

(** The methods that act on a document, with their arguments. *)
Inductive Operation :=
| LoadInfo (includeCells : bool)
| ResetLocalCache
| UpdateProperties (props : Json)
| SingleUpdate (requestType : string) (requestParams : Json)
| BatchUpdate (requests : list Json) (responseRanges : Json)
| DeleteSheet (id : Z)
| AddNamedRange (name : string) (range namedRangeId : Json)
| DeleteNamedRange (namedRangeId : string)
| LoadCells (filters : Json)
| DownloadAs (fileType : string) (worksheetId : option Z) (stream : bool)
| DeleteSpreadsheet
| ListPermissions
| SetPublicAccessLevel (role : option string)
| Share (emailAddressOrDomain : string) (opts : option ShareOptions)
| RowSave (raw : bool) (row : Row.t)
| RowDelete (row : Row.t).

(** A call whose result the caller drops. *)
Definition run (op : Operation) : M unit :=
  match op with
  | LoadInfo includeCells => loadInfo includeCells
  | ResetLocalCache => resetLocalCache
  | UpdateProperties props => updateProperties props
  | SingleUpdate requestType requestParams =>
      _makeSingleUpdateRequest requestType requestParams;; mret tt
  | BatchUpdate requests responseRanges => _makeBatchUpdateRequest requests responseRanges
  | DeleteSheet id => deleteSheet id
  | AddNamedRange name range namedRangeId => addNamedRange name range namedRangeId;; mret tt
  | DeleteNamedRange namedRangeId => deleteNamedRange namedRangeId;; mret tt
  | LoadCells filters => loadCells filters
  | DownloadAs fileType worksheetId stream => _downloadAs fileType worksheetId stream;; mret tt
  | DeleteSpreadsheet => delete_spreadsheet;; mret tt
  | ListPermissions => listPermissions;; mret tt
  | SetPublicAccessLevel role => setPublicAccessLevel role
  | Share emailAddressOrDomain opts => share emailAddressOrDomain opts;; mret tt
  | RowSave raw row => Row.save raw row;; mret tt
  | RowDelete row => Row.delete row;; mret tt
  end.

(** The world after a sequence of calls, each made whether or not the one
    before threw. *)
Definition runs (ops : list Operation) (w : World) : World :=
  foldl (fun v op => after (run op) v) w ops.

(** The two calls that take worksheets out of the cache. *)
Definition evicts (op : Operation) : bool :=
  match op with
  | ResetLocalCache | DeleteSheet _ => true
  | _ => false
  end.

(** The one call that sets the export address. *)
Definition loads (op : Operation) : bool :=
  match op with
  | LoadInfo _ => true
  | _ => false
  end.

(** A computation relates every world to the world it leaves. *)
Definition respects {A} (rel : World -> World -> Prop) (m : M A) : Prop :=
  forall w, rel w (after m w).

(** Every sheet id keeps its worksheet object, and no object leaves the
    store. *)
Definition kept (w w' : World) : Prop :=
  (forall id a, _rawSheets (doc w) !! id = Some a -> _rawSheets (doc w') !! id = Some a)
  /\ (length (heap w) <= length (heap w'))%nat.

(** The export address is as it was. *)
Definition same_address (w w' : World) : Prop :=
  _spreadsheetUrl (doc w') = _spreadsheetUrl (doc w).

End Operations.

(** ** More vocabulary *)

Section Isolation.
Context {W : WorksheetClass}.

(** The cache refers to no worksheet object below address [n]. *)
Definition above (n : nat) (w : World) : Prop :=
  (forall id a, _rawSheets (doc w) !! id = Some a -> (n <= a)%nat)
  /\ (n <= length (heap w))%nat.

(** From a world that refers to nothing below [n], a world that does not
    either, with the objects below [n] as they were. *)
Definition isolates (n : nat) (w w' : World) : Prop :=
  above n w ->
  above n w' /\ forall b, (b < n)%nat -> heap w' !! b = heap w !! b.

End Isolation.

Section MoreVocabulary.
Context {W : WorksheetClass} {U : Utils} {R : RemoteService}.

(** The role [share] asks for: the one given, or "writer". *)
Definition share_role_sent (opts : option ShareOptions) : string :=
  if truthy_string (opts ≫= share_role) then template (opts ≫= share_role) else "writer".

(** The request [createNewSpreadsheetDocument] sends under directive [cfg]. *)
Definition create_request (cfg : AuthConfig) (props : Json) : Request :=
  {| method := "POST"; baseURL := ""; url := SHEETS_API_BASE_URL;
     params := from_option (fun k => [("key", JStr k)]) [] (params_key cfg);
     headers := from_option (fun h => [("Authorization", JStr h)]) []
                  (headers_Authorization cfg);
     body := JObj [("properties", props)]; responseType := None |}.

(** A credential of no shape, and a service that refuses every request with
    a bare 403. *)
Definition no_auth : GoogleSpreadsheetAuth :=
  {| apiKey := None; authorize := None; getAccessToken := None; token := None |}.

Definition refusing_service : RemoteService := {|
  reply_spreadsheet _ _ := inl (failure "Request failed with status code 403" 403 None);
  reply_batchUpdate _ _ := inl (failure "Request failed with status code 403" 403 None);
  reply_values _ _ := inl (failure "Request failed with status code 403" 403 None);
  reply_export _ _ := inl (failure "Request failed with status code 403" 403 None);
  reply_permissions _ _ := inl (failure "Request failed with status code 403" 403 None);
  reply_drive _ _ := inl (failure "Request failed with status code 403" 403 None);
|}.

(** A service that accepts every request and answers an [addSheet] request
    with the properties of the second sheet of [Fixture.snapshot]. *)
Definition adding_service : RemoteService := {|
  reply_spreadsheet _ _ := inr Fixture.snapshot;
  reply_batchUpdate _ _ :=
    inr {| updatedSpreadsheet := Fixture.snapshot;
           replies := [[("addSheet",
                         JObj [("properties",
                                JObj [("sheetId", JNum 7); ("title", JStr "Notes")])])]] |};
  reply_values _ _ := inr {| updatedData_values := [] |};
  reply_export _ _ := inr JUndefined;
  reply_permissions _ _ := inr [];
  reply_drive _ _ := inr JUndefined;
|}.

End MoreVocabulary.

(** * Properties *)

(** ** The error interceptor *)

Section Interceptor.

Lemma handle_body auth err b :
  response_data err = Some b ->
  _handleAxiosErrors auth err =
    match error b with
    | None => Rethrown err
    | Some e => Rethrown {| error_message := api_error_message e; response := response err |}
    end.
Proof. intros Hb. unfold _handleAxiosErrors. now rewrite Hb. Qed.

Lemma handle_no_body auth err :
  response_data err = None ->
  _handleAxiosErrors auth err =
    if bool_decide (status <$> response err = Some 403) && has (apiKey auth)
    then Error AccessDeniedPrivateDocument private_sheet_message
    else Rethrown err.
Proof. intros Hb. unfold _handleAxiosErrors. now rewrite Hb. Qed.

(** C4, as the claim words it, fails: for a 404 whose body carries
    [{code: 404, message: "Requested entity was not found."}] the message
    the interceptor sets starts with "Google API error", not with
    "Service error". *)
Lemma C4_service_error_prefix_counterexample :
  _handleAxiosErrors Fixture.token_auth
    (failure "Request failed with status code 404" 404
       (structured 404 "Requested entity was not found."))
  = Rethrown (failure "Google API error - [404] Requested entity was not found." 404
                (structured 404 "Requested entity was not found."))
  /\ _handleAxiosErrors Fixture.token_auth
       (failure "Request failed with status code 404" 404
          (structured 404 "Requested entity was not found."))
     <> Rethrown (failure "Service error - [404] Requested entity was not found." 404
                    (structured 404 "Requested entity was not found.")).
Proof.
  split.
  - reflexivity.
  - intros Heq. vm_compute in Heq. discriminate Heq.
Qed.

(** C4, amended: for every failure whose body carries a structured
    [{code, message}] error, whatever the status and the credential, the
    interceptor rethrows the same error with its message replaced by exactly
    "Google API error - [<code>] <message>". *)
Theorem C4_structured_error_normalized
    (auth : GoogleSpreadsheetAuth) (text : string) (st c : Z) (m : string) :
  _handleAxiosErrors auth (failure text st (structured c m))
  = Rethrown (failure ("Google API error - [" +:+ number_toString c +:+ "] " +:+ m) st
                (structured c m)).
Proof.
  rewrite (handle_body auth _ {| error := Some {| code := Some c; message := Some m |} |}).
  - reflexivity.
  - reflexivity.
Qed.

(** C5, as the claim words it, fails: a 403 under an API-key credential
    whose response carries a structured error body is rethrown with the
    normalized message; the private-document error is not raised. *)
Lemma C5_forbidden_with_body_counterexample :
  _handleAxiosErrors Fixture.key_auth
    (failure "Request failed with status code 403" 403
       (structured 403 "The caller does not have permission"))
  <> Error AccessDeniedPrivateDocument private_sheet_message.
Proof. intros Heq. vm_compute in Heq. discriminate Heq. Qed.

(** C5, amended: a 403 whose response carries no body, under a credential
    with an API key, raises the private-document error; a failure without a
    body that is not such a 403, and a failure whose body carries no
    structured error, propagate as the raw transport error, unchanged. *)
Theorem C5_forbidden_without_body (auth : GoogleSpreadsheetAuth) :
  (has (apiKey auth) = true ->
   forall text,
     _handleAxiosErrors auth (failure text 403 None)
     = Error AccessDeniedPrivateDocument private_sheet_message)
  /\ (forall err,
        response_data err = None ->
        status <$> response err <> Some 403 \/ has (apiKey auth) = false ->
        _handleAxiosErrors auth err = Rethrown err)
  /\ (forall err b,
        response_data err = Some b -> error b = None ->
        _handleAxiosErrors auth err = Rethrown err).
Proof.
  split; [|split].
  - intros Hkey text. rewrite handle_no_body by reflexivity.
    simpl. now rewrite Hkey.
  - intros err Hnone Hother. rewrite handle_no_body by assumption.
    destruct Hother as [Hst | Hkey].
    + rewrite bool_decide_eq_false_2 by assumption. reflexivity.
    + rewrite Hkey. now rewrite andb_false_r.
  - intros err b Hb Herr. rewrite (handle_body _ _ b) by assumption.
    now rewrite Herr.
Qed.

Lemma C5_forbidden_without_body_witness :
  _handleAxiosErrors Fixture.key_auth (failure "Request failed with status code 403" 403 None)
  = Error AccessDeniedPrivateDocument private_sheet_message
  /\ _handleAxiosErrors Fixture.token_auth
       (failure "Request failed with status code 403" 403 None)
     = Rethrown (failure "Request failed with status code 403" 403 None)
  /\ _handleAxiosErrors Fixture.key_auth
       (failure "Request failed with status code 500" 500 (Some {| error := None |}))
     = Rethrown (failure "Request failed with status code 500" 500 (Some {| error := None |})).
Proof.
  split; [|split].
  - apply (C5_forbidden_without_body Fixture.key_auth). reflexivity.
  - apply (C5_forbidden_without_body Fixture.token_auth).
    + reflexivity.
    + right. reflexivity.
  - apply (C5_forbidden_without_body Fixture.key_auth) with (b := {| error := None |});
      reflexivity.
Defined.

End Interceptor.

(** ** Credentials *)

Section Credentials.
Context {W : WorksheetClass} {R : RemoteService}.

Lemma truthy_string_nonempty (tok : option string) :
  truthy_string tok = true -> exists s, tok = Some s /\ s <> "".
Proof.
  destruct tok as [[|c s]|]; simpl; intros Ht; try discriminate Ht.
  exists (String c s). split; [reflexivity | discriminate].
Qed.

Lemma nonempty_truthy_string (s : string) : s <> "" -> truthy_string (Some s) = true.
Proof. destruct s; [congruence | reflexivity]. Qed.

(** The token the three bearer shapes resolve to, when none of them throws. *)
Lemma bearer_config (a : GoogleSpreadsheetAuth) (tok : option string) :
  apiKey a = None ->
  authorize a = Some (Resolves tok)
  \/ authorize a = None /\ getAccessToken a = Some (Resolves tok)
  \/ authorize a = None /\ getAccessToken a = None /\ token a = tok ->
  getRequestAuthConfig a =
    if truthy_string tok
    then Ok {| params_key := None;
               headers_Authorization := Some ("Bearer " +:+ template tok) |}
    else Throw invalid_auth.
Proof.
  intros Hkey Hshape. unfold getRequestAuthConfig. rewrite Hkey.
  destruct Hshape as [Hj | [[Hj Ho] | [Hj [Ho Ht]]]].
  - rewrite Hj. reflexivity.
  - rewrite Hj, Ho. reflexivity.
  - rewrite Hj, Ho, Ht. destruct tok; reflexivity.
Qed.

(** C7: the per-request directive has exactly one kind. With an API key it
    is the query parameter [key] and nothing else; without one, whenever the
    resolution succeeds it is a Bearer [Authorization] header with a
    non-empty token and nothing else, and each of the three other shapes
    yields it from a usable token. When no shape matches, or when the shape
    resolves to no usable token, the resolution raises [InvalidCredential].
    Creating a document under a credential with an API key raises
    [InvalidCredential] and sends nothing. *)
Theorem C7_one_directive_kind (a : GoogleSpreadsheetAuth) (props : Json) :
  (forall cfg,
     getRequestAuthConfig a = Ok cfg ->
     match apiKey a with
     | Some key => cfg = {| params_key := Some key; headers_Authorization := None |}
     | None => exists tok, tok <> "" /\
                 cfg = {| params_key := None;
                          headers_Authorization := Some ("Bearer " +:+ tok) |}
     end)
  /\ (forall key,
        apiKey a = Some key ->
        getRequestAuthConfig a = Ok {| params_key := Some key; headers_Authorization := None |})
  /\ (forall tok,
        apiKey a = None -> tok <> "" ->
        authorize a = Some (Resolves (Some tok))
        \/ authorize a = None /\ getAccessToken a = Some (Resolves (Some tok))
        \/ authorize a = None /\ getAccessToken a = None /\ token a = Some tok ->
        getRequestAuthConfig a =
          Ok {| params_key := None; headers_Authorization := Some ("Bearer " +:+ tok) |})
  /\ (apiKey a = None -> authorize a = None -> getAccessToken a = None -> token a = None ->
      getRequestAuthConfig a = Throw invalid_auth /\ getAuthMode a = Throw invalid_auth)
  /\ (forall tok,
        apiKey a = None -> truthy_string tok = false ->
        authorize a = Some (Resolves tok)
        \/ authorize a = None /\ getAccessToken a = Some (Resolves tok)
        \/ authorize a = None /\ getAccessToken a = None /\ token a = tok ->
        getRequestAuthConfig a = Throw invalid_auth)
  /\ (has (apiKey a) = true ->
      createNewSpreadsheetDocument a props = (Throw api_key_cannot_create, [])).
Proof.
  split; [|split; [|split; [|split; [|split]]]].
  - intros cfg Hcfg. unfold getRequestAuthConfig in Hcfg.
    destruct (apiKey a) as [key|]; [congruence|].
    match type of Hcfg with
    | match ?fetched with _ => _ end = _ => destruct fetched as [tok|e]; [|discriminate Hcfg]
    end.
    destruct (truthy_string tok) eqn:Ht; [|discriminate Hcfg].
    apply truthy_string_nonempty in Ht as (s & -> & Hs).
    exists s. split; [exact Hs | simpl in Hcfg; congruence].
  - intros key Hkey. unfold getRequestAuthConfig. now rewrite Hkey.
  - intros tok Hkey Htok Hshape.
    rewrite (bearer_config a (Some tok)) by assumption.
    now rewrite nonempty_truthy_string.
  - intros Hkey Hjwt Hoauth Htoken. split.
    + unfold getRequestAuthConfig. now rewrite Hkey, Hjwt, Hoauth, Htoken.
    + unfold getAuthMode. now rewrite Hkey, Hjwt, Hoauth, Htoken.
  - intros tok Hkey Htok Hshape.
    rewrite (bearer_config a tok) by assumption. now rewrite Htok.
  - intros Hkey. unfold createNewSpreadsheetDocument. now rewrite Hkey.
Qed.

End Credentials.

Lemma C7_one_directive_kind_witness :
  getRequestAuthConfig Fixture.key_auth
  = Ok {| params_key := Some "k-123"; headers_Authorization := None |}
  /\ getRequestAuthConfig Fixture.token_auth
     = Ok {| params_key := None; headers_Authorization := Some "Bearer t-456" |}
  /\ @createNewSpreadsheetDocument Fixture.worksheet
       (Fixture.service Fixture.private_permissions) Fixture.key_auth (JObj [])
     = (Throw api_key_cannot_create, []).
Proof.
  split; [|split].
  - apply (@C7_one_directive_kind Fixture.worksheet
             (Fixture.service Fixture.private_permissions) Fixture.key_auth JNull).
    reflexivity.
  - apply (@C7_one_directive_kind Fixture.worksheet
             (Fixture.service Fixture.private_permissions) Fixture.token_auth JNull
           ).
    + reflexivity.
    + discriminate.
    + right. right. repeat split.
  - apply (@C7_one_directive_kind Fixture.worksheet
             (Fixture.service Fixture.private_permissions) Fixture.key_auth (JObj [])).
    reflexivity.
Defined.

(** ** The document cache *)

Section Cache.
Context {W : WorksheetClass} {U : Utils} {R : RemoteService}.

Lemma bind_run {A B} (m : M A) (k : A -> M B) (w : World) :
  (m ≫= k) w =
    match m w with
    | (Ok a, w') => k a w'
    | (Throw e, w') => (Throw e, w')
    end.
Proof. reflexivity. Qed.

Lemma axios_run {A} (net : Network A) (config : Request) (w : World) :
  axios net config w =
    match _setAxiosRequestAuth (auth (doc w)) config with
    | Throw e => (Throw e, w)
    | Ok wired =>
        (match net (sent w) wired with
         | inr reply => Ok reply
         | inl err => Throw (_handleAxiosErrors (auth (doc w)) err)
         end, put_sent wired w)
    end.
Proof.
  unfold axios. destruct (_setAxiosRequestAuth _ _); [|reflexivity].
  destruct (net _ _); reflexivity.
Qed.

(** Upserting worksheets never throws, sends nothing, and touches the
    document only in [_rawSheets]. *)
Lemma upsert_frame (info : SheetInfo) (w : World) :
  outcome (_updateOrCreateSheet info) w = Ok tt
  /\ sent (after (_updateOrCreateSheet info) w) = sent w
  /\ _rawProperties (doc (after (_updateOrCreateSheet info) w)) = _rawProperties (doc w)
  /\ _spreadsheetUrl (doc (after (_updateOrCreateSheet info) w)) = _spreadsheetUrl (doc w)
  /\ auth (doc (after (_updateOrCreateSheet info) w)) = auth (doc w)
  /\ spreadsheetId (doc (after (_updateOrCreateSheet info) w)) = spreadsheetId (doc w).
Proof.
  unfold outcome, after, _updateOrCreateSheet.
  destruct (_rawSheets (doc w) !! sheetId (properties info)); simpl; repeat split.
Qed.

Lemma each_cons {A} (x : A) (l : list A) (f : A -> M unit) (w : World) :
  outcome (f x) w = Ok tt ->
  each (x :: l) f w = each l f (after (f x) w).
Proof.
  unfold outcome, after. intros Hok. simpl. rewrite bind_run.
  destruct (f x w) as [r w']. simpl in *. now rewrite Hok.
Qed.

Lemma upserts_frame (l : list SheetInfo) (w : World) :
  outcome (each l _updateOrCreateSheet) w = Ok tt
  /\ sent (after (each l _updateOrCreateSheet) w) = sent w
  /\ _rawProperties (doc (after (each l _updateOrCreateSheet) w)) = _rawProperties (doc w)
  /\ _spreadsheetUrl (doc (after (each l _updateOrCreateSheet) w)) = _spreadsheetUrl (doc w)
  /\ auth (doc (after (each l _updateOrCreateSheet) w)) = auth (doc w)
  /\ spreadsheetId (doc (after (each l _updateOrCreateSheet) w)) = spreadsheetId (doc w).
Proof.
  revert w. induction l as [|info l IH]; intros w.
  - repeat split.
  - destruct (upsert_frame info w) as (Hok & Hs & Hp & Hu & Ha & Hi).
    unfold outcome, after in *. rewrite each_cons by exact Hok.
    destruct (IH (after (_updateOrCreateSheet info) w)) as (Hok' & Hs' & Hp' & Hu' & Ha' & Hi').
    unfold after in *.
    repeat split; congruence.
Qed.

Lemma then_unit_after {A} (m : M A) (w : World) :
  after (m ≫= fun _ => mret tt) w = after m w.
Proof. unfold after. rewrite bind_run. destruct (m w) as [[a|e] w']; reflexivity. Qed.

Lemma run_pair {A} (m : M A) (w : World) : m w = (outcome m w, after m w).
Proof. unfold outcome, after. now destruct (m w). Qed.

Lemma apply_snapshot_run (s : Spreadsheet) (w : World) :
  apply_snapshot s w =
    (Ok tt, after (each (sheets s) _updateOrCreateSheet)
              {| doc := set_rawProperties (Some (spreadsheet_properties s)) (doc w);
                 heap := heap w; sent := sent w |}).
Proof.
  unfold apply_snapshot, _updateRawProperties. rewrite bind_run. simpl.
  rewrite run_pair. f_equal. apply upserts_frame.
Qed.

Lemma apply_snapshot_frame (s : Spreadsheet) (w : World) :
  sent (after (apply_snapshot s) w) = sent w
  /\ _rawProperties (doc (after (apply_snapshot s) w)) = Some (spreadsheet_properties s).
Proof.
  unfold after at 1 2. rewrite apply_snapshot_run. simpl.
  destruct (upserts_frame (sheets s)
              {| doc := set_rawProperties (Some (spreadsheet_properties s)) (doc w);
                 heap := heap w; sent := sent w |})
    as (_ & Hs & Hp & _).
  split; assumption.
Qed.

(** What a single mutation request does: nothing when the credential does
    not resolve; otherwise one request goes out, and when the service
    accepts it the echoed document state is applied to the cache before the
    reply of the operation is read. *)
Lemma single_update_run (requestType : string) (requestParams : Json) (w : World) :
  _makeSingleUpdateRequest requestType requestParams w =
    match _setAxiosRequestAuth (auth (doc w)) (envelope (doc w) requestType requestParams) with
    | Throw e => (Throw e, w)
    | Ok wired =>
        match reply_batchUpdate (sent w) wired with
        | inl err => (Throw (_handleAxiosErrors (auth (doc w)) err), put_sent wired w)
        | inr response =>
            (match replies response with
             | [] => Throw (Error TypeError "Cannot read properties of undefined")
             | reply :: _ => Ok (get_field requestType reply)
             end,
             after (apply_snapshot (updatedSpreadsheet response)) (put_sent wired w))
        end
    end.
Proof.
  unfold _makeSingleUpdateRequest. rewrite bind_run. simpl.
  rewrite bind_run, axios_run. fold (envelope (doc w) requestType requestParams).
  destruct (_setAxiosRequestAuth _ _) as [wired|e]; [|reflexivity].
  destruct (reply_batchUpdate _ _) as [err|response]; [reflexivity|].
  unfold after. rewrite apply_snapshot_run. simpl.
  rewrite bind_run. unfold _updateRawProperties at 1. simpl.
  rewrite bind_run, run_pair.
  destruct (upserts_frame (sheets (updatedSpreadsheet response))
              {| doc := set_rawProperties
                          (Some (spreadsheet_properties (updatedSpreadsheet response)))
                          (doc (put_sent wired w));
                 heap := heap (put_sent wired w); sent := sent (put_sent wired w) |})
    as (Hok & _).
  simpl in Hok. rewrite Hok.
  destruct (replies response); reflexivity.
Qed.

(** *** Property setters and [updateProperties] *)


(** *** The load gate *)

Ltac run_access :=
  unfold access, fmap, M_fmap, _getProp, sheetCount, sheetsById, sheetsByIndex,
    sheetsByTitle, _ensureInfoLoaded, mbind, M_bind, mret, M_ret, this, objects, throw;
  simpl.

Lemma access_unloaded (acc : Accessor) (w : World) :
  _rawProperties (doc w) = None -> access acc w = (Throw not_loaded, w).
Proof.
  intros Hp. destruct acc; run_access; rewrite Hp; reflexivity.
Qed.


Lemma loadInfo_run (includeCells : bool) (w : World) :
  loadInfo includeCells w =
    match _setAxiosRequestAuth (auth (doc w))
            (sheetsApi (doc w) "get" "/"
               (if includeCells then [("includeGridData", JBool true)] else []) JUndefined) with
    | Throw e => (Throw e, w)
    | Ok wired =>
        match reply_spreadsheet (sent w) wired with
        | inl err => (Throw (_handleAxiosErrors (auth (doc w)) err), put_sent wired w)
        | inr reply =>
            (Ok tt,
             after (each (sheets reply) _updateOrCreateSheet)
               {| doc := set_rawProperties (Some (spreadsheet_properties reply))
                           (set_spreadsheetUrl (spreadsheetUrl reply) (doc w));
                  heap := heap w; sent := sent w ++ [wired] |})
        end
    end.
Proof.
  unfold loadInfo. rewrite bind_run. simpl. rewrite bind_run, axios_run.
  destruct (_setAxiosRequestAuth _ _) as [wired|e]; [|reflexivity].
  destruct (reply_spreadsheet _ _) as [err|reply]; [reflexivity|].
  rewrite bind_run. simpl. rewrite bind_run. simpl.
  rewrite run_pair. f_equal. apply upserts_frame.
Qed.



(** *** Upserting echoed worksheets *)

Lemma upsert_present (info : SheetInfo) (w : World) (a : nat) :
  _rawSheets (doc w) !! sheetId (properties info) = Some a ->
  _updateOrCreateSheet info w =
    (Ok tt, {| doc := doc w;
               heap := alter (fun ws => updateRawData ws (properties info) (grid_data info))
                         a (heap w);
               sent := sent w |}).
Proof. intros Ha. unfold _updateOrCreateSheet. now rewrite Ha. Qed.

Lemma upsert_absent (info : SheetInfo) (w : World) :
  _rawSheets (doc w) !! sheetId (properties info) = None ->
  _updateOrCreateSheet info w =
    (Ok tt, {| doc := set_rawSheets (<[sheetId (properties info) := length (heap w)]>
                                       (_rawSheets (doc w))) (doc w);
               heap := heap w ++ [new_GoogleSpreadsheetWorksheet (properties info)
                                    (grid_data info)];
               sent := sent w |}).
Proof. intros Ha. unfold _updateOrCreateSheet. now rewrite Ha. Qed.

Lemma upsert_well_formed (info : SheetInfo) (w : World) :
  well_formed w -> well_formed (after (_updateOrCreateSheet info) w).
Proof.
  intros [Hbound Hinj]. unfold after.
  destruct (_rawSheets (doc w) !! sheetId (properties info)) as [a|] eqn:Ha.
  - rewrite (upsert_present _ _ a Ha). split; simpl.
    + intros id b Hb. rewrite length_alter. eauto.
    + exact Hinj.
  - rewrite (upsert_absent _ _ Ha). split; simpl.
    + intros id b Hb. rewrite length_app. simpl.
      apply lookup_insert_Some in Hb as [[_ <-] | [_ Hb]]; [lia|].
      apply Hbound in Hb. lia.
    + intros id1 id2 b H1' H2'.
      apply lookup_insert_Some in H1' as [[<- <-] | [Hne1 H1']];
        apply lookup_insert_Some in H2' as [[<- Heq] | [Hne2 H2']]; try reflexivity.
      * apply Hbound in H2'. lia.
      * apply Hbound in H1'. lia.
      * eauto.
Qed.

Lemma upsert_current (info : SheetInfo) (w : World) :
  current info w -> _updateOrCreateSheet info w = (Ok tt, w).
Proof.
  intros (a & ws & Ha & Hws & Hfix). rewrite (upsert_present _ _ a Ha).
  f_equal. destruct w as [d store wire]. simpl in *. f_equal.
  apply list_eq. intros i. destruct (decide (a = i)) as [<-|Hne].
  - rewrite list_lookup_alter_eq, Hws. simpl. now rewrite Hfix.
  - now rewrite list_lookup_alter_ne.
Qed.

Lemma upsert_keeps_current (info info0 : SheetInfo) (w : World) :
  well_formed w ->
  sheetId (properties info) <> sheetId (properties info0) ->
  current info0 w ->
  current info0 (after (_updateOrCreateSheet info) w).
Proof.
  intros [Hbound Hinj] Hne (a0 & ws0 & Ha0 & Hws0 & Hfix). unfold after.
  destruct (_rawSheets (doc w) !! sheetId (properties info)) as [a|] eqn:Ha.
  - rewrite (upsert_present _ _ a Ha). exists a0, ws0. simpl.
    split; [exact Ha0|]. split; [|exact Hfix].
    rewrite list_lookup_alter_ne; [exact Hws0|].
    intros ->. apply Hne. eauto.
  - rewrite (upsert_absent _ _ Ha). exists a0, ws0. simpl.
    split; [now rewrite lookup_insert_ne|]. split; [|exact Hfix].
    rewrite lookup_app_l; [exact Hws0|]. eauto.
Qed.

Section Laws.
Context `{!WorksheetLaws}.

Lemma upsert_makes_current (info : SheetInfo) (w : World) :
  well_formed w -> current info (after (_updateOrCreateSheet info) w).
Proof.
  intros [Hbound Hinj]. unfold after.
  destruct (_rawSheets (doc w) !! sheetId (properties info)) as [a|] eqn:Ha.
  - rewrite (upsert_present _ _ a Ha).
    destruct (lookup_lt_is_Some_2 (heap w) a (Hbound _ _ Ha)) as [ws Hws].
    exists a, (updateRawData ws (properties info) (grid_data info)). simpl.
    split; [exact Ha|]. split.
    + now rewrite list_lookup_alter_eq, Hws.
    + apply updateRawData_idemp.
  - rewrite (upsert_absent _ _ Ha).
    exists (length (heap w)),
      (new_GoogleSpreadsheetWorksheet (properties info) (grid_data info)). simpl.
    split; [apply lookup_insert_eq|]. split.
    + apply list_lookup_middle. reflexivity.
    + apply updateRawData_new.
Qed.

Lemma upserts_keep_current (l : list SheetInfo) (info0 : SheetInfo) (w : World) :
  well_formed w ->
  sheetId (properties info0) ∉ (fun info => sheetId (properties info)) <$> l ->
  current info0 w ->
  well_formed (after (each l _updateOrCreateSheet) w)
  /\ current info0 (after (each l _updateOrCreateSheet) w).
Proof.
  revert w. induction l as [|info l IH]; intros w Hwf Hnotin Hcur.
  - split; assumption.
  - unfold after. rewrite each_cons by apply upsert_frame.
    rewrite fmap_cons, not_elem_of_cons in Hnotin. destruct Hnotin as [Hne Hnotin].
    apply IH.
    + now apply upsert_well_formed.
    + exact Hnotin.
    + apply upsert_keeps_current; [assumption | congruence | assumption].
Qed.

Lemma upserts_make_current (l : list SheetInfo) (w : World) :
  well_formed w ->
  NoDup ((fun info => sheetId (properties info)) <$> l) ->
  well_formed (after (each l _updateOrCreateSheet) w)
  /\ Forall (fun info => current info (after (each l _updateOrCreateSheet) w)) l.
Proof.
  revert w. induction l as [|info l IH]; intros w Hwf Hnodup.
  - split; [assumption | constructor].
  - rewrite fmap_cons in Hnodup. apply NoDup_cons in Hnodup as [Hnotin Hnodup].
    unfold after. rewrite each_cons by apply upsert_frame.
    pose proof (upsert_well_formed info w Hwf) as Hwf1.
    destruct (IH _ Hwf1 Hnodup) as [Hwf2 Hall].
    split; [exact Hwf2|]. constructor; [|exact Hall].
    apply upserts_keep_current; [assumption | assumption |].
    now apply upsert_makes_current.
Qed.

Lemma upserts_current_noop (l : list SheetInfo) (w : World) :
  Forall (fun info => current info w) l ->
  each l _updateOrCreateSheet w = (Ok tt, w).
Proof.
  induction 1 as [|info l Hcur _ IH]; [reflexivity|].
  rewrite each_cons by apply upsert_frame.
  unfold after. rewrite (upsert_current _ _ Hcur). exact IH.
Qed.

(** C1: applying an echoed document state to the cache (replace the cached
    properties, upsert each echoed worksheet by its sheet id) a second time
    changes nothing: the second application returns the world the first one
    left. An upsert for a sheet id that is in the worksheet map leaves the
    map as it is (the entry keeps its worksheet object), creates no object
    and merges into that object in place, leaving every other object alone;
    an upsert for an unknown sheet id creates one new object and adds the
    one entry for it. Stated for the documents the code can build (every
    entry points to an object of its own), for an echoed state whose sheet
    ids are distinct, and for a worksheet whose merge satisfies
    [WorksheetLaws]. *)
Theorem C1_upsert_idempotent (s : Spreadsheet) (w : World) :
  well_formed w ->
  NoDup (sheetIds s) ->
  apply_snapshot s (after (apply_snapshot s) w) = (Ok tt, after (apply_snapshot s) w)
  /\ (forall info a,
        _rawSheets (doc w) !! sheetId (properties info) = Some a ->
        _rawSheets (doc (after (_updateOrCreateSheet info) w)) = _rawSheets (doc w)
        /\ length (heap (after (_updateOrCreateSheet info) w)) = length (heap w)
        /\ heap (after (_updateOrCreateSheet info) w) !! a
           = (fun ws => updateRawData ws (properties info) (grid_data info)) <$> heap w !! a
        /\ forall b, b <> a -> heap (after (_updateOrCreateSheet info) w) !! b = heap w !! b)
  /\ (forall info,
        _rawSheets (doc w) !! sheetId (properties info) = None ->
        _rawSheets (doc (after (_updateOrCreateSheet info) w))
        = <[sheetId (properties info) := length (heap w)]> (_rawSheets (doc w))
        /\ heap (after (_updateOrCreateSheet info) w)
           = heap w ++ [new_GoogleSpreadsheetWorksheet (properties info) (grid_data info)]).
Proof.
  intros Hwf Hnodup. split; [|split].
  - set (w0 := {| doc := set_rawProperties (Some (spreadsheet_properties s)) (doc w);
                  heap := heap w; sent := sent w |}).
    assert (Hwf0 : well_formed w0) by exact Hwf.
    assert (Hafter : after (apply_snapshot s) w = after (each (sheets s) _updateOrCreateSheet) w0).
    { unfold after at 1. now rewrite apply_snapshot_run. }
    destruct (upserts_make_current (sheets s) w0 Hwf0 Hnodup) as [_ Hcur].
    destruct (upserts_frame (sheets s) w0) as (_ & _ & Hp & _).
    rewrite Hafter. set (w1 := after (each (sheets s) _updateOrCreateSheet) w0) in *.
    rewrite apply_snapshot_run.
    assert (Hsame : {| doc := set_rawProperties (Some (spreadsheet_properties s)) (doc w1);
                       heap := heap w1; sent := sent w1 |} = w1).
    { destruct w1 as [[i a m p u dl] store wire]. simpl in Hp. unfold set_rawProperties.
      simpl. now rewrite Hp. }
    rewrite Hsame. unfold after. now rewrite upserts_current_noop.
  - intros info a Ha. unfold after. rewrite (upsert_present _ _ a Ha). simpl.
    repeat split.
    + apply length_alter.
    + apply list_lookup_alter_eq.
    + intros b Hb. now apply list_lookup_alter_ne.
  - intros info Ha. unfold after. rewrite (upsert_absent _ _ Ha). simpl. split; reflexivity.
Qed.

End Laws.
End Cache.

(** The stand-in worksheet merges as [WorksheetLaws] asks. *)
Lemma fixture_fill_agree (entries : list Json) (c1 c2 : gmap (Z * Z) Json) (k : Z * Z) :
  c1 !! k = c2 !! k ->
  foldl Fixture.fillCell c1 entries !! k = foldl Fixture.fillCell c2 entries !! k.
Proof.
  revert c1 c2. induction entries as [|e entries IH]; intros c1 c2 Hk; [exact Hk|].
  simpl. apply IH. unfold Fixture.fillCell.
  destruct (Fixture.entry e) as [[k0 v]|]; [|exact Hk].
  rewrite !lookup_insert. now case_decide.
Qed.

Lemma fixture_fill_idemp (entries : list Json) :
  forall c, foldl Fixture.fillCell (foldl Fixture.fillCell c entries) entries
            = foldl Fixture.fillCell c entries.
Proof.
  induction entries as [|e entries IH] using rev_ind; intros c; [reflexivity|].
  rewrite !foldl_snoc. set (m := foldl Fixture.fillCell c entries).
  destruct (Fixture.entry e) as [[k0 v]|] eqn:He.
  - assert (Hfill : forall cache, Fixture.fillCell cache e = <[k0 := v]> cache).
    { intros cache. unfold Fixture.fillCell. now rewrite He. }
    rewrite !Hfill. apply map_eq. intros k. rewrite !lookup_insert.
    case_decide; [reflexivity|].
    rewrite (fixture_fill_agree entries _ m k).
    + unfold m. now rewrite IH.
    + now rewrite lookup_insert_ne.
  - assert (Hfill : forall cache, Fixture.fillCell cache e = cache).
    { intros cache. unfold Fixture.fillCell. now rewrite He. }
    rewrite !Hfill. apply IH.
Qed.

Lemma fixture_laws : @WorksheetLaws Fixture.worksheet.
Proof.
  split.
  - intros ws p d. simpl. f_equal. destruct d; try reflexivity. apply fixture_fill_idemp.
  - intros p d. simpl. f_equal. destruct d; try reflexivity. apply fixture_fill_idemp.
Qed.

(** A document just constructed is well formed, whatever the store holds. *)
Lemma constructed_well_formed {W : WorksheetClass} (id : string) (a : GoogleSpreadsheetAuth)
    (store : list GoogleSpreadsheetWorksheet) (wire : list Request) :
  well_formed {| doc := new_GoogleSpreadsheet id a; heap := store; sent := wire |}.
Proof. split; simpl; intros *; rewrite lookup_empty; discriminate. Qed.

Lemma fresh_well_formed (a : GoogleSpreadsheetAuth) : well_formed (Fixture.fresh a).
Proof. apply constructed_well_formed. Qed.

Lemma C1_upsert_idempotent_witness :
  @apply_snapshot Fixture.worksheet Fixture.snapshot
    (after (apply_snapshot Fixture.snapshot) (Fixture.fresh Fixture.token_auth))
  = (Ok tt, after (apply_snapshot Fixture.snapshot) (Fixture.fresh Fixture.token_auth)).
Proof.
  apply (@C1_upsert_idempotent Fixture.worksheet fixture_laws Fixture.snapshot
           (Fixture.fresh Fixture.token_auth)).
  - apply fresh_well_formed.
  - apply (bool_decide_unpack _). vm_compute. exact I.
Defined.

(** ** Exporting *)

Section Exporting.
Context {W : WorksheetClass} {U : Utils} {R : RemoteService}.

Lemma download_single (fileType : string) (worksheetId : option Z) (stream : bool)
    (w : World) :
  EXPORT_CONFIG_lookup fileType = Some true ->
  _downloadAs fileType worksheetId stream w =
    if has worksheetId then export_request fileType worksheetId stream w
    else (Throw (export_error "Must specify worksheetId when exporting as " fileType), w).
Proof.
  intros Hcfg. unfold _downloadAs. rewrite Hcfg.
  destruct worksheetId; reflexivity.
Qed.

Lemma download_whole (fileType : string) (worksheetId : option Z) (stream : bool)
    (w : World) :
  EXPORT_CONFIG_lookup fileType = Some false ->
  _downloadAs fileType worksheetId stream w =
    if truthy_number worksheetId
    then (Throw (export_error "Cannot specify worksheetId when exporting as " fileType), w)
    else export_request fileType worksheetId stream w.
Proof.
  intros Hcfg. unfold _downloadAs. rewrite Hcfg.
  destruct (truthy_number worksheetId); reflexivity.
Qed.

Lemma lookup_unknown (fileType : string) :
  fileType ∉ EXPORT_CONFIG.*1 -> fileType ∉ Object_prototype ->
  EXPORT_CONFIG_lookup fileType = None.
Proof.
  intros Hown Hinherited. unfold EXPORT_CONFIG_lookup.
  destruct (list_find _ _) as [[i [k single]]|] eqn:Hfind.
  - apply list_find_Some in Hfind as (Hi & Hk & _). simpl in Hk. subst k.
    exfalso. apply Hown. apply list_elem_of_fmap. exists (fileType, single).
    split; [reflexivity|]. eapply list_elem_of_lookup_2. exact Hi.
  - now rewrite bool_decide_eq_false_2.
Qed.

Lemma export_request_run (fileType : string) (worksheetId : option Z) (stream : bool)
    (w : World) (u : string) :
  _spreadsheetUrl (doc w) = Some u -> u <> "" ->
  export_request fileType worksheetId stream w =
    match _setAxiosRequestAuth (auth (doc w))
            (export_config (doc w) u fileType worksheetId stream) with
    | Throw e => (Throw e, w)
    | Ok wired =>
        (match reply_export (sent w) wired with
         | inr payload => Ok payload
         | inl err => Throw (_handleAxiosErrors (auth (doc w)) err)
         end, put_sent wired w)
    end.
Proof.
  intros Hu Hne. unfold export_request. rewrite bind_run. simpl. rewrite Hu.
  rewrite nonempty_truthy_string by exact Hne. simpl.
  rewrite bind_run, axios_run. fold (export_config (doc w) u fileType worksheetId stream).
  destruct (_setAxiosRequestAuth _ _) as [wired|e]; [|reflexivity].
  destruct (reply_export _ _); reflexivity.
Qed.

(** C6, amended: the three single-worksheet formats (csv, tsv, pdf) fail
    with [UnsupportedExportTarget] when no worksheet id is given and pass
    the check with any id; the four whole-document formats (html, zip, xlsx,
    ods) fail with [UnsupportedExportTarget] when a non-zero worksheet id is
    given and pass the check with none; a format string that the table has
    no entry for, own or inherited, fails with [UnsupportedExportTarget].
    Nothing is sent when the check fails. Past the check, on a document
    whose export address is loaded, the one export request goes out when the
    credential resolves, and the payload of the reply is returned. *)
Theorem C6_export_targets (fileType : string) (stream : bool) (w : World) :
  (fileType ∈ ["csv"; "tsv"; "pdf"] ->
   _downloadAs fileType None stream w
   = (Throw (export_error "Must specify worksheetId when exporting as " fileType), w)
   /\ forall id, _downloadAs fileType (Some id) stream w
                 = export_request fileType (Some id) stream w)
  /\ (fileType ∈ ["html"; "zip"; "xlsx"; "ods"] ->
      (forall id, id <> 0 ->
         _downloadAs fileType (Some id) stream w
         = (Throw (export_error "Cannot specify worksheetId when exporting as " fileType), w))
      /\ _downloadAs fileType None stream w = export_request fileType None stream w)
  /\ (fileType ∉ EXPORT_CONFIG.*1 -> fileType ∉ Object_prototype ->
      forall worksheetId,
        _downloadAs fileType worksheetId stream w
        = (Throw (export_error "unsupported export fileType - " fileType), w))
  /\ (forall worksheetId u wired payload,
        _spreadsheetUrl (doc w) = Some u -> u <> "" ->
        _setAxiosRequestAuth (auth (doc w))
          (export_config (doc w) u fileType worksheetId stream) = Ok wired ->
        reply_export (sent w) wired = inr payload ->
        export_request fileType worksheetId stream w = (Ok payload, put_sent wired w)).
Proof.
  split; [|split; [|split]].
  - intros Hin.
    assert (Hcfg : EXPORT_CONFIG_lookup fileType = Some true).
    { repeat (apply elem_of_cons in Hin as [->|Hin]; [reflexivity|]).
      now apply elem_of_nil in Hin. }
    split.
    + now rewrite download_single.
    + intros id. now rewrite download_single.
  - intros Hin.
    assert (Hcfg : EXPORT_CONFIG_lookup fileType = Some false).
    { repeat (apply elem_of_cons in Hin as [->|Hin]; [reflexivity|]).
      now apply elem_of_nil in Hin. }
    split.
    + intros id Hid. rewrite download_whole by exact Hcfg.
      destruct id; [congruence | reflexivity | reflexivity].
    + now rewrite download_whole.
  - intros Hown Hinherited worksheetId. unfold _downloadAs.
    now rewrite lookup_unknown.
  - intros worksheetId u wired payload Hu Hne Hwired Hreply.
    rewrite (export_request_run _ _ _ _ u) by assumption.
    now rewrite Hwired, Hreply.
Qed.

End Exporting.

(** C6, as the claim words it, fails: [html] is a whole-document format in
    the table. On a loaded document, exporting [html] without a worksheet id
    sends the request (as format [zip]) and returns the payload, while
    exporting it with worksheet id 7 fails. *)
Lemma C6_html_counterexample :
  let loaded := @after Fixture.worksheet unit
                  (@loadInfo Fixture.worksheet
                     (Fixture.service Fixture.private_permissions) false)
                  (Fixture.fresh Fixture.key_auth) in
  @outcome Fixture.worksheet Json
    (@_downloadAs Fixture.worksheet (Fixture.service Fixture.private_permissions)
       "html" None false) loaded
  = Ok (JStr "payload")
  /\ @outcome Fixture.worksheet Json
       (@_downloadAs Fixture.worksheet (Fixture.service Fixture.private_permissions)
          "html" (Some 7) false) loaded
     = Throw (export_error "Cannot specify worksheetId when exporting as " "html").
Proof. split; vm_compute; reflexivity. Qed.

Lemma C6_export_targets_witness :
  let loaded := @after Fixture.worksheet unit
                  (@loadInfo Fixture.worksheet
                     (Fixture.service Fixture.private_permissions) false)
                  (Fixture.fresh Fixture.key_auth) in
  @_downloadAs Fixture.worksheet (Fixture.service Fixture.private_permissions)
    "csv" None false loaded
  = (Throw (export_error "Must specify worksheetId when exporting as " "csv"), loaded)
  /\ @_downloadAs Fixture.worksheet (Fixture.service Fixture.private_permissions)
       "xlsx" (Some 7) false loaded
     = (Throw (export_error "Cannot specify worksheetId when exporting as " "xlsx"), loaded)
  /\ @_downloadAs Fixture.worksheet (Fixture.service Fixture.private_permissions)
       "docx" None false loaded
     = (Throw (export_error "unsupported export fileType - " "docx"), loaded).
Proof.
  split; [|split].
  - apply (@C6_export_targets Fixture.worksheet
             (Fixture.service Fixture.private_permissions) "csv"). set_solver.
  - apply (@C6_export_targets Fixture.worksheet
             (Fixture.service Fixture.private_permissions) "xlsx"); [set_solver | lia].
  - apply (@C6_export_targets Fixture.worksheet
             (Fixture.service Fixture.private_permissions) "docx").
    + apply (bool_decide_unpack _). vm_compute. exact I.
    + apply (bool_decide_unpack _). vm_compute. exact I.
Defined.

(** ** Loading cells *)

Section LoadCells.
Context {W : WorksheetClass} {U : Utils} {R : RemoteService}.

Lemma map_throwing_ok {A B} (f : A -> Result B) (g : A -> B) (l : list A) :
  Forall (fun x => f x = Ok (g x)) l -> map_throwing f l = Ok (g <$> l).
Proof.
  induction 1 as [|x l Hx _ IH]; [reflexivity|].
  simpl. now rewrite Hx, IH.
Qed.

(** With read-only access, a list of strings and objects with an object in
    it stops at the first object. *)
Lemma read_only_object (l : list Json) :
  Forall (fun f => isString f || isObject f = true) l ->
  Exists (fun f => isObject f = true) l ->
  map_throwing (dataFilter true) l = Throw read_only_filter.
Proof.
  intros Hall Hex. induction Hall as [|f l Hf Hall IH]; [inversion Hex|].
  simpl. unfold dataFilter at 1.
  destruct (isString f) eqn:Hs.
  - assert (Hl : Exists (fun f => isObject f = true) l).
    { inversion Hex as [? ? Ho|]; [|assumption]. destruct f; discriminate. }
    now rewrite (IH Hl).
  - simpl in Hf. now rewrite Hf.
Qed.

(** A filter that is neither a string nor an object makes the mapping throw,
    whatever the access: at that filter, or at an object before it. *)
Lemma other_filter_throws (readOnly : bool) (l : list Json) :
  Exists (fun f => isString f || isObject f = false) l ->
  map_throwing (dataFilter readOnly) l = Throw invalid_filter
  \/ map_throwing (dataFilter readOnly) l = Throw read_only_filter.
Proof.
  induction 1 as [f l Hf | f l _ IH].
  - simpl. unfold dataFilter. apply orb_false_elim in Hf as [-> ->]. now left.
  - simpl. unfold dataFilter at 1 3.
    destruct (isString f).
    + destruct IH as [-> | ->]; [now left | now right].
    + destruct (isObject f); [|now left].
      destruct readOnly; [now right|].
      destruct IH as [-> | ->]; [now left | now right].
Qed.

Lemma loadCells_run (filters : Json) (w : World) (mode : AUTH_MODES) :
  getAuthMode (auth (doc w)) = Ok mode ->
  loadCells filters w =
    match map_throwing (dataFilter (is_API_KEY mode)) (filtersArray filters) with
    | Throw e => (Throw e, w)
    | Ok dataFilters =>
        if is_API_KEY mode then fetch_by_get dataFilters w else fetch_by_post dataFilters w
    end.
Proof.
  intros Hmode. unfold loadCells, authMode, fetch_by_get, fetch_by_post.
  rewrite !bind_run. simpl. rewrite Hmode. simpl.
  rewrite !bind_run. unfold lift at 1.
  destruct (map_throwing _ _) as [dataFilters|e]; [|reflexivity].
  rewrite !bind_run. simpl. rewrite Hmode. simpl.
  rewrite !bind_run. simpl.
  destruct (is_API_KEY mode); reflexivity.
Qed.

Lemma api_key_mode (a : GoogleSpreadsheetAuth) :
  has (apiKey a) = true -> getAuthMode a = Ok API_KEY.
Proof. intros Hkey. unfold getAuthMode. now rewrite Hkey. Qed.

(** C8, amended. Under a credential with an API key: a filter list of
    A1-range strings and grid-range objects that holds at least one object
    fails with [UnsupportedFilterForCredential], and a list of strings only
    is fetched by the plain [GET] with the strings as [ranges]. Under a
    credential of one of the three other shapes, a list of strings and
    objects is fetched by the [:getByDataFilter] [POST], each filter wrapped
    as [a1Range] or [gridRange]. A list with a filter that is neither a
    string nor an object fails under every credential, with the error of the
    first filter that is refused. A call that fails this way sends nothing
    and leaves the cache as it was. *)
Theorem C8_filters_by_credential (filters : Json) (w : World) :
  (has (apiKey (auth (doc w))) = true ->
   (Forall (fun f => isString f || isObject f = true) (filtersArray filters) ->
    Exists (fun f => isObject f = true) (filtersArray filters) ->
    loadCells filters w = (Throw read_only_filter, w))
   /\ (Forall (fun f => isString f = true) (filtersArray filters) ->
       loadCells filters w = fetch_by_get (filtersArray filters) w))
  /\ (forall mode,
        getAuthMode (auth (doc w)) = Ok mode -> mode <> API_KEY ->
        Forall (fun f => isString f || isObject f = true) (filtersArray filters) ->
        loadCells filters w = fetch_by_post (as_data_filter <$> filtersArray filters) w)
  /\ (Exists (fun f => isString f || isObject f = false) (filtersArray filters) ->
      loadCells filters w = (Throw invalid_filter, w)
      \/ loadCells filters w = (Throw read_only_filter, w)
      \/ loadCells filters w = (Throw invalid_auth, w)).
Proof.
  split; [|split].
  - intros Hkey. pose proof (loadCells_run filters w API_KEY (api_key_mode _ Hkey)) as Hrun.
    simpl in Hrun. split.
    + intros Hall Hex. rewrite Hrun. now rewrite read_only_object.
    + intros Hall. rewrite Hrun.
      rewrite (map_throwing_ok _ (fun f => f)).
      * now rewrite list_fmap_id.
      * eapply Forall_impl; [exact Hall|]. intros f Hf. simpl in Hf.
        unfold dataFilter. now rewrite Hf.
  - intros mode Hmode Hne Hall. rewrite (loadCells_run filters w mode Hmode).
    assert (Hro : is_API_KEY mode = false) by (destruct mode; [congruence | | |]; reflexivity).
    rewrite Hro. rewrite (map_throwing_ok _ as_data_filter); [reflexivity|].
    eapply Forall_impl; [exact Hall|]. intros f Hf. simpl in Hf.
    unfold dataFilter, as_data_filter.
    destruct (isString f); [reflexivity|]. simpl in Hf. now rewrite Hf.
  - intros Hex. destruct (getAuthMode (auth (doc w))) as [mode|e] eqn:Hmode.
    + rewrite (loadCells_run filters w mode Hmode).
      destruct (other_filter_throws (is_API_KEY mode) _ Hex) as [-> | ->]; auto.
    + right. right. unfold loadCells, authMode. rewrite !bind_run. simpl. rewrite Hmode.
      unfold getAuthMode in Hmode.
      repeat match type of Hmode with
             | (if ?c then _ else _) = _ => destruct c; [discriminate Hmode|]
             end.
      now injection Hmode as <-.
Qed.

End LoadCells.

(** C8, as the claim words it, fails: under an API key, the list
    [[5, {sheetId: 0}]] holds a grid-range object, yet the error raised is
    the one for the number before it. *)
Lemma C8_mixed_list_counterexample :
  @loadCells Fixture.worksheet (Fixture.service Fixture.private_permissions)
    (JArr [JNum 5; JObj [("sheetId", JNum 0)]]) (Fixture.fresh Fixture.key_auth)
  = (Throw invalid_filter, Fixture.fresh Fixture.key_auth)
  /\ @loadCells Fixture.worksheet (Fixture.service Fixture.private_permissions)
       (JArr [JNum 5; JObj [("sheetId", JNum 0)]]) (Fixture.fresh Fixture.key_auth)
     <> (Throw read_only_filter, Fixture.fresh Fixture.key_auth).
Proof.
  split; [vm_compute; reflexivity|].
  intros Heq. vm_compute in Heq. discriminate Heq.
Qed.

Lemma C8_filters_by_credential_witness :
  @loadCells Fixture.worksheet (Fixture.service Fixture.private_permissions)
    (JArr [JStr "A1:B2"; JObj [("sheetId", JNum 0)]]) (Fixture.fresh Fixture.key_auth)
  = (Throw read_only_filter, Fixture.fresh Fixture.key_auth)
  /\ @loadCells Fixture.worksheet (Fixture.service Fixture.private_permissions)
       (JArr [JStr "A1:B2"; JObj [("sheetId", JNum 0)]]) (Fixture.fresh Fixture.token_auth)
     = @fetch_by_post Fixture.worksheet (Fixture.service Fixture.private_permissions)
         [JObj [("a1Range", JStr "A1:B2")]; JObj [("gridRange", JObj [("sheetId", JNum 0)])]]
         (Fixture.fresh Fixture.token_auth).
Proof.
  split.
  - apply (@C8_filters_by_credential Fixture.worksheet
             (Fixture.service Fixture.private_permissions)).
    + reflexivity.
    + repeat constructor.
    + apply Exists_cons_tl. apply Exists_cons_hd. reflexivity.
  - apply (@C8_filters_by_credential Fixture.worksheet
             (Fixture.service Fixture.private_permissions)
             (JArr [JStr "A1:B2"; JObj [("sheetId", JNum 0)]])
             (Fixture.fresh Fixture.token_auth)) with (mode := RAW_ACCESS_TOKEN).
    + reflexivity.
    + discriminate.
    + repeat constructor.
Defined.

(** ** Public access *)

Section Permissions.
Context {W : WorksheetClass} {U : Utils} {R : RemoteService}.

(** The request interceptor changes the parameters and headers only, and
    what it does to one request it can do to the next. *)
Lemma wired_keeps (a : GoogleSpreadsheetAuth) (config wired : Request) :
  _setAxiosRequestAuth a config = Ok wired ->
  method wired = method config /\ url wired = url config /\ baseURL wired = baseURL config
  /\ body wired = body config.
Proof.
  unfold _setAxiosRequestAuth. destruct (getRequestAuthConfig a); [|discriminate].
  intros [= <-]. repeat split.
Qed.

Lemma wired_again (a : GoogleSpreadsheetAuth) (config wired next : Request) :
  _setAxiosRequestAuth a config = Ok wired ->
  exists wired', _setAxiosRequestAuth a next = Ok wired'.
Proof.
  unfold _setAxiosRequestAuth. destruct (getRequestAuthConfig a); [|discriminate].
  intros _. eexists. reflexivity.
Qed.

Lemma find_none_iff (permissions : list Permission) :
  find (fun p => String.eqb (permission_type p) "anyone") permissions = None
  <-> Forall (fun p => permission_type p <> "anyone") permissions.
Proof.
  induction permissions as [|p l IH]; simpl.
  - split; [constructor | reflexivity].
  - destruct (String.eqb_spec (permission_type p) "anyone") as [Heq|Hne].
    + split; [discriminate|]. intros Hall. inversion Hall; contradiction.
    + rewrite IH. split.
      * intros Hall. now constructor.
      * intros Hall. now inversion Hall.
Qed.

Lemma find_some (permissions : list Permission) (p : Permission) :
  find (fun p => String.eqb (permission_type p) "anyone") permissions = Some p ->
  permission_type p = "anyone" /\ p ∈ permissions.
Proof.
  induction permissions as [|q l IH]; simpl; [discriminate|].
  destruct (String.eqb_spec (permission_type q) "anyone") as [Heq|Hne].
  - intros [= <-]. split; [exact Heq | apply list_elem_of_here].
  - intros Hfind. destruct (IH Hfind) as [Ht Hin].
    split; [exact Ht | now apply list_elem_of_further].
Qed.

Lemma listPermissions_run (w : World) :
  listPermissions w =
    match _setAxiosRequestAuth (auth (doc w)) (permissions_request (doc w)) with
    | Throw e => (Throw e, w)
    | Ok wired =>
        (match reply_permissions (sent w) wired with
         | inr permissions => Ok permissions
         | inl err => Throw (_handleAxiosErrors (auth (doc w)) err)
         end, put_sent wired w)
    end.
Proof.
  unfold listPermissions. rewrite bind_run. simpl. rewrite axios_run.
  reflexivity.
Qed.

(** C9: once the permissions are listed, [setPublicAccessLevel(false)]
    returns without error and sends nothing more when no entry has type
    "anyone"; when there is one, it sends exactly one more request, the
    [DELETE] of [/permissions/<id>] for the first such entry, and returns
    as that request does. *)
Theorem C9_public_access_off (w : World) (wired : Request) (permissions : list Permission) :
  _setAxiosRequestAuth (auth (doc w)) (permissions_request (doc w)) = Ok wired ->
  reply_permissions (sent w) wired = inr permissions ->
  (Forall (fun p => permission_type p <> "anyone") permissions ->
   setPublicAccessLevel None w = (Ok tt, put_sent wired w))
  /\ (forall p,
        find (fun p => String.eqb (permission_type p) "anyone") permissions = Some p ->
        exists deletion,
          _setAxiosRequestAuth (auth (doc w)) (delete_permission_request (doc w) p)
          = Ok deletion
          /\ method deletion = "DELETE"
          /\ url deletion = "/permissions/" +:+ permission_id p
          /\ sent (after (setPublicAccessLevel None) w) = sent w ++ [wired; deletion]
          /\ outcome (setPublicAccessLevel None) w
             = match reply_drive (sent w ++ [wired]) deletion with
               | inr _ => Ok tt
               | inl err => Throw (_handleAxiosErrors (auth (doc w)) err)
               end).
Proof.
  intros Hwired Hreply.
  assert (Hlist : listPermissions w = (Ok permissions, put_sent wired w)).
  { rewrite listPermissions_run. now rewrite Hwired, Hreply. }
  split.
  - intros Hnone. apply find_none_iff in Hnone.
    unfold setPublicAccessLevel. rewrite bind_run, Hlist. simpl.
    rewrite bind_run. simpl. now rewrite Hnone.
  - intros p Hfind.
    destruct (wired_again _ _ _ (delete_permission_request (doc w) p) Hwired)
      as [deletion Hdeletion].
    destruct (wired_keeps _ _ _ Hdeletion) as (Hm & Hu & _).
    exists deletion. split; [exact Hdeletion|]. split; [exact Hm|]. split; [exact Hu|].
    unfold after, outcome, setPublicAccessLevel. rewrite bind_run, Hlist. simpl.
    rewrite bind_run. simpl. rewrite Hfind. rewrite bind_run, axios_run. simpl.
    fold (delete_permission_request (doc w) p). rewrite Hdeletion.
    destruct (reply_drive _ _); simpl; rewrite <- app_assoc; split; reflexivity.
Qed.

End Permissions.

Lemma C9_public_access_off_witness :
  @setPublicAccessLevel Fixture.worksheet (Fixture.service Fixture.private_permissions)
    None (Fixture.fresh Fixture.token_auth)
  = (Ok tt,
     put_sent
       {| method := "GET"; baseURL := DRIVE_API_BASE_URL +:+ "/doc-1";
          url := "/permissions";
          params := [("fields",
                      JStr "permissions(id,type,emailAddress,domain,role,displayName,photoLink,deleted)")];
          headers := [("Authorization", JStr "Bearer t-456")];
          body := JUndefined; responseType := None |}
       (Fixture.fresh Fixture.token_auth)).
Proof.
  apply (@C9_public_access_off Fixture.worksheet
           (Fixture.service Fixture.private_permissions)
           (Fixture.fresh Fixture.token_auth) _ Fixture.private_permissions).
  - reflexivity.
  - reflexivity.
  - repeat constructor; discriminate.
Defined.

(** ** Rows *)

Section Rows.
Context {W : WorksheetClass} {U : Utils} {R : RemoteService}.

Lemma config_throw_kind (a : GoogleSpreadsheetAuth) (e : Exn) :
  getRequestAuthConfig a = Throw e ->
  raised (@Throw unit e) = Some InvalidCredential
  \/ raised (@Throw unit e) = Some ProviderFailure.
Proof.
  unfold getRequestAuthConfig. destruct (apiKey a); [discriminate|].
  match goal with
  | |- match ?fetched with _ => _ end = _ -> _ => destruct fetched as [tok|e'] eqn:Hfetch
  end.
  - destruct (truthy_string tok); [discriminate|]. intros [= <-]. now left.
  - intros [= <-]. right.
    destruct (authorize a) as [[reason|tok]|]; simpl in Hfetch.
    + now injection Hfetch as <-.
    + discriminate.
    + destruct (getAccessToken a) as [[reason|tok]|]; simpl in Hfetch.
      * now injection Hfetch as <-.
      * discriminate.
      * destruct (token a); discriminate.
Qed.

Lemma handle_kind (a : GoogleSpreadsheetAuth) (err : AxiosError) :
  raised (@Throw unit (_handleAxiosErrors a err)) = None
  \/ raised (@Throw unit (_handleAxiosErrors a err)) = Some AccessDeniedPrivateDocument.
Proof.
  unfold _handleAxiosErrors. destruct (response_data err) as [b|].
  - destruct (error b); now left.
  - destruct (_ && _); [now right | now left].
Qed.

(** A request through the document's axios instance never raises
    [RowDeleted]. *)
Lemma axios_never_row_deleted {A} (net : Network A) (config : Request) (w : World) :
  raised (outcome (axios net config) w) <> Some RowDeleted.
Proof.
  unfold outcome. rewrite axios_run. unfold _setAxiosRequestAuth.
  destruct (getRequestAuthConfig _) as [cfg|e] eqn:Hcfg; simpl.
  - destruct (net _ _) as [err|reply]; simpl; [|discriminate].
    destruct (handle_kind (auth (doc w)) err) as [Hk|Hk]; simpl in Hk; rewrite Hk;
      discriminate.
  - destruct (config_throw_kind _ _ Hcfg) as [Hk|Hk]; simpl in Hk; rewrite Hk; discriminate.
Qed.

Lemma single_update_never_row_deleted (requestType : string) (requestParams : Json)
    (w : World) :
  raised (outcome (_makeSingleUpdateRequest requestType requestParams) w)
  <> Some RowDeleted.
Proof.
  unfold outcome. rewrite single_update_run. unfold _setAxiosRequestAuth.
  destruct (getRequestAuthConfig _) as [cfg|e] eqn:Hcfg; simpl.
  - destruct (reply_batchUpdate _ _) as [err|response]; simpl.
    + destruct (handle_kind (auth (doc w)) err) as [Hk|Hk]; simpl in Hk; rewrite Hk;
        discriminate.
    + destruct (replies response); discriminate.
  - destruct (config_throw_kind _ _ Hcfg) as [Hk|Hk]; simpl in Hk; rewrite Hk; discriminate.
Qed.

Lemma save_run (raw : bool) (row : Row.t) (w : World) :
  Row.save raw row w =
    if Row.deleted row then (Throw Row.row_deleted, w)
    else
      match heap w !! Row._worksheet row with
      | None => (Throw (Error TypeError "Cannot read properties of undefined"), w)
      | Some ws =>
          match headerValues ws with
          | None => (Throw (Error HeadersNotLoaded "Header values are not yet loaded"), w)
          | Some hs =>
              (r ← axios reply_values (save_request (doc w) (row_range ws hs row) raw row);
               mret (Row.Build_t (Row._worksheet row) (Row._rowNumber row)
                       (nth 0 (updatedData_values r) JUndefined) (Row.deleted row))) w
          end
      end.
Proof.
  unfold Row.save. fold (Row.deleted row). destruct (Row.deleted row); [reflexivity|].
  unfold Row.a1Range. rewrite !bind_run. unfold deref.
  destruct (heap w !! Row._worksheet row) as [ws|]; [|reflexivity].
  rewrite bind_run. unfold Row.worksheet_headerValues.
  destruct (headerValues ws) as [hs|]; [|reflexivity].
  reflexivity.
Qed.

Lemma delete_run (row : Row.t) (w : World) :
  Row.delete row w =
    if Row.deleted row then (Throw Row.row_deleted, w)
    else
      match heap w !! Row._worksheet row with
      | None => (Throw (Error TypeError "Cannot read properties of undefined"), w)
      | Some ws =>
          (result ← _makeSingleUpdateRequest "deleteRange" (delete_range ws row);
           mret (result, Row.Build_t (Row._worksheet row) (Row._rowNumber row)
                           (Row._rawData row) true)) w
      end.
Proof.
  unfold Row.delete. fold (Row.deleted row). destruct (Row.deleted row); [reflexivity|].
  rewrite bind_run. unfold deref.
  destruct (heap w !! Row._worksheet row) as [ws|]; reflexivity.
Qed.

Lemma deleted_call (c : Row.Call) (row : Row.t) (w : World) :
  Row.deleted row = true -> Row.call c row w = (Throw Row.row_deleted, row, w).
Proof.
  intros Hdel. destruct c as [raw|]; simpl.
  - rewrite save_run, Hdel. reflexivity.
  - rewrite delete_run, Hdel. reflexivity.
Qed.

Lemma deleted_calls (cs : list (Row.Call * (World -> World))) (row : Row.t) (w : World) :
  Row.deleted row = true ->
  Row.calls cs row w = ((fun _ => Throw Row.row_deleted) <$> cs, row, others cs w).
Proof.
  intros Hdel. revert w. induction cs as [|[c other] cs IH]; intros w; [reflexivity|].
  simpl. rewrite (deleted_call _ _ _ Hdel). rewrite IH. reflexivity.
Qed.

Lemma then_ret_run {A B} (m : M A) (f : A -> B) (w : World) :
  (m ≫= fun r => mret (f r)) w =
    (match outcome m w with Ok r => Ok (f r) | Throw e => Throw e end, after m w).
Proof.
  rewrite bind_run. unfold outcome, after. destruct (m w) as [[r|e] w']; reflexivity.
Qed.

Lemma single_update_sent (requestType : string) (requestParams : Json) (w : World)
    (wired : Request) :
  _setAxiosRequestAuth (auth (doc w)) (envelope (doc w) requestType requestParams) = Ok wired ->
  sent (after (_makeSingleUpdateRequest requestType requestParams) w) = sent w ++ [wired].
Proof.
  intros Hwired. unfold after at 1. rewrite single_update_run, Hwired.
  destruct (reply_batchUpdate _ _) as [err|response]; [reflexivity|]. simpl.
  now destruct (apply_snapshot_frame (updatedSpreadsheet response) (put_sent wired w)).
Qed.

(** C3: when [delete()] succeeds the row is flagged deleted, and from then
    on every [save()] and [delete()] raises [RowDeleted], leaves the row as
    it is and sends nothing, whatever else happens to the document in
    between. A new row is not flagged; while a row is not flagged, neither
    call raises [RowDeleted], a successful [save()] leaves it unflagged, and
    once its worksheet has its header row and the credential resolves, each
    call sends its one request. *)
Theorem C3_deleted_row_rejects (row : Row.t) (w : World) :
  (forall result row' w',
      Row.delete row w = (Ok (result, row'), w') ->
      Row.deleted row' = true
      /\ forall cs w2,
           Row.calls cs row' w2
           = ((fun _ => Throw Row.row_deleted) <$> cs, row', others cs w2))
  /\ (forall ws n rawData, Row.deleted (Row.new ws n rawData) = false)
  /\ (Row.deleted row = false ->
      (forall raw, raised (outcome (Row.save raw row) w) <> Some RowDeleted)
      /\ raised (outcome (Row.delete row) w) <> Some RowDeleted
      /\ (forall raw row' w', Row.save raw row w = (Ok row', w') -> Row.deleted row' = false)
      /\ (forall ws hs raw wired,
            heap w !! Row._worksheet row = Some ws ->
            headerValues ws = Some hs ->
            _setAxiosRequestAuth (auth (doc w))
              (save_request (doc w) (row_range ws hs row) raw row) = Ok wired ->
            sent (after (Row.save raw row) w) = sent w ++ [wired])
      /\ (forall ws wired,
            heap w !! Row._worksheet row = Some ws ->
            _setAxiosRequestAuth (auth (doc w))
              (envelope (doc w) "deleteRange" (delete_range ws row)) = Ok wired ->
            sent (after (Row.delete row) w) = sent w ++ [wired])).
Proof.
  split; [|split].
  - intros result row' w' Hdelete.
    assert (Hflag : Row.deleted row' = true).
    { rewrite delete_run in Hdelete.
      destruct (Row.deleted row); [discriminate Hdelete|].
      destruct (heap w !! Row._worksheet row) as [ws|]; [|discriminate Hdelete].
      rewrite then_ret_run in Hdelete.
      destruct (outcome _ w); [|discriminate Hdelete].
      now injection Hdelete as _ <- _. }
    split; [exact Hflag|]. intros cs w2. now apply deleted_calls.
  - reflexivity.
  - intros Hlive. repeat split.
    + intros raw. unfold outcome. rewrite save_run, Hlive.
      destruct (heap w !! Row._worksheet row) as [ws|]; [|discriminate].
      destruct (headerValues ws) as [hs|]; [|discriminate].
      rewrite then_ret_run. simpl.
      pose proof (axios_never_row_deleted reply_values
                    (save_request (doc w) (row_range ws hs row) raw row) w) as Hnever.
      destruct (outcome _ w); [discriminate | exact Hnever].
    + unfold outcome. rewrite delete_run, Hlive.
      destruct (heap w !! Row._worksheet row) as [ws|]; [|discriminate].
      rewrite then_ret_run. simpl.
      pose proof (single_update_never_row_deleted "deleteRange" (delete_range ws row) w)
        as Hnever.
      destruct (outcome _ w); [discriminate | exact Hnever].
    + intros raw row' w' Hsave. rewrite save_run, Hlive in Hsave.
      destruct (heap w !! Row._worksheet row) as [ws|]; [|discriminate Hsave].
      destruct (headerValues ws) as [hs|]; [|discriminate Hsave].
      rewrite then_ret_run in Hsave.
      destruct (outcome _ w); [|discriminate Hsave].
      injection Hsave as <- _. reflexivity.
    + intros ws hs raw wired Hws Hhs Hwired. unfold after at 1.
      rewrite save_run, Hlive, Hws, Hhs, then_ret_run. simpl.
      unfold after. rewrite axios_run, Hwired. reflexivity.
    + intros ws wired Hws Hwired. unfold after at 1.
      rewrite delete_run, Hlive, Hws, then_ret_run. simpl.
      now apply single_update_sent.
Qed.

End Rows.

(** ** The model on examples *)

Section Examples.
#[local] Existing Instance Fixture.worksheet.
#[local] Existing Instance Fixture.utils.
#[local] Instance closed_service : RemoteService := Fixture.service Fixture.private_permissions.

(** Section 8 of the specification: with header row ["name"; "age"], the
    range of row 2 is "Sheet1!A2:B2". *)
Example a1Range_example :
  outcome (Row.a1Range Fixture.row2) (Fixture.listed Fixture.token_auth) = Ok "Sheet1!A2:B2".
Proof. vm_compute. reflexivity. Qed.

Example save_example :
  outcome (Row.save false Fixture.row2) (Fixture.listed Fixture.token_auth)
  = Ok (Row.new 0 2 (JArr [JStr "Al"; JStr "30"]))
  /\ url <$> sent (after (Row.save false Fixture.row2) (Fixture.listed Fixture.token_auth))
     = ["/values/Sheet1!A2%3AB2"].
Proof. split; vm_compute; reflexivity. Qed.

Example public_access_example :
  (fun r => (method r, url r))
    <$> sent (after (@setPublicAccessLevel _ (Fixture.service Fixture.public_permissions) None)
                (Fixture.fresh Fixture.token_auth))
  = [("GET", "/permissions"); ("DELETE", "/permissions/anyoneWithLink")].
Proof. vm_compute. reflexivity. Qed.

Example setter_example :
  _setProp P_title (JStr "Plan") (Fixture.fresh Fixture.token_auth)
  = (Throw direct_assignment, Fixture.fresh Fixture.token_auth).
Proof. reflexivity. Qed.

Lemma C3_deleted_row_rejects_witness :
  Row.deleted Fixture.row2_deleted = true
  /\ Row.calls [(Row.Save false, fun v => v); (Row.Delete, fun v => v)]
       Fixture.row2_deleted
       (after (Row.delete Fixture.row2) (Fixture.listed Fixture.token_auth))
     = ([Throw Row.row_deleted; Throw Row.row_deleted], Fixture.row2_deleted,
        after (Row.delete Fixture.row2) (Fixture.listed Fixture.token_auth)).
Proof.
  destruct (C3_deleted_row_rejects Fixture.row2 (Fixture.listed Fixture.token_auth))
    as [Hdeleted _].
  destruct (Hdeleted JUndefined Fixture.row2_deleted
              (after (Row.delete Fixture.row2) (Fixture.listed Fixture.token_auth)))
    as [Hflag Hcalls].
  - vm_compute. reflexivity.
  - split; [exact Hflag|].
    exact (Hcalls [(Row.Save false, fun v => v); (Row.Delete, fun v => v)]
             (after (Row.delete Fixture.row2) (Fixture.listed Fixture.token_auth))).
Defined.


End Examples.

(** * Further properties *)

(** ** Fields of an object *)

Lemma get_set_field (k : string) (v : Json) (o : list (string * Json)) :
  get_field k (set_field k v o) = v.
Proof.
  induction o as [|[k' v'] o IH]; simpl.
  - now rewrite String.eqb_refl.
  - destruct (String.eqb k' k) eqn:Hk; simpl.
    + now rewrite String.eqb_refl.
    + now rewrite Hk.
Qed.

Lemma get_set_field_other (k k0 : string) (v : Json) (o : list (string * Json)) :
  k0 <> k -> get_field k0 (set_field k v o) = get_field k0 o.
Proof.
  intros Hne. induction o as [|[k' v'] o IH]; simpl.
  - destruct (String.eqb_spec k k0); [congruence | reflexivity].
  - destruct (String.eqb_spec k' k) as [->|Hk]; simpl.
    + destruct (String.eqb_spec k k0); [congruence|].
      destruct (String.eqb_spec k k0); [congruence | reflexivity].
    + destruct (String.eqb_spec k' k0); [reflexivity | exact IH].
Qed.

(** ** The request interceptor *)

(** X1: the request interceptor changes nothing of a request but the
    credential. With an API key the query parameter [key] is the key,
    whatever the request carried under that name, and every other parameter
    and all headers stay; otherwise the header [Authorization] is the Bearer
    token, with a non-empty token, and every other header and all parameters
    stay. Method, address, body and response type are never touched. *)
Theorem X1_request_auth_overrides
    (a : GoogleSpreadsheetAuth) (config wired : Request) :
  _setAxiosRequestAuth a config = Ok wired ->
  method wired = method config /\ baseURL wired = baseURL config
  /\ url wired = url config /\ body wired = body config
  /\ responseType wired = responseType config
  /\ match apiKey a with
     | Some key =>
         get_field "key" (params wired) = JStr key
         /\ (forall k, k <> "key" -> get_field k (params wired) = get_field k (params config))
         /\ headers wired = headers config
     | None =>
         exists tok,
           tok <> ""
           /\ get_field "Authorization" (headers wired) = JStr ("Bearer " +:+ tok)
           /\ (forall k, k <> "Authorization" ->
                 get_field k (headers wired) = get_field k (headers config))
           /\ params wired = params config
     end.
Proof.
  unfold _setAxiosRequestAuth, getRequestAuthConfig.
  destruct (apiKey a) as [key|].
  - simpl. intros [= <-]. simpl. repeat split.
    + apply get_set_field.
    + intros k Hk. now apply get_set_field_other.
  - match goal with
    | |- match match ?fetched with _ => _ end with _ => _ end = _ -> _ =>
        destruct fetched as [tok|e]; [|discriminate]
    end.
    destruct (truthy_string tok) eqn:Htok; [|discriminate].
    apply truthy_string_nonempty in Htok as (s & -> & Hs).
    simpl. intros [= <-]. simpl. repeat split.
    exists s. repeat split.
    + exact Hs.
    + apply get_set_field.
    + intros k Hk. now apply get_set_field_other.
Qed.

Lemma X1_request_auth_overrides_witness :
  get_field "key"
    (params {| method := "get"; baseURL := ""; url := "/";
               params := [("key", JStr "k-123"); ("ranges", JStr "A1")];
               headers := []; body := JUndefined; responseType := None |})
  = JStr "k-123".
Proof.
  apply (X1_request_auth_overrides Fixture.key_auth
           {| method := "get"; baseURL := ""; url := "/";
              params := [("key", JStr "stale"); ("ranges", JStr "A1")];
              headers := []; body := JUndefined; responseType := None |}).
  reflexivity.
Defined.

(** X2: [getAuthMode] and [getRequestAuthConfig] read the credential alike.
    A credential whose mode cannot be told has no directive either (both
    raise "Invalid auth"); when a directive is resolved the mode is known,
    and it is [API_KEY] exactly when the directive is the query parameter
    and not the header. *)
Theorem X2_mode_and_directive_agree (a : GoogleSpreadsheetAuth) :
  (forall e, getAuthMode a = Throw e ->
             e = invalid_auth /\ getRequestAuthConfig a = Throw invalid_auth)
  /\ (forall cfg, getRequestAuthConfig a = Ok cfg ->
        exists mode,
          getAuthMode a = Ok mode
          /\ is_API_KEY mode = has (params_key cfg)
          /\ is_API_KEY mode = negb (has (headers_Authorization cfg))).
Proof.
  split.
  - unfold getAuthMode, getRequestAuthConfig. intros e.
    destruct (apiKey a); [discriminate|].
    destruct (authorize a); [discriminate|].
    destruct (getAccessToken a); [discriminate|].
    destruct (token a); [discriminate|].
    simpl. intros [= <-]. split; reflexivity.
  - unfold getAuthMode, getRequestAuthConfig. intros cfg.
    destruct (apiKey a) as [key|]; simpl.
    + intros [= <-]. exists API_KEY. repeat split.
    + destruct (authorize a) as [jwt|]; simpl.
      * destruct (await_refresh jwt) as [tok|e]; [|discriminate].
        destruct (truthy_string tok); [|discriminate].
        intros [= <-]. exists JWT. repeat split.
      * destruct (getAccessToken a) as [oauth|]; simpl.
        -- destruct (await_refresh oauth) as [tok|e]; [|discriminate].
           destruct (truthy_string tok); [|discriminate].
           intros [= <-]. exists OAUTH. repeat split.
        -- destruct (token a) as [[|c t]|]; simpl.
           ++ discriminate.
           ++ intros [= <-]. exists RAW_ACCESS_TOKEN. repeat split.
           ++ discriminate.
Qed.

(** ** What every operation keeps *)

Section Respects.
Context {W : WorksheetClass} {U : Utils} {R : RemoteService}.
Variable rel : World -> World -> Prop.
Hypothesis rel_refl : forall w, rel w w.
Hypothesis rel_trans : forall w1 w2 w3, rel w1 w2 -> rel w2 w3 -> rel w1 w3.
Hypothesis rel_sent : forall request w, rel w (put_sent request w).
Hypothesis rel_assign :
  forall f w, (forall d, _rawSheets (f d) = _rawSheets d) ->
              rel w {| doc := f (doc w); heap := heap w; sent := sent w |}.
Hypothesis rel_upsert : forall info w, rel w (after (_updateOrCreateSheet info) w).

Lemma respects_ret {A} (a : A) : respects rel (mret a).
Proof. intros w. apply rel_refl. Qed.

Lemma respects_throw {A} (e : Exn) : respects rel (@throw W A e).
Proof. intros w. apply rel_refl. Qed.

Lemma respects_lift {A} (r : Result A) : respects rel (lift r).
Proof. intros w. apply rel_refl. Qed.

Lemma respects_this : respects rel this.
Proof. intros w. apply rel_refl. Qed.

Lemma respects_deref (a : nat) : respects rel (deref a).
Proof. intros w. unfold after, deref. destruct (heap w !! a); apply rel_refl. Qed.

Lemma respects_bind {A B} (m : M A) (k : A -> M B) :
  respects rel m -> (forall a, respects rel (k a)) -> respects rel (m ≫= k).
Proof.
  intros Hm Hk w. unfold after. rewrite bind_run.
  specialize (Hm w). unfold after in Hm.
  destruct (m w) as [[a|e] w']; simpl in *.
  - eapply rel_trans; [exact Hm|]. apply Hk.
  - exact Hm.
Qed.

Lemma respects_axios {A} (net : Network A) (config : Request) :
  respects rel (axios net config).
Proof.
  intros w. unfold after. rewrite axios_run.
  destruct (_setAxiosRequestAuth _ _); [apply rel_sent | apply rel_refl].
Qed.

Lemma respects_assign (f : GoogleSpreadsheet -> GoogleSpreadsheet) :
  (forall d, _rawSheets (f d) = _rawSheets d) -> respects rel (assign f).
Proof. intros Hf w. now apply rel_assign. Qed.

Lemma respects_each (l : list SheetInfo) : respects rel (each l _updateOrCreateSheet).
Proof.
  induction l as [|info l IH]; intros w; [apply rel_refl|].
  unfold after. rewrite each_cons by apply upsert_frame.
  eapply rel_trans; [apply rel_upsert | apply IH].
Qed.

Ltac respect :=
  repeat (intros; cbv zeta;
          first
            [ apply respects_ret | apply respects_throw | apply respects_lift
            | apply respects_this | apply respects_deref | apply respects_axios
            | apply respects_each
            | apply respects_assign; intros; reflexivity
            | apply respects_bind
            | match goal with
              | |- respects _ (match ?x with _ => _ end) => destruct x
              end ]).

Lemma single_update_respects (requestType : string) (requestParams : Json) :
  respects rel (_makeSingleUpdateRequest requestType requestParams).
Proof. unfold _makeSingleUpdateRequest, _updateRawProperties. respect. Qed.

(** Every call but [resetLocalCache] and [deleteSheet] takes a world to a
    related one. *)
Lemma run_respects (op : Operation) : evicts op = false -> respects rel (run op).
Proof.
  destruct op; simpl; intros Hop; try discriminate Hop.
  - unfold loadInfo. respect.
  - unfold updateProperties. apply respects_bind; [apply single_update_respects | respect].
  - apply respects_bind; [apply single_update_respects | respect].
  - unfold _makeBatchUpdateRequest, _updateRawProperties. respect.
  - unfold addNamedRange. apply respects_bind; [apply single_update_respects | respect].
  - unfold deleteNamedRange. apply respects_bind; [apply single_update_respects | respect].
  - unfold loadCells, authMode. respect.
  - unfold _downloadAs, export_request. respect.
  - unfold delete_spreadsheet. respect.
  - unfold listPermissions. respect.
  - unfold setPublicAccessLevel, listPermissions. respect.
  - unfold share. respect.
  - unfold Row.save, Row.a1Range, Row.worksheet_headerValues. respect.
  - unfold Row.delete, Row.worksheet_makeSingleUpdateRequest.
    fold (Row.deleted row). destruct (Row.deleted row); [apply respects_bind; respect|].
    apply respects_bind; [|respect].
    apply respects_bind; [respect|]. intros ws.
    apply respects_bind; [apply single_update_respects | respect].
Qed.

End Respects.

Section Invariants.
Context {W : WorksheetClass} {U : Utils} {R : RemoteService}.

Lemma well_formed_shrunk (w : World) (d : GoogleSpreadsheet) (wire : list Request) :
  well_formed w ->
  (forall id a, _rawSheets d !! id = Some a -> _rawSheets (doc w) !! id = Some a) ->
  well_formed {| doc := d; heap := heap w; sent := wire |}.
Proof.
  intros [Hbound Hinj] Hsub. split; simpl.
  - intros id a Ha. eauto.
  - intros id1 id2 a H1 H2. eauto.
Qed.

Lemma quiet_well_formed (op : Operation) (w : World) :
  evicts op = false -> well_formed w -> well_formed (after (run op) w).
Proof.
  intros Hop. revert w.
  apply (run_respects (fun v v' => well_formed v -> well_formed v')); [| | | | |exact Hop].
  - intros v Hv. exact Hv.
  - intros v1 v2 v3 H12 H23 Hv. auto.
  - intros request v Hv. apply (well_formed_shrunk v); auto.
  - intros f v Hf Hv. apply (well_formed_shrunk v); [exact Hv|]. simpl.
    intros id a Ha. now rewrite Hf in Ha.
  - intros info v. apply upsert_well_formed.
Qed.

Lemma single_update_well_formed (requestType : string) (requestParams : Json) (w : World) :
  well_formed w ->
  well_formed (after (_makeSingleUpdateRequest requestType requestParams) w).
Proof.
  intros Hwf. rewrite <- then_unit_after.
  now apply (quiet_well_formed (SingleUpdate requestType requestParams)).
Qed.

Lemma run_well_formed (op : Operation) (w : World) :
  well_formed w -> well_formed (after (run op) w).
Proof.
  destruct (evicts op) eqn:Hop; [|now apply quiet_well_formed].
  destruct op; try discriminate Hop; simpl; intros Hwf.
  - apply (well_formed_shrunk w); [exact Hwf|]. simpl. intros id a Ha.
    now rewrite lookup_empty in Ha.
  - unfold deleteSheet, after. rewrite bind_run.
    pose proof (single_update_well_formed "deleteSheet" (JObj [("sheetId", JNum id)]) w Hwf)
      as Hsingle.
    unfold after in Hsingle.
    destruct (_makeSingleUpdateRequest _ _ w) as [[reply|e] w']; simpl in *;
      [|exact Hsingle].
    apply (well_formed_shrunk w'); [exact Hsingle|]. simpl. intros id' a Ha.
    apply lookup_delete_Some in Ha. tauto.
Qed.

Lemma kept_refl (w : World) : kept w w.
Proof. split; [auto | lia]. Qed.

Lemma kept_trans (w1 w2 w3 : World) : kept w1 w2 -> kept w2 w3 -> kept w1 w3.
Proof. intros [H12 L12] [H23 L23]. split; [auto | lia]. Qed.

Lemma upsert_kept (info : SheetInfo) (w : World) :
  kept w (after (_updateOrCreateSheet info) w).
Proof.
  unfold after.
  destruct (_rawSheets (doc w) !! sheetId (properties info)) as [a|] eqn:Ha.
  - rewrite (upsert_present _ _ a Ha). split; simpl; [auto|]. now rewrite length_alter.
  - rewrite (upsert_absent _ _ Ha). split; simpl.
    + intros id b Hb. rewrite lookup_insert_ne; [exact Hb|]. congruence.
    + rewrite length_app. lia.
Qed.

Lemma run_kept (op : Operation) (w : World) :
  evicts op = false -> kept w (after (run op) w).
Proof.
  intros Hop. revert w. apply (run_respects kept); [| | | | |exact Hop].
  - apply kept_refl.
  - apply kept_trans.
  - intros request v. split; simpl; [auto | lia].
  - intros f v Hf. split; simpl; [|lia]. intros id a Ha. now rewrite Hf.
  - apply upsert_kept.
Qed.

(** X3: no call but [resetLocalCache] and [deleteSheet] ever takes a sheet
    out of the cache or gives a sheet id another worksheet object, and no
    worksheet object ever leaves the store: through any sequence of such
    calls, succeeding or not, every sheet id keeps the object it had. *)
Theorem X3_references_kept (ops : list Operation) (w : World) :
  Forall (fun op => evicts op = false) ops ->
  (forall id a, _rawSheets (doc w) !! id = Some a ->
                _rawSheets (doc (runs ops w)) !! id = Some a)
  /\ (length (heap w) <= length (heap (runs ops w)))%nat.
Proof.
  intros Hops. change (kept w (runs ops w)). revert w.
  induction Hops as [|op ops Hop _ IH]; intros w; [apply kept_refl|].
  simpl. eapply kept_trans; [apply run_kept; exact Hop | apply IH].
Qed.

(** X4: every world reached from a well-formed one by calls of the
    document and of its rows, in any order and whether they succeed or
    throw, is well formed: each sheet id points to a worksheet object in the
    store, and no two sheet ids share one. The world of a document just
    constructed is well formed, so every world a caller can reach is. *)
Theorem X4_reachable_well_formed (ops : list Operation) (w : World)
    (id : string) (a : GoogleSpreadsheetAuth) :
  (well_formed w -> well_formed (runs ops w))
  /\ well_formed (runs ops {| doc := new_GoogleSpreadsheet id a; heap := []; sent := [] |}).
Proof.
  assert (Hruns : forall v, well_formed v -> well_formed (runs ops v)).
  { induction ops as [|op ops IH]; intros v Hv; [exact Hv|].
    simpl. apply IH. now apply run_well_formed. }
  split; [apply Hruns|].
  apply Hruns. split; simpl; intros *; rewrite lookup_empty; discriminate.
Qed.

End Invariants.

Lemma X3_references_kept_witness :
  _rawSheets
    (doc (@runs Fixture.worksheet Fixture.utils (Fixture.service Fixture.private_permissions)
            [LoadInfo false; UpdateProperties (JObj []); LoadCells (JStr "A1:B2")]
            (Fixture.listed Fixture.token_auth))) !! 0
  = Some 0%nat.
Proof.
  apply (@X3_references_kept Fixture.worksheet Fixture.utils
           (Fixture.service Fixture.private_permissions)
           [LoadInfo false; UpdateProperties (JObj []); LoadCells (JStr "A1:B2")]
           (Fixture.listed Fixture.token_auth)).
  - repeat constructor.
  - reflexivity.
Defined.

(** ** A request that fails *)

Section Failure.
Context {W : WorksheetClass} {U : Utils} {R : RemoteService}.

(** A request followed by steps that cannot throw: when the whole throws,
    nothing happened but, at most, the sending of the request. *)
Lemma axios_then_throws {A B} (net : Network A) (config : Request) (k : A -> M B)
    (w : World) (e : Exn) :
  (forall a v, exists b, outcome (k a) v = Ok b) ->
  outcome (axios net config ≫= k) w = Throw e ->
  doc (after (axios net config ≫= k) w) = doc w
  /\ heap (after (axios net config ≫= k) w) = heap w.
Proof.
  intros Hk. unfold outcome, after. rewrite bind_run, axios_run.
  destruct (_setAxiosRequestAuth _ _) as [wired|e0]; [|intros _; split; reflexivity].
  destruct (net _ _) as [err|a]; [intros _; split; reflexivity|].
  destruct (Hk a (put_sent wired w)) as [b Hb]. unfold outcome in Hb.
  simpl. rewrite Hb. discriminate.
Qed.

Lemma apply_never_throws (s : Spreadsheet) (v : World) :
  outcome (_updateRawProperties (spreadsheet_properties s);;
           each (sheets s) _updateOrCreateSheet) v = Ok tt.
Proof.
  change (outcome (apply_snapshot s) v = Ok tt).
  unfold outcome. now rewrite apply_snapshot_run.
Qed.

Lemma load_never_throws (reply : Spreadsheet) (v : World) :
  outcome (assign (set_spreadsheetUrl (spreadsheetUrl reply));;
           assign (set_rawProperties (Some (spreadsheet_properties reply)));;
           each (sheets reply) _updateOrCreateSheet) v = Ok tt.
Proof.
  unfold outcome. rewrite bind_run. simpl. rewrite bind_run. simpl.
  apply upserts_frame.
Qed.

Lemma upserts_never_throw (l : list SheetInfo) (v : World) :
  outcome (each l _updateOrCreateSheet) v = Ok tt.
Proof. apply upserts_frame. Qed.

(** X5: a call that fetches or changes the document and throws has left the
    document and its worksheets exactly as they were. This holds of
    [loadInfo], of a batch mutation request and of [loadCells] whatever they
    throw, and of a single mutation request unless what it throws is the
    [TypeError] of reading a reply that the service did not send. *)
Theorem X5_failed_call_changes_nothing (w : World) (e : Exn) :
  (forall includeCells,
      outcome (loadInfo includeCells) w = Throw e ->
      doc (after (loadInfo includeCells) w) = doc w
      /\ heap (after (loadInfo includeCells) w) = heap w)
  /\ (forall requests responseRanges,
        outcome (_makeBatchUpdateRequest requests responseRanges) w = Throw e ->
        doc (after (_makeBatchUpdateRequest requests responseRanges) w) = doc w
        /\ heap (after (_makeBatchUpdateRequest requests responseRanges) w) = heap w)
  /\ (forall filters,
        outcome (loadCells filters) w = Throw e ->
        doc (after (loadCells filters) w) = doc w
        /\ heap (after (loadCells filters) w) = heap w)
  /\ (forall requestType requestParams,
        outcome (_makeSingleUpdateRequest requestType requestParams) w = Throw e ->
        raised (@Throw Json e) <> Some TypeError ->
        doc (after (_makeSingleUpdateRequest requestType requestParams) w) = doc w
        /\ heap (after (_makeSingleUpdateRequest requestType requestParams) w) = heap w).
Proof.
  split; [|split; [|split]].
  - intros includeCells. unfold loadInfo. unfold outcome at 1, after. rewrite bind_run.
    simpl. apply axios_then_throws. intros reply v. exists tt. apply load_never_throws.
  - intros requests responseRanges. unfold _makeBatchUpdateRequest.
    unfold outcome at 1, after. rewrite bind_run. simpl.
    apply axios_then_throws. intros response v. exists tt. apply apply_never_throws.
  - intros filters.
    destruct (getAuthMode (auth (doc w))) as [mode|e0] eqn:Hmode.
    + unfold outcome, after. rewrite (loadCells_run filters w mode Hmode).
      destruct (map_throwing _ _) as [dataFilters|e0]; [|intros _; split; reflexivity].
      destruct (is_API_KEY mode).
      * unfold fetch_by_get. rewrite bind_run. simpl.
        apply axios_then_throws. intros reply v. exists tt. apply upserts_never_throw.
      * unfold fetch_by_post. rewrite bind_run. simpl.
        apply axios_then_throws. intros reply v. exists tt. apply upserts_never_throw.
    + unfold outcome, after, loadCells, authMode. rewrite !bind_run. simpl. rewrite Hmode.
      intros _. split; reflexivity.
  - intros requestType requestParams. unfold outcome at 1, after.
    rewrite single_update_run.
    destruct (_setAxiosRequestAuth _ _) as [wired|e0]; [|intros _ _; split; reflexivity].
    destruct (reply_batchUpdate _ _) as [err|response]; [intros _ _; split; reflexivity|].
    simpl. destruct (replies response); [|discriminate].
    intros [= <-] Hkind. now contradiction Hkind.
Qed.

End Failure.

(** ** Sorting and counting the worksheets *)

Lemma insert_by_perm {A} (key : A -> Z) (x : A) (l : list A) :
  insert_by key x l ≡ₚ x :: l.
Proof.
  induction l as [|y l IH]; simpl; [reflexivity|].
  destruct (key y <=? key x); [|reflexivity].
  rewrite IH. apply Permutation_swap.
Qed.

Lemma sortBy_perm {A} (key : A -> Z) (l : list A) : sortBy key l ≡ₚ l.
Proof.
  unfold sortBy.
  assert (Hgen : forall acc, foldl (fun sorted x => insert_by key x sorted) acc l ≡ₚ acc ++ l).
  { induction l as [|x l IH]; intros acc; simpl.
    - now rewrite app_nil_r.
    - rewrite IH, insert_by_perm. simpl. apply Permutation_middle. }
  apply Hgen.
Qed.

Lemma insert_by_sorted {A} (key : A -> Z) (x : A) (l : list A) :
  StronglySorted (fun a b => key a <= key b) l ->
  StronglySorted (fun a b => key a <= key b) (insert_by key x l).
Proof.
  induction 1 as [|y l Hl IH Hy]; simpl.
  - constructor; [constructor | constructor].
  - destruct (Z.leb_spec (key y) (key x)) as [Hle|Hgt].
    + constructor; [exact IH|].
      rewrite insert_by_perm. constructor; [exact Hle | exact Hy].
    + constructor.
      * constructor; assumption.
      * constructor; [lia|]. eapply Forall_impl; [exact Hy|]. simpl. intros z Hz. lia.
Qed.

Lemma sortBy_sorted {A} (key : A -> Z) (l : list A) :
  StronglySorted (fun a b => key a <= key b) (sortBy key l).
Proof.
  unfold sortBy.
  assert (Hgen : forall acc,
             StronglySorted (fun a b => key a <= key b) acc ->
             StronglySorted (fun a b => key a <= key b)
               (foldl (fun sorted x => insert_by key x sorted) acc l)).
  { induction l as [|x l IH]; intros acc Hacc; simpl; [exact Hacc|].
    apply IH. now apply insert_by_sorted. }
  apply Hgen. constructor.
Qed.

Lemma values_perm (m : gmap Z nat) : values m ≡ₚ (map_to_list m).*2.
Proof. unfold values. now rewrite sortBy_perm. Qed.

Lemma values_length (m : gmap Z nat) : length (values m) = size m.
Proof. rewrite values_perm, length_fmap. apply length_map_to_list. Qed.

Section Listing.
Context {W : WorksheetClass} {U : Utils} {R : RemoteService}.

(** X6: on a loaded document, [sheetsByIndex] lists every cached worksheet
    exactly once (it is a rearrangement of the objects in the worksheet
    map), in ascending order of their [index]; [sheetCount] is the number of
    sheet ids in the map. Neither changes the world. *)
Theorem X6_sheets_by_index_sorted (w : World) (props : SpreadsheetProperties) :
  _rawProperties (doc w) = Some props ->
  exists l,
    sheetsByIndex w = (Ok l, w)
    /\ l ≡ₚ (map_to_list (_rawSheets (doc w))).*2
    /\ StronglySorted
         (fun a b => from_option worksheet_index 0 (heap w !! a)
                     <= from_option worksheet_index 0 (heap w !! b)) l
    /\ sheetCount w = (Ok (Z.of_nat (size (_rawSheets (doc w)))), w).
Proof.
  intros Hp. eexists. split; [|split; [|split]].
  - unfold sheetsByIndex, _ensureInfoLoaded, mbind, M_bind, mret, M_ret, this, objects.
    simpl. rewrite Hp. simpl. reflexivity.
  - rewrite sortBy_perm. apply values_perm.
  - apply sortBy_sorted.
  - unfold sheetCount, _ensureInfoLoaded, mbind, M_bind, mret, M_ret, this.
    simpl. rewrite Hp. simpl. now rewrite values_length.
Qed.

End Listing.

Lemma X6_sheets_by_index_sorted_witness :
  exists l,
    @sheetsByIndex Fixture.worksheet (Fixture.listed Fixture.token_auth)
    = (Ok l, Fixture.listed Fixture.token_auth)
    /\ l ≡ₚ (map_to_list (_rawSheets (doc (Fixture.listed Fixture.token_auth)))).*2
    /\ StronglySorted
         (fun a b =>
            from_option (@worksheet_index Fixture.worksheet) 0
              (heap (Fixture.listed Fixture.token_auth) !! a)
            <= from_option (@worksheet_index Fixture.worksheet) 0
                 (heap (Fixture.listed Fixture.token_auth) !! b)) l
    /\ @sheetCount Fixture.worksheet (Fixture.listed Fixture.token_auth)
       = (Ok (Z.of_nat (size (_rawSheets (doc (Fixture.listed Fixture.token_auth))))),
          Fixture.listed Fixture.token_auth).
Proof.
  apply (@X6_sheets_by_index_sorted Fixture.worksheet (Fixture.listed Fixture.token_auth)
           Fixture.budget).
  reflexivity.
Defined.

(** ** Loading, resetting and deleting *)

Section Reloading.
Context {W : WorksheetClass} {U : Utils} {R : RemoteService}.

Lemma upsert_dom (info : SheetInfo) (w : World) :
  dom (_rawSheets (doc (after (_updateOrCreateSheet info) w)))
  = dom (_rawSheets (doc w)) ∪ {[sheetId (properties info)]}.
Proof.
  unfold after.
  destruct (_rawSheets (doc w) !! sheetId (properties info)) as [a|] eqn:Ha.
  - rewrite (upsert_present _ _ a Ha). simpl.
    symmetry. rewrite (comm_L (∪)). apply subseteq_union_1_L.
    apply singleton_subseteq_l. apply elem_of_dom. eauto.
  - rewrite (upsert_absent _ _ Ha). simpl. rewrite dom_insert_L.
    apply (comm_L (∪)).
Qed.

Lemma upserts_dom (l : list SheetInfo) (w : World) :
  dom (_rawSheets (doc (after (each l _updateOrCreateSheet) w)))
  = dom (_rawSheets (doc w)) ∪ list_to_set ((fun info => sheetId (properties info)) <$> l).
Proof.
  revert w. induction l as [|info l IH]; intros w.
  - simpl. symmetry. apply (right_id_L ∅ (∪)).
  - unfold after. rewrite each_cons by apply upsert_frame.
    fold (after (each l _updateOrCreateSheet) (after (_updateOrCreateSheet info) w)).
    rewrite IH, upsert_dom, fmap_cons, list_to_set_cons.
    now rewrite (assoc_L (∪)).
Qed.

(** X7: after a successful [loadInfo] the cached sheet ids are those cached
    before together with the sheet ids of the reply, the export address is
    the one of the reply, and [sheetCount] counts exactly these ids. *)
Theorem X7_load_info_caches_reply (includeCells : bool) (w : World) :
  outcome (loadInfo includeCells) w = Ok tt ->
  exists wired reply,
    reply_spreadsheet (sent w) wired = inr reply
    /\ dom (_rawSheets (doc (after (loadInfo includeCells) w)))
       = dom (_rawSheets (doc w)) ∪ list_to_set (sheetIds reply)
    /\ _spreadsheetUrl (doc (after (loadInfo includeCells) w)) = spreadsheetUrl reply
    /\ outcome sheetCount (after (loadInfo includeCells) w)
       = Ok (Z.of_nat (size (dom (_rawSheets (doc w)) ∪ list_to_set (sheetIds reply)))).
Proof.
  unfold outcome at 1. unfold after. rewrite loadInfo_run.
  destruct (_setAxiosRequestAuth _ _) as [wired|e]; [|discriminate].
  destruct (reply_spreadsheet (sent w) wired) as [err|reply] eqn:Hreply; [discriminate|].
  intros _. exists wired, reply. simpl.
  set (w0 := {| doc := set_rawProperties (Some (spreadsheet_properties reply))
                         (set_spreadsheetUrl (spreadsheetUrl reply) (doc w));
                heap := heap w; sent := sent w ++ [wired] |}).
  destruct (upserts_frame (sheets reply) w0) as (_ & _ & Hp & Hu & _).
  pose proof (upserts_dom (sheets reply) w0) as Hdom.
  split; [exact Hreply|]. split; [exact Hdom|]. split; [exact Hu|].
  unfold outcome, sheetCount, _ensureInfoLoaded, mbind, M_bind, mret, M_ret, this.
  simpl. unfold after in *. rewrite Hp. simpl.
  rewrite values_length. f_equal. rewrite <- size_dom.
  rewrite Hdom. reflexivity.
Qed.

Lemma isolates_refl (n : nat) (w : World) : isolates n w w.
Proof. intros Hw. split; [exact Hw | reflexivity]. Qed.

Lemma isolates_trans (n : nat) (w1 w2 w3 : World) :
  isolates n w1 w2 -> isolates n w2 w3 -> isolates n w1 w3.
Proof.
  intros H12 H23 H1. destruct (H12 H1) as [H2 Hheap12].
  destruct (H23 H2) as [H3 Hheap23].
  split; [exact H3|]. intros b Hb. now rewrite Hheap23, Hheap12.
Qed.

Lemma upsert_isolates (n : nat) (info : SheetInfo) (w : World) :
  isolates n w (after (_updateOrCreateSheet info) w).
Proof.
  intros [Hrefs Hlen]. unfold after.
  destruct (_rawSheets (doc w) !! sheetId (properties info)) as [a|] eqn:Ha.
  - rewrite (upsert_present _ _ a Ha). simpl. split.
    + split; simpl; [exact Hrefs|]. now rewrite length_alter.
    + intros b Hb. apply list_lookup_alter_ne. apply Hrefs in Ha. lia.
  - rewrite (upsert_absent _ _ Ha). simpl. split.
    + split; simpl.
      * intros id a Hid. apply lookup_insert_Some in Hid as [[_ <-] | [_ Hid]]; [lia|].
        eauto.
      * rewrite length_app. lia.
    + intros b Hb. apply lookup_app_l. lia.
Qed.

Lemma run_isolates (n : nat) (op : Operation) (w : World) :
  evicts op = false -> isolates n w (after (run op) w).
Proof.
  intros Hop. revert w. apply (run_respects (isolates n)); [| | | | |exact Hop].
  - apply isolates_refl.
  - apply isolates_trans.
  - intros request v Hv. split; [exact Hv | reflexivity].
  - intros f v Hf [Hrefs Hlen]. split; [|reflexivity]. split; simpl; [|exact Hlen].
    intros id a Ha. rewrite Hf in Ha. eauto.
  - apply upsert_isolates.
Qed.

(** X8: [resetLocalCache] cuts the cache off from the worksheet objects it
    held: whatever is loaded, updated or fetched afterwards, by calls other
    than a further reset or [deleteSheet], the cache refers only to objects
    created after the reset, and every object that existed at the reset
    stays exactly as it was then. *)
Theorem X8_reset_isolates_old_objects (ops : list Operation) (w : World) :
  Forall (fun op => evicts op = false) ops ->
  (forall id a,
      _rawSheets (doc (runs ops (after resetLocalCache w))) !! id = Some a ->
      (length (heap w) <= a)%nat)
  /\ (forall b, (b < length (heap w))%nat ->
                heap (runs ops (after resetLocalCache w)) !! b = heap w !! b).
Proof.
  intros Hops.
  assert (Hruns : forall v, isolates (length (heap w)) v (runs ops v)).
  { induction Hops as [|op ops Hop _ IH]; intros v; [apply isolates_refl|].
    simpl. eapply isolates_trans; [apply run_isolates; exact Hop | apply IH]. }
  destruct (Hruns (after resetLocalCache w)) as [[Hrefs _] Hheap].
  - split; simpl; [|lia]. intros id a Ha. now rewrite lookup_empty in Ha.
  - split; [exact Hrefs | exact Hheap].
Qed.

Lemma after_bind {A B} (m : M A) (k : A -> M B) (w : World) :
  after (m ≫= k) w =
    match outcome m w with
    | Ok a => after (k a) (after m w)
    | Throw _ => after m w
    end.
Proof.
  unfold after, outcome. rewrite bind_run. destruct (m w) as [[a|e] w']; reflexivity.
Qed.

Lemma outcome_bind {A B} (m : M A) (k : A -> M B) (w : World) :
  outcome (m ≫= k) w =
    match outcome m w with
    | Ok a => outcome (k a) (after m w)
    | Throw e => Throw e
    end.
Proof.
  unfold after, outcome. rewrite bind_run. destruct (m w) as [[a|e] w']; reflexivity.
Qed.

(** X9: [deleteSheet] evicts the sheet only when its mutation request went
    through. When it returns, the sheet id is gone from the worksheet map,
    every other id is as the echoed state left it, and the worksheet object
    itself stays in the store; when it throws, the cache is as the request
    left it and nothing is evicted. Either way it sends what the single
    mutation request [deleteSheet] sends. *)
Theorem X9_delete_sheet_evicts (id : Z) (w : World) :
  let request := _makeSingleUpdateRequest "deleteSheet" (JObj [("sheetId", JNum id)]) in
  sent (after (deleteSheet id) w) = sent (after request w)
  /\ heap (after (deleteSheet id) w) = heap (after request w)
  /\ match outcome (deleteSheet id) w with
     | Ok _ =>
         _rawSheets (doc (after (deleteSheet id) w)) = delete id (_rawSheets (doc (after request w)))
         /\ _rawSheets (doc (after (deleteSheet id) w)) !! id = None
     | Throw e =>
         outcome request w = Throw e
         /\ after (deleteSheet id) w = after request w
     end.
Proof.
  simpl. unfold deleteSheet. rewrite after_bind, outcome_bind.
  destruct (outcome (_makeSingleUpdateRequest "deleteSheet" (JObj [("sheetId", JNum id)])) w)
    as [reply|e]; simpl.
  - repeat split. apply lookup_delete_eq.
  - repeat split.
Qed.

(** X10: a batch mutation request with the one request [{type: params}] and
    no response ranges sends what the single mutation request sends and
    leaves the same world; it returns whenever the single one does, and
    what it throws the single one throws too. *)
Theorem X10_batch_of_one (requestType : string) (requestParams : Json) (w : World) :
  after (_makeBatchUpdateRequest [JObj [(requestType, requestParams)]] JUndefined) w
  = after (_makeSingleUpdateRequest requestType requestParams) w
  /\ (forall reply,
        outcome (_makeSingleUpdateRequest requestType requestParams) w = Ok reply ->
        outcome (_makeBatchUpdateRequest [JObj [(requestType, requestParams)]] JUndefined) w
        = Ok tt)
  /\ (forall e,
        outcome (_makeBatchUpdateRequest [JObj [(requestType, requestParams)]] JUndefined) w
        = Throw e ->
        outcome (_makeSingleUpdateRequest requestType requestParams) w = Throw e).
Proof.
  assert (Hbatch :
    _makeBatchUpdateRequest [JObj [(requestType, requestParams)]] JUndefined w =
      match _setAxiosRequestAuth (auth (doc w)) (envelope (doc w) requestType requestParams) with
      | Throw e => (Throw e, w)
      | Ok wired =>
          match reply_batchUpdate (sent w) wired with
          | inl err => (Throw (_handleAxiosErrors (auth (doc w)) err), put_sent wired w)
          | inr response =>
              (Ok tt, after (apply_snapshot (updatedSpreadsheet response)) (put_sent wired w))
          end
      end).
  { unfold _makeBatchUpdateRequest. rewrite bind_run. simpl.
    rewrite bind_run, axios_run. fold (envelope (doc w) requestType requestParams).
    destruct (_setAxiosRequestAuth _ _) as [wired|e]; [|reflexivity].
    destruct (reply_batchUpdate _ _) as [err|response]; [reflexivity|].
    change (apply_snapshot (updatedSpreadsheet response) (put_sent wired w)
            = (Ok tt, after (apply_snapshot (updatedSpreadsheet response)) (put_sent wired w))).
    rewrite apply_snapshot_run. unfold after. now rewrite apply_snapshot_run. }
  unfold after, outcome. rewrite Hbatch, single_update_run.
  destruct (_setAxiosRequestAuth _ _) as [wired|e].
  - destruct (reply_batchUpdate _ _) as [err|response]; simpl.
    + split; [reflexivity|]. split; [discriminate|]. now intros e [= <-].
    + split; [reflexivity|]. split; [reflexivity | discriminate].
  - simpl. split; [reflexivity|]. split; [discriminate|]. now intros e' [= <-].
Qed.

End Reloading.

Lemma X7_load_info_caches_reply_witness :
  exists wired reply,
    @reply_spreadsheet (Fixture.service Fixture.private_permissions)
      (sent (Fixture.fresh Fixture.token_auth)) wired = inr reply
    /\ dom (_rawSheets
              (doc (after (@loadInfo Fixture.worksheet
                             (Fixture.service Fixture.private_permissions) false)
                      (Fixture.fresh Fixture.token_auth))))
       = dom (_rawSheets (doc (Fixture.fresh Fixture.token_auth)))
           ∪ list_to_set (sheetIds reply)
    /\ _spreadsheetUrl
         (doc (after (@loadInfo Fixture.worksheet
                        (Fixture.service Fixture.private_permissions) false)
                 (Fixture.fresh Fixture.token_auth)))
       = spreadsheetUrl reply
    /\ outcome sheetCount
         (after (@loadInfo Fixture.worksheet
                   (Fixture.service Fixture.private_permissions) false)
            (Fixture.fresh Fixture.token_auth))
       = Ok (Z.of_nat (size (dom (_rawSheets (doc (Fixture.fresh Fixture.token_auth)))
                               ∪ list_to_set (sheetIds reply)))).
Proof.
  apply (@X7_load_info_caches_reply Fixture.worksheet
           (Fixture.service Fixture.private_permissions) false
           (Fixture.fresh Fixture.token_auth)).
  vm_compute. reflexivity.
Defined.

Lemma X8_reset_isolates_old_objects_witness :
  heap (@runs Fixture.worksheet Fixture.utils (Fixture.service Fixture.private_permissions)
          [LoadInfo false; UpdateProperties (JObj [])]
          (after resetLocalCache (Fixture.listed Fixture.token_auth))) !! 0%nat
  = heap (Fixture.listed Fixture.token_auth) !! 0%nat.
Proof.
  apply (@X8_reset_isolates_old_objects Fixture.worksheet Fixture.utils
           (Fixture.service Fixture.private_permissions)
           [LoadInfo false; UpdateProperties (JObj [])]
           (Fixture.listed Fixture.token_auth)).
  - repeat constructor.
  - simpl. lia.
Defined.

(** ** Sharing *)

Section Sharing.
Context {W : WorksheetClass} {U : Utils} {R : RemoteService}.

Lemma includes_nonempty (pattern s : string) :
  pattern <> "" -> includes pattern s = true -> s <> "".
Proof.
  intros Hp Hs ->. destruct pattern; [congruence|]. discriminate Hs.
Qed.

Lemma wired_params (a : GoogleSpreadsheetAuth) (config wired : Request) (k : string) :
  _setAxiosRequestAuth a config = Ok wired ->
  k <> "key" -> get_field k (params wired) = get_field k (params config).
Proof.
  unfold _setAxiosRequestAuth. destruct (getRequestAuthConfig a) as [cfg|]; [|discriminate].
  intros [= <-] Hk. simpl. destruct (params_key cfg); simpl; [|reflexivity].
  now apply get_set_field_other.
Qed.

(** X11: [share] sends one [POST /permissions] once the credential
    resolves. The role it asks for is the one given, or "writer". A
    recipient with an [@] is an e-mail address: the request is for a user,
    or for a group when [isGroup] is set, with [emailAddress] and no
    [domain]. A non-empty recipient without [@] is a domain: type "domain",
    with [domain] and no [emailAddress]. For the empty string the body is
    the role alone. Ownership is transferred exactly when the role given is
    "owner". *)
Theorem X11_share_recipient (recipient : string) (opts : option ShareOptions)
    (w : World) (cfg : AuthConfig) :
  getRequestAuthConfig (auth (doc w)) = Ok cfg ->
  exists wired fields,
    sent (after (share recipient opts) w) = sent w ++ [wired]
    /\ method wired = "POST" /\ url wired = "/permissions"
    /\ body wired = JObj fields
    /\ get_field "role" fields = JStr (share_role_sent opts)
    /\ (if includes "@" recipient
        then get_field "type" fields
             = JStr (if from_option share_isGroup false opts then "group" else "user")
             /\ get_field "emailAddress" fields = JStr recipient
             /\ get_field "domain" fields = JUndefined
        else get_field "emailAddress" fields = JUndefined
             /\ if String.eqb recipient ""
                then fields = [("role", JStr (share_role_sent opts))]
                else get_field "type" fields = JStr "domain"
                     /\ get_field "domain" fields = JStr recipient)
    /\ (get_field "transferOwnership" (params wired) = JBool true
        <-> opts ≫= share_role = Some "owner").
Proof.
  intros Hcfg.
  assert (Hwire : forall config, exists wired, _setAxiosRequestAuth (auth (doc w)) config = Ok wired).
  { intros config. unfold _setAxiosRequestAuth. rewrite Hcfg. eexists. reflexivity. }
  unfold share. cbv zeta. unfold after. rewrite bind_run. simpl.
  rewrite then_ret_run. unfold after. rewrite axios_run.
  match goal with
  | |- context [_setAxiosRequestAuth _ ?config] =>
      destruct (Hwire config) as [wired Hwired]; rewrite Hwired;
      destruct (wired_keeps _ _ _ Hwired) as (Hm & Hu & _ & Hb);
      pose proof (wired_params _ _ _ "transferOwnership" Hwired) as Hparams
  end.
  simpl in Hm, Hu, Hb, Hparams.
  eexists wired, _. split; [reflexivity|]. split; [exact Hm|]. split; [exact Hu|].
  split; [exact Hb|].
  fold (share_role_sent opts).
  split; [|split].
  - destruct (includes "@" recipient) eqn:Hat.
    + rewrite nonempty_truthy_string by (eapply includes_nonempty; [|exact Hat]; discriminate).
      reflexivity.
    + simpl. destruct recipient; reflexivity.
  - destruct (includes "@" recipient) eqn:Hat.
    + rewrite nonempty_truthy_string by (eapply includes_nonempty; [|exact Hat]; discriminate).
      simpl. repeat split.
    + simpl. destruct recipient as [|c s]; simpl; repeat split.
  - rewrite Hparams by discriminate.
    case_bool_decide as Hrole.
    + rewrite Hrole. simpl. rewrite get_set_field. tauto.
    + assert (Hnone : forall em,
               get_field "transferOwnership"
                 (spread
                    (spread match em with
                            | JBool false => [("sendNotificationEmail", JBool false)]
                            | _ => []
                            end
                       (if isString em then [("emailMessage", em)] else [])) [])
               = JUndefined).
      { intros em. destruct em as [| |[]| | | |]; reflexivity. }
      rewrite Hnone. split; [discriminate | contradiction].
Qed.

End Sharing.

Lemma X11_share_recipient_witness :
  exists wired fields,
    sent (after (@share Fixture.worksheet (Fixture.service Fixture.private_permissions)
                   "al@example.com" None) (Fixture.fresh Fixture.token_auth))
    = sent (Fixture.fresh Fixture.token_auth) ++ [wired]
    /\ method wired = "POST" /\ url wired = "/permissions"
    /\ body wired = JObj fields
    /\ get_field "role" fields = JStr (share_role_sent None)
    /\ (if includes "@" "al@example.com"
        then get_field "type" fields
             = JStr (if from_option share_isGroup false None then "group" else "user")
             /\ get_field "emailAddress" fields = JStr "al@example.com"
             /\ get_field "domain" fields = JUndefined
        else get_field "emailAddress" fields = JUndefined
             /\ if String.eqb "al@example.com" ""
                then fields = [("role", JStr (share_role_sent None))]
                else get_field "type" fields = JStr "domain"
                     /\ get_field "domain" fields = JStr "al@example.com")
    /\ (get_field "transferOwnership" (params wired) = JBool true
        <-> None ≫= share_role = Some "owner").
Proof.
  apply (@X11_share_recipient Fixture.worksheet (Fixture.service Fixture.private_permissions)
           "al@example.com" None (Fixture.fresh Fixture.token_auth)
           {| params_key := None; headers_Authorization := Some "Bearer t-456" |}).
  reflexivity.
Defined.

(** ** Public access with a role, and creating a document *)

Section Creating.
Context {W : WorksheetClass} {U : Utils} {R : RemoteService}.

Lemma upserts_well_formed (l : list SheetInfo) (w : World) :
  well_formed w -> well_formed (after (each l _updateOrCreateSheet) w).
Proof.
  revert w. induction l as [|info l IH]; intros w Hw; [exact Hw|].
  unfold after. rewrite each_cons by apply upsert_frame.
  apply IH. now apply upsert_well_formed.
Qed.

(** X12: once the permissions are listed, [setPublicAccessLevel] with a
    role sends exactly one more request, a [POST /permissions] for type
    "anyone" with that role ("viewer" for the empty string), whether or not
    a public permission is listed; it deletes nothing. *)
Theorem X12_public_access_on (role : string) (w : World) (wired : Request)
    (permissions : list Permission) :
  _setAxiosRequestAuth (auth (doc w)) (permissions_request (doc w)) = Ok wired ->
  reply_permissions (sent w) wired = inr permissions ->
  exists creation,
    sent (after (setPublicAccessLevel (Some role)) w) = sent w ++ [wired; creation]
    /\ method creation = "POST" /\ url creation = "/permissions"
    /\ body creation
       = JObj [("role", JStr (if String.eqb role "" then "viewer" else role));
               ("type", JStr "anyone")].
Proof.
  intros Hwired Hreply.
  assert (Hlist : listPermissions w = (Ok permissions, put_sent wired w)).
  { rewrite listPermissions_run. now rewrite Hwired, Hreply. }
  destruct (wired_again _ _ _
              (driveApi (doc w) "POST" "/permissions" []
                 (JObj [("role", JStr (if truthy_string (Some role) then role else "viewer"));
                        ("type", JStr "anyone")])) Hwired)
    as [creation Hcreation].
  destruct (wired_keeps _ _ _ Hcreation) as (Hm & Hu & _ & Hb).
  exists creation. split; [|split; [exact Hm|split; [exact Hu|]]].
  - unfold after, setPublicAccessLevel. rewrite bind_run, Hlist. simpl.
    rewrite bind_run. simpl. rewrite bind_run, axios_run. simpl. simpl in Hcreation.
    rewrite Hcreation. destruct (reply_drive _ _); simpl; now rewrite <- app_assoc.
  - rewrite Hb. simpl. destruct role; reflexivity.
Qed.

(** X13: creating a document under a credential without API key sends one
    request, straight through axios with the Bearer header and no [key].
    When the service refuses it, the raw transport error is thrown as it
    is: the document's error interceptor is not in the way. When the
    service accepts it, the new document has the id of the reply and the
    properties, export address and sheet ids of the reply cached, and its
    world is well formed. *)
Theorem X13_created_document_is_loaded (a : GoogleSpreadsheetAuth) (props : Json)
    (cfg : AuthConfig) :
  has (apiKey a) = false ->
  getRequestAuthConfig a = Ok cfg ->
  params (create_request cfg props) = []
  /\ (exists tok, tok <> ""
                  /\ headers (create_request cfg props)
                     = [("Authorization", JStr ("Bearer " +:+ tok))])
  /\ match reply_spreadsheet [] (create_request cfg props) with
     | inl err =>
         createNewSpreadsheetDocument a props
         = (Throw (Rethrown err), [create_request cfg props])
     | inr reply =>
         exists w,
           createNewSpreadsheetDocument a props = (Ok w, [create_request cfg props])
           /\ sent w = [create_request cfg props]
           /\ spreadsheetId (doc w) = new_spreadsheetId reply
           /\ auth (doc w) = a
           /\ _rawProperties (doc w) = Some (spreadsheet_properties reply)
           /\ _spreadsheetUrl (doc w) = spreadsheetUrl reply
           /\ dom (_rawSheets (doc w)) = list_to_set (sheetIds reply)
           /\ well_formed w
     end.
Proof.
  intros Hkey Hcfg.
  assert (Hshape : params_key cfg = None
                   /\ exists tok, tok <> ""
                                  /\ headers_Authorization cfg = Some ("Bearer " +:+ tok)).
  { unfold getRequestAuthConfig in Hcfg. destruct (apiKey a); [discriminate Hkey|].
    match type of Hcfg with
    | match ?fetched with _ => _ end = _ => destruct fetched as [tok|e]; [|discriminate Hcfg]
    end.
    destruct (truthy_string tok) eqn:Ht; [|discriminate Hcfg].
    apply truthy_string_nonempty in Ht as (s & -> & Hs).
    injection Hcfg as <-. simpl. split; [reflexivity|]. now exists s. }
  destruct Hshape as (Hparams & tok & Htok & Hheader).
  split; [|split].
  - unfold create_request. simpl. now rewrite Hparams.
  - exists tok. split; [exact Htok|]. unfold create_request. simpl. now rewrite Hheader.
  - unfold createNewSpreadsheetDocument. rewrite Hkey, Hcfg.
    fold (create_request cfg props).
    destruct (reply_spreadsheet [] (create_request cfg props)) as [err|reply]; [reflexivity|].
    set (w0 := {| doc := set_rawProperties (Some (spreadsheet_properties reply))
                           (set_spreadsheetUrl (spreadsheetUrl reply)
                              (new_GoogleSpreadsheet (new_spreadsheetId reply) a));
                  heap := []; sent := [create_request cfg props] |}).
    assert (Hseed :
      (assign (set_spreadsheetUrl (spreadsheetUrl reply));;
       assign (set_rawProperties (Some (spreadsheet_properties reply)));;
       each (sheets reply) _updateOrCreateSheet)
        {| doc := new_GoogleSpreadsheet (new_spreadsheetId reply) a; heap := [];
           sent := [create_request cfg props] |}
      = (Ok tt, after (each (sheets reply) _updateOrCreateSheet) w0)).
    { rewrite bind_run. simpl. rewrite bind_run. simpl. rewrite run_pair.
      f_equal. apply upserts_frame. }
    cbv zeta. rewrite Hseed. simpl.
    exists (after (each (sheets reply) _updateOrCreateSheet) w0).
    destruct (upserts_frame (sheets reply) w0) as (_ & Hs & Hp & Hu & Ha & Hi).
    pose proof (upserts_dom (sheets reply) w0) as Hdom.
    split; [reflexivity|]. split; [exact Hs|]. split; [exact Hi|]. split; [exact Ha|].
    split; [exact Hp|]. split; [exact Hu|]. split.
    + rewrite Hdom. simpl. rewrite dom_empty_L. apply (left_id_L ∅ (∪)).
    + assert (Hwf0 : well_formed w0).
      { split; simpl; intros *; rewrite lookup_empty; discriminate. }
      now apply upserts_well_formed.
Qed.

End Creating.

Lemma X12_public_access_on_witness :
  exists creation,
    sent (after (@setPublicAccessLevel Fixture.worksheet
                   (Fixture.service Fixture.public_permissions) (Some ""))
            (Fixture.fresh Fixture.token_auth))
    = sent (Fixture.fresh Fixture.token_auth)
      ++ [{| method := "GET"; baseURL := DRIVE_API_BASE_URL +:+ "/doc-1";
             url := "/permissions";
             params := [("fields",
                         JStr "permissions(id,type,emailAddress,domain,role,displayName,photoLink,deleted)")];
             headers := [("Authorization", JStr "Bearer t-456")];
             body := JUndefined; responseType := None |};
          creation]
    /\ method creation = "POST" /\ url creation = "/permissions"
    /\ body creation
       = JObj [("role", JStr (if String.eqb "" "" then "viewer" else ""));
               ("type", JStr "anyone")].
Proof.
  apply (@X12_public_access_on Fixture.worksheet
           (Fixture.service Fixture.public_permissions) ""
           (Fixture.fresh Fixture.token_auth) _ Fixture.public_permissions).
  - reflexivity.
  - reflexivity.
Defined.

Lemma X13_created_document_is_loaded_witness :
  params (create_request
            {| params_key := None; headers_Authorization := Some "Bearer t-456" |}
            (JObj [("title", JStr "Budget")])) = []
  /\ (exists tok, tok <> ""
                  /\ headers (create_request
                                {| params_key := None;
                                   headers_Authorization := Some "Bearer t-456" |}
                                (JObj [("title", JStr "Budget")]))
                     = [("Authorization", JStr ("Bearer " +:+ tok))])
  /\ match @reply_spreadsheet (Fixture.service Fixture.private_permissions) []
             (create_request
                {| params_key := None; headers_Authorization := Some "Bearer t-456" |}
                (JObj [("title", JStr "Budget")])) with
     | inl err =>
         @createNewSpreadsheetDocument Fixture.worksheet
           (Fixture.service Fixture.private_permissions) Fixture.token_auth
           (JObj [("title", JStr "Budget")])
         = (Throw (Rethrown err),
            [create_request
               {| params_key := None; headers_Authorization := Some "Bearer t-456" |}
               (JObj [("title", JStr "Budget")])])
     | inr reply =>
         exists w,
           @createNewSpreadsheetDocument Fixture.worksheet
             (Fixture.service Fixture.private_permissions) Fixture.token_auth
             (JObj [("title", JStr "Budget")])
           = (Ok w,
              [create_request
                 {| params_key := None; headers_Authorization := Some "Bearer t-456" |}
                 (JObj [("title", JStr "Budget")])])
           /\ sent w
              = [create_request
                   {| params_key := None; headers_Authorization := Some "Bearer t-456" |}
                   (JObj [("title", JStr "Budget")])]
           /\ spreadsheetId (doc w) = new_spreadsheetId reply
           /\ auth (doc w) = Fixture.token_auth
           /\ _rawProperties (doc w) = Some (spreadsheet_properties reply)
           /\ _spreadsheetUrl (doc w) = spreadsheetUrl reply
           /\ dom (_rawSheets (doc w)) = list_to_set (sheetIds reply)
           /\ well_formed w
     end.
Proof.
  apply (@X13_created_document_is_loaded Fixture.worksheet
           (Fixture.service Fixture.private_permissions) Fixture.token_auth
           (JObj [("title", JStr "Budget")])
           {| params_key := None; headers_Authorization := Some "Bearer t-456" |}).
  - reflexivity.
  - reflexivity.
Defined.

(** ** The export address *)

Section Address.
Context {W : WorksheetClass} {U : Utils} {R : RemoteService}.

Lemma address_ret {A} (a : A) : respects same_address (mret a).
Proof. intros w. reflexivity. Qed.

Lemma address_throw {A} (e : Exn) : respects same_address (@throw W A e).
Proof. intros w. reflexivity. Qed.

Lemma address_lift {A} (r : Result A) : respects same_address (lift r).
Proof. intros w. reflexivity. Qed.

Lemma address_this : respects same_address this.
Proof. intros w. reflexivity. Qed.

Lemma address_deref (a : nat) : respects same_address (deref a).
Proof. intros w. unfold after, deref. now destruct (heap w !! a). Qed.

Lemma address_bind {A B} (m : M A) (k : A -> M B) :
  respects same_address m -> (forall a, respects same_address (k a)) ->
  respects same_address (m ≫= k).
Proof.
  intros Hm Hk w. unfold after. rewrite bind_run.
  specialize (Hm w). unfold after in Hm.
  destruct (m w) as [[a|e] w']; simpl in *; [|exact Hm].
  unfold same_address in *. rewrite <- Hm. apply Hk.
Qed.

Lemma address_axios {A} (net : Network A) (config : Request) :
  respects same_address (axios net config).
Proof.
  intros w. unfold after. rewrite axios_run.
  now destruct (_setAxiosRequestAuth _ _).
Qed.

Lemma address_assign (f : GoogleSpreadsheet -> GoogleSpreadsheet) :
  (forall d, _spreadsheetUrl (f d) = _spreadsheetUrl d) ->
  respects same_address (assign f).
Proof. intros Hf w. apply Hf. Qed.

Lemma address_each (l : list SheetInfo) :
  respects same_address (each l _updateOrCreateSheet).
Proof. intros w. apply upserts_frame. Qed.

Ltac address :=
  repeat (intros; cbv zeta;
          first
            [ apply address_ret | apply address_throw | apply address_lift
            | apply address_this | apply address_deref | apply address_axios
            | apply address_each
            | apply address_assign; intros; reflexivity
            | apply address_bind
            | match goal with
              | |- respects _ (match ?x with _ => _ end) => destruct x
              end ]).

Lemma single_update_address (requestType : string) (requestParams : Json) :
  respects same_address (_makeSingleUpdateRequest requestType requestParams).
Proof. unfold _makeSingleUpdateRequest, _updateRawProperties. address. Qed.

(** Every call but [loadInfo] leaves the export address as it was. *)
Lemma run_address (op : Operation) : loads op = false -> respects same_address (run op).
Proof.
  destruct op; simpl; intros Hop; try discriminate Hop.
  - unfold resetLocalCache. address.
  - unfold updateProperties. apply address_bind; [apply single_update_address | address].
  - apply address_bind; [apply single_update_address | address].
  - unfold _makeBatchUpdateRequest, _updateRawProperties. address.
  - unfold deleteSheet. apply address_bind; [apply single_update_address | address].
  - unfold addNamedRange. apply address_bind; [apply single_update_address | address].
  - unfold deleteNamedRange. apply address_bind; [apply single_update_address | address].
  - unfold loadCells, authMode. address.
  - unfold _downloadAs, export_request. address.
  - unfold delete_spreadsheet. address.
  - unfold listPermissions. address.
  - unfold setPublicAccessLevel, listPermissions. address.
  - unfold share. address.
  - unfold Row.save, Row.a1Range, Row.worksheet_headerValues. address.
  - unfold Row.delete, Row.worksheet_makeSingleUpdateRequest.
    fold (Row.deleted row). destruct (Row.deleted row); [apply address_bind; address|].
    apply address_bind; [|address].
    apply address_bind; [address|]. intros ws.
    apply address_bind; [apply single_update_address | address].
Qed.

Lemma runs_address (ops : list Operation) (w : World) :
  Forall (fun op => loads op = false) ops -> same_address w (runs ops w).
Proof.
  intros Hops. revert w.
  induction Hops as [|op ops Hop _ IH]; intros w; [reflexivity|].
  simpl. unfold same_address in *. rewrite IH. now apply run_address.
Qed.

Lemma export_without_address (fileType : string) (worksheetId : option Z) (stream : bool)
    (w : World) :
  truthy_string (_spreadsheetUrl (doc w)) = false ->
  export_request fileType worksheetId stream w = (Throw export_not_loaded, w).
Proof.
  intros Hu. unfold export_request. cbv zeta. rewrite bind_run. simpl.
  now rewrite Hu.
Qed.

(** X14: only [loadInfo] sets the export address of a document. Through
    any sequence of other calls (mutation requests whose echo fills the
    properties, [loadCells], [resetLocalCache], ...) the address stays what
    it was; so on a document that has none, every export throws and sends
    nothing, and the three whole-document exports throw "Cannot export
    sheet that is not fully loaded". *)
Theorem X14_export_needs_load_info (ops : list Operation) (w : World)
    (fileType : string) (worksheetId : option Z) (stream : bool) :
  Forall (fun op => loads op = false) ops ->
  _spreadsheetUrl (doc (runs ops w)) = _spreadsheetUrl (doc w)
  /\ (truthy_string (_spreadsheetUrl (doc w)) = false ->
      (exists e, _downloadAs fileType worksheetId stream (runs ops w)
                 = (Throw e, runs ops w))
      /\ downloadAsHTML stream (runs ops w) = (Throw export_not_loaded, runs ops w)
      /\ downloadAsXLSX stream (runs ops w) = (Throw export_not_loaded, runs ops w)
      /\ downloadAsODS stream (runs ops w) = (Throw export_not_loaded, runs ops w)).
Proof.
  intros Hops. pose proof (runs_address ops w Hops) as Hsame.
  split; [exact Hsame|]. intros Hu.
  unfold same_address in Hsame. rewrite <- Hsame in Hu.
  pose proof (fun f id => export_without_address f id stream _ Hu) as Hexport.
  split; [|repeat split].
  - unfold _downloadAs. destruct (EXPORT_CONFIG_lookup fileType) as [[|]|].
    + destruct (has worksheetId).
      * rewrite bind_run. simpl. rewrite Hexport. now eexists.
      * now eexists.
    + destruct (truthy_number worksheetId).
      * now eexists.
      * rewrite bind_run. simpl. rewrite Hexport. now eexists.
    + now eexists.
  - unfold downloadAsHTML. rewrite download_whole by reflexivity. apply Hexport.
  - unfold downloadAsXLSX. rewrite download_whole by reflexivity. apply Hexport.
  - unfold downloadAsODS. rewrite download_whole by reflexivity. apply Hexport.
Qed.

End Address.

Lemma X14_export_needs_load_info_witness :
  @downloadAsXLSX Fixture.worksheet (Fixture.service Fixture.private_permissions) false
    (@runs Fixture.worksheet Fixture.utils (Fixture.service Fixture.private_permissions)
       [UpdateProperties (JObj [("title", JStr "Plan")]); LoadCells (JStr "A1:B2")]
       (Fixture.fresh Fixture.token_auth))
  = (Throw export_not_loaded,
     @runs Fixture.worksheet Fixture.utils (Fixture.service Fixture.private_permissions)
       [UpdateProperties (JObj [("title", JStr "Plan")]); LoadCells (JStr "A1:B2")]
       (Fixture.fresh Fixture.token_auth)).
Proof.
  apply (@X14_export_needs_load_info Fixture.worksheet Fixture.utils
           (Fixture.service Fixture.private_permissions)
           [UpdateProperties (JObj [("title", JStr "Plan")]); LoadCells (JStr "A1:B2")]
           (Fixture.fresh Fixture.token_auth) "xlsx" None false).
  - repeat constructor.
  - reflexivity.
Defined.

(** ** Reading a row *)

Section Reading.
Context {W : WorksheetClass} {U : Utils} {R : RemoteService}.

Lemma indexOf_bounds (x : string) (l : list string) :
  indexOf x l = -1 \/ 0 <= indexOf x l.
Proof.
  induction l as [|y l IH]; simpl; [now left|].
  destruct (String.eqb y x); [right; lia|].
  destruct (Z.ltb_spec (indexOf x l) 0); [now left | right; lia].
Qed.

Lemma indexOf_absent (x : string) (l : list string) : x ∉ l -> indexOf x l = -1.
Proof.
  induction l as [|y l IH]; simpl; [reflexivity|].
  intros [Hne Hl]%not_elem_of_cons.
  destruct (String.eqb_spec y x) as [->|_]; [congruence|].
  now rewrite (IH Hl).
Qed.

Lemma toObject_from_total (hs : list string) (i : Z) (items : list Json)
    (o : list (string * Json)) :
  exists o', toObject_from hs i (JArr items) o = Ok o'.
Proof.
  revert i o. induction hs as [|h hs IH]; intros i o; simpl; [now eexists|].
  destruct (String.eqb h ""); apply IH.
Qed.

(** What [toObject] holds under a key, for headers without duplicates: the
    value of the key's column, or what the object held before when the key
    is no header or is the empty string. *)
Lemma toObject_from_field (hs : list string) (key : string) (items : list Json) :
  NoDup hs -> key <> "__proto__" ->
  forall i o o',
    0 <= i ->
    toObject_from hs i (JArr items) o = Ok o' ->
    get_field key o'
    = if (indexOf key hs <? 0) || String.eqb key ""
      then get_field key o
      else nth (Z.to_nat (i + indexOf key hs)) items JUndefined.
Proof.
  intros Hnd Hproto. induction Hnd as [|h hs Hh Hnd IH]; intros i o o' Hi Hrun.
  - simpl in *. now injection Hrun as <-.
  - simpl in Hrun. simpl indexOf.
    destruct (String.eqb_spec h "") as [->|Hne].
    + specialize (IH (i + 1) o o' ltac:(lia) Hrun). rewrite IH.
      destruct (String.eqb_spec "" key) as [<-|Hk].
      * simpl. now rewrite orb_true_r.
      * destruct (indexOf_bounds key hs) as [Hj|Hj].
        -- rewrite Hj. reflexivity.
        -- destruct (Z.ltb_spec (indexOf key hs) 0); [lia|].
           destruct (Z.ltb_spec (indexOf key hs + 1) 0); [lia|].
           simpl. destruct (String.eqb key ""); [reflexivity|].
           f_equal. lia.
    + destruct (Z.ltb_spec i 0); [lia|].
      specialize (IH (i + 1) _ o' ltac:(lia) Hrun). rewrite IH.
      destruct (String.eqb_spec h key) as [->|Hk].
      * rewrite (indexOf_absent _ _ Hh). simpl.
        destruct (String.eqb_spec key "__proto__"); [congruence|].
        destruct (String.eqb_spec key ""); [congruence|].
        rewrite get_set_field. f_equal. lia.
      * assert (Hsame :
          get_field key (if String.eqb h "__proto__" then o
                         else set_field h (nth (Z.to_nat i) items JUndefined) o)
          = get_field key o).
        { destruct (String.eqb h "__proto__"); [reflexivity|].
          apply get_set_field_other. congruence. }
        rewrite Hsame.
        destruct (indexOf_bounds key hs) as [Hj|Hj].
        -- rewrite Hj. reflexivity.
        -- destruct (Z.ltb_spec (indexOf key hs) 0); [lia|].
           destruct (Z.ltb_spec (indexOf key hs + 1) 0); [lia|].
           simpl. destruct (String.eqb key ""); [reflexivity|].
           f_equal. lia.
Qed.

(** X15: on a row whose worksheet has its headers fetched, without
    duplicates, [toObject] and [get] agree: the object holds under every
    key what [get] returns for it, for every key but [__proto__] and an
    empty header (which [toObject] skips while [get] reads its column).
    Neither call throws nor changes anything, and [get] of a key that is no
    header is [undefined]. *)
Theorem X15_to_object_agrees_with_get (row : Row.t) (w : World)
    (ws : GoogleSpreadsheetWorksheet) (hs : list string) (items : list Json) :
  heap w !! Row._worksheet row = Some ws ->
  headerValues ws = Some hs ->
  Row._rawData row = JArr items ->
  NoDup hs ->
  exists o,
    row_toObject row w = (Ok o, w)
    /\ (forall key, key <> "__proto__" -> key <> "" \/ key ∉ hs ->
          row_get key row w = (Ok (get_field key o), w))
    /\ (forall key, key ∉ hs -> row_get key row w = (Ok JUndefined, w)).
Proof.
  intros Hws Hhs Hraw Hnd.
  destruct (toObject_from_total hs 0 items []) as [o Ho].
  assert (Hget : forall key,
            row_get key row w
            = (Ok (if indexOf key hs <? 0 then JUndefined
                   else nth (Z.to_nat (indexOf key hs)) items JUndefined), w)).
  { intros key. unfold row_get, deref, Row.worksheet_headerValues.
    rewrite bind_run, Hws, Hhs, Hraw. reflexivity. }
  exists o. split; [|split].
  - unfold row_toObject, deref, Row.worksheet_headerValues.
    rewrite bind_run, Hws, Hhs, Hraw, bind_run. simpl. now rewrite Ho.
  - intros key Hproto Hkey. rewrite Hget.
    rewrite (toObject_from_field hs key items Hnd Hproto 0 [] o ltac:(lia) Ho).
    destruct (String.eqb_spec key "") as [->|Hne].
    + destruct Hkey as [Hkey|Hkey]; [congruence|].
      rewrite (indexOf_absent _ _ Hkey). reflexivity.
    + rewrite orb_false_r. destruct (indexOf key hs <? 0); reflexivity.
  - intros key Hkey. rewrite Hget, (indexOf_absent _ _ Hkey). reflexivity.
Qed.

End Reading.

Lemma X15_to_object_agrees_with_get_witness :
  exists o,
    @row_toObject Fixture.worksheet Fixture.row2 (Fixture.listed Fixture.token_auth)
    = (Ok o, Fixture.listed Fixture.token_auth)
    /\ (forall key, key <> "__proto__" -> key <> "" \/ key ∉ ["name"; "age"] ->
          @row_get Fixture.worksheet key Fixture.row2 (Fixture.listed Fixture.token_auth)
          = (Ok (get_field key o), Fixture.listed Fixture.token_auth))
    /\ (forall key, key ∉ ["name"; "age"] ->
          @row_get Fixture.worksheet key Fixture.row2 (Fixture.listed Fixture.token_auth)
          = (Ok JUndefined, Fixture.listed Fixture.token_auth)).
Proof.
  apply (@X15_to_object_agrees_with_get Fixture.worksheet Fixture.row2
           (Fixture.listed Fixture.token_auth) Fixture.people ["name"; "age"]
           [JStr "Al"; JStr "30"]).
  - reflexivity.
  - reflexivity.
  - reflexivity.
  - apply (bool_decide_unpack _). vm_compute. reflexivity.
Defined.

(** ** Cells without properties *)

Section Cells.
Context {W : WorksheetClass} {U : Utils} {R : RemoteService}.

(** The three ways [loadCells] ends: before a request, on a refused
    request, or with the sheets of the reply merged into the cache. *)
Lemma loadCells_cases (filters : Json) (w : World) :
  (exists e, loadCells filters w = (Throw e, w))
  \/ (exists e wired, loadCells filters w = (Throw e, put_sent wired w))
  \/ (exists wired reply,
        reply_spreadsheet (sent w) wired = inr reply
        /\ loadCells filters w
           = (Ok tt, after (each (sheets reply) _updateOrCreateSheet) (put_sent wired w))).
Proof.
  destruct (getAuthMode (auth (doc w))) as [mode|e] eqn:Hmode.
  - rewrite (loadCells_run _ _ _ Hmode).
    destruct (map_throwing _ _) as [dataFilters|e]; [|left; now eexists].
    assert (Hfetch : forall config,
              (axios reply_spreadsheet config
                 ≫= fun result => each (sheets result) _updateOrCreateSheet) w
              = match _setAxiosRequestAuth (auth (doc w)) config with
                | Throw e => (Throw e, w)
                | Ok wired =>
                    match reply_spreadsheet (sent w) wired with
                    | inl err => (Throw (_handleAxiosErrors (auth (doc w)) err),
                                  put_sent wired w)
                    | inr reply =>
                        (Ok tt, after (each (sheets reply) _updateOrCreateSheet)
                                  (put_sent wired w))
                    end
                end).
    { intros config. rewrite bind_run, axios_run.
      destruct (_setAxiosRequestAuth _ _) as [wired|e]; [|reflexivity].
      destruct (reply_spreadsheet (sent w) wired) as [err|reply]; [reflexivity|].
      rewrite run_pair. f_equal. apply upserts_frame. }
    assert (Hcases : forall config,
              (exists e, (axios reply_spreadsheet config
                            ≫= fun result => each (sheets result) _updateOrCreateSheet) w
                         = (Throw e, w))
              \/ (exists e wired,
                    (axios reply_spreadsheet config
                       ≫= fun result => each (sheets result) _updateOrCreateSheet) w
                    = (Throw e, put_sent wired w))
              \/ (exists wired reply,
                    reply_spreadsheet (sent w) wired = inr reply
                    /\ (axios reply_spreadsheet config
                          ≫= fun result => each (sheets result) _updateOrCreateSheet) w
                       = (Ok tt, after (each (sheets reply) _updateOrCreateSheet)
                                   (put_sent wired w)))).
    { intros config. rewrite Hfetch.
      destruct (_setAxiosRequestAuth _ _) as [wired|e]; [|left; now eexists].
      destruct (reply_spreadsheet (sent w) wired) as [err|reply] eqn:Hreply.
      - right; left. now do 2 eexists.
      - right; right. now exists wired, reply. }
    destruct (is_API_KEY mode); unfold fetch_by_get, fetch_by_post;
      rewrite bind_run; simpl; apply Hcases.
  - left. exists e. unfold loadCells, authMode.
    rewrite !bind_run. simpl. now rewrite Hmode.
Qed.

(** X16: [loadCells] is no [loadInfo]. It merges the sheets of the reply
    into the cache (the cached sheet ids are those cached before together
    with those of the reply, after one request), but it never touches the
    document's properties: on a document whose info is not loaded, every
    accessor still throws the not-loaded error afterwards, also the lists
    of the worksheets that are now cached. *)
Theorem X16_load_cells_is_no_load_info (filters : Json) (w : World) :
  _rawProperties (doc (after (loadCells filters) w)) = _rawProperties (doc w)
  /\ (forall acc,
        _rawProperties (doc w) = None ->
        access acc (after (loadCells filters) w)
        = (Throw not_loaded, after (loadCells filters) w))
  /\ (outcome (loadCells filters) w = Ok tt ->
      exists wired reply,
        sent (after (loadCells filters) w) = sent w ++ [wired]
        /\ reply_spreadsheet (sent w) wired = inr reply
        /\ dom (_rawSheets (doc (after (loadCells filters) w)))
           = dom (_rawSheets (doc w)) ∪ list_to_set (sheetIds reply)).
Proof.
  assert (Hprops : _rawProperties (doc (after (loadCells filters) w))
                   = _rawProperties (doc w)).
  { unfold after.
    destruct (loadCells_cases filters w)
      as [[e ->]|[(e & wired & ->)|(wired & reply & _ & ->)]]; try reflexivity.
    simpl. destruct (upserts_frame (sheets reply) (put_sent wired w)) as (_ & _ & Hp & _).
    exact Hp. }
  split; [exact Hprops|]. split.
  - intros acc Hnone. apply access_unloaded. now rewrite Hprops.
  - unfold outcome, after.
    destruct (loadCells_cases filters w)
      as [[e ->]|[(e & wired & ->)|(wired & reply & Hreply & ->)]]; try discriminate.
    intros _. exists wired, reply. simpl.
    destruct (upserts_frame (sheets reply) (put_sent wired w)) as (_ & Hs & _).
    split; [exact Hs|]. split; [exact Hreply|].
    apply (upserts_dom (sheets reply) (put_sent wired w)).
Qed.

End Cells.

(** ** Worksheets by title *)

Section Titles.
Context {W : WorksheetClass} {U : Utils} {R : RemoteService}.

(** [_.keyBy] over a list: what the result holds under a key is an element
    with that key, every element's key is held, and an element whose key
    no other element has is held under it. *)
Lemma keyBy_sound {K} `{Countable K} (f : nat -> K) (l : list nat) (m0 : gmap K nat)
    (t : K) (a : nat) :
  foldl (fun m b => <[f b := b]> m) m0 l !! t = Some a ->
  (a ∈ l /\ f a = t) \/ m0 !! t = Some a.
Proof.
  revert m0. induction l as [|b l IH]; intros m0; simpl; [now right|].
  intros [[Ha Hf]|Hm]%IH.
  - left. split; [apply elem_of_cons; now right | exact Hf].
  - destruct (decide (f b = t)) as [<-|Hne].
    + rewrite lookup_insert_eq in Hm. injection Hm as <-.
      left. split; [apply elem_of_cons; now left | reflexivity].
    + rewrite lookup_insert_ne in Hm by exact Hne. now right.
Qed.

Lemma keyBy_complete {K} `{Countable K} (f : nat -> K) (l : list nat) (m0 : gmap K nat)
    (t : K) :
  is_Some (m0 !! t) \/ (exists a, a ∈ l /\ f a = t) ->
  is_Some (foldl (fun m b => <[f b := b]> m) m0 l !! t).
Proof.
  revert m0. induction l as [|b l IH]; intros m0; simpl.
  - intros [Hm|(a & Ha & _)]; [exact Hm|]. now apply elem_of_nil in Ha.
  - intros [Hm|(a & Ha & Hf)]; apply IH.
    + left. destruct (decide (f b = t)) as [<-|Hne].
      * rewrite lookup_insert_eq. now eexists.
      * now rewrite lookup_insert_ne.
    + apply elem_of_cons in Ha as [->|Ha].
      * left. rewrite <- Hf, lookup_insert_eq. now eexists.
      * right. now exists a.
Qed.

Lemma values_elem (m : gmap Z nat) (a : nat) :
  a ∈ values m <-> exists id, m !! id = Some a.
Proof.
  rewrite values_perm, list_elem_of_fmap. split.
  - intros ([id b] & -> & Hin). exists id. now apply elem_of_map_to_list in Hin.
  - intros [id Hid]. exists (id, a). split; [reflexivity|]. now apply elem_of_map_to_list.
Qed.

(** X17: on a loaded document [sheetsById] is the worksheet map itself, and
    [sheetsByTitle] indexes the same worksheets by title: what it holds
    under a title is a cached worksheet with that title, every cached
    worksheet's title is a key, and a worksheet whose title no other cached
    worksheet has is found under it. Neither changes the world. *)
Theorem X17_sheets_by_title (w : World) (props : SpreadsheetProperties) :
  _rawProperties (doc w) = Some props ->
  exists byTitle,
    sheetsByTitle w = (Ok byTitle, w)
    /\ sheetsById w = (Ok (_rawSheets (doc w)), w)
    /\ (forall t a,
          byTitle !! t = Some a ->
          (exists id, _rawSheets (doc w) !! id = Some a)
          /\ from_option worksheet_title "undefined" (heap w !! a) = t)
    /\ (forall id a,
          _rawSheets (doc w) !! id = Some a ->
          is_Some (byTitle !! from_option worksheet_title "undefined" (heap w !! a)))
    /\ (forall id a,
          _rawSheets (doc w) !! id = Some a ->
          (forall id' b,
              _rawSheets (doc w) !! id' = Some b ->
              from_option worksheet_title "undefined" (heap w !! b)
              = from_option worksheet_title "undefined" (heap w !! a) ->
              b = a) ->
          byTitle !! from_option worksheet_title "undefined" (heap w !! a) = Some a).
Proof.
  intros Hp. eexists. split; [|split; [|split; [|split]]].
  - unfold sheetsByTitle, _ensureInfoLoaded, mbind, M_bind, mret, M_ret, this, objects.
    simpl. rewrite Hp. simpl. reflexivity.
  - unfold sheetsById, _ensureInfoLoaded, mbind, M_bind, mret, M_ret, this.
    simpl. rewrite Hp. reflexivity.
  - intros t a [[Ha Ht]|Hm]%keyBy_sound.
    + split; [now apply values_elem | exact Ht].
    + now rewrite lookup_empty in Hm.
  - intros id a Hid. apply keyBy_complete. right. exists a.
    split; [apply values_elem; now exists id | reflexivity].
  - intros id a Hid Huniq.
    destruct (keyBy_complete (fun a => from_option worksheet_title "undefined" (heap w !! a))
                (values (_rawSheets (doc w))) ∅
                (from_option worksheet_title "undefined" (heap w !! a))) as [b Hb].
    { right. exists a. split; [apply values_elem; now exists id | reflexivity]. }
    rewrite Hb. f_equal.
    apply keyBy_sound in Hb as [[Hin Ht]|Hm]; [|now rewrite lookup_empty in Hm].
    apply values_elem in Hin as [id' Hid']. now apply (Huniq id').
Qed.

End Titles.

Lemma X17_sheets_by_title_witness :
  exists byTitle,
    @sheetsByTitle Fixture.worksheet (Fixture.listed Fixture.token_auth)
    = (Ok byTitle, Fixture.listed Fixture.token_auth)
    /\ @sheetsById Fixture.worksheet (Fixture.listed Fixture.token_auth)
       = (Ok (_rawSheets (doc (Fixture.listed Fixture.token_auth))),
          Fixture.listed Fixture.token_auth)
    /\ (forall t a,
          byTitle !! t = Some a ->
          (exists id, _rawSheets (doc (Fixture.listed Fixture.token_auth)) !! id = Some a)
          /\ from_option (@worksheet_title Fixture.worksheet) "undefined"
               (heap (Fixture.listed Fixture.token_auth) !! a) = t)
    /\ (forall id a,
          _rawSheets (doc (Fixture.listed Fixture.token_auth)) !! id = Some a ->
          is_Some (byTitle !! from_option (@worksheet_title Fixture.worksheet) "undefined"
                                (heap (Fixture.listed Fixture.token_auth) !! a)))
    /\ (forall id a,
          _rawSheets (doc (Fixture.listed Fixture.token_auth)) !! id = Some a ->
          (forall id' b,
              _rawSheets (doc (Fixture.listed Fixture.token_auth)) !! id' = Some b ->
              from_option (@worksheet_title Fixture.worksheet) "undefined"
                (heap (Fixture.listed Fixture.token_auth) !! b)
              = from_option (@worksheet_title Fixture.worksheet) "undefined"
                  (heap (Fixture.listed Fixture.token_auth) !! a) ->
              b = a) ->
          byTitle !! from_option (@worksheet_title Fixture.worksheet) "undefined"
                       (heap (Fixture.listed Fixture.token_auth) !! a) = Some a).
Proof.
  apply (@X17_sheets_by_title Fixture.worksheet (Fixture.listed Fixture.token_auth)
           Fixture.budget).
  reflexivity.
Defined.

(** ** Adding a worksheet *)

Lemma number_toString_inj (n n' : Z) : number_toString n = number_toString n' -> n = n'.
Proof.
  assert (Hnil : forall z, Z.to_int z <> Decimal.Pos Decimal.Nil
                           /\ Z.to_int z <> Decimal.Neg Decimal.Nil).
  { intros z. split; intros Hz; pose proof (DecimalZ.of_to z) as Hof;
      rewrite Hz in Hof; simpl in Hof; subst z; discriminate Hz. }
  unfold number_toString. intros Heq.
  apply DecimalZ.to_int_inj.
  destruct (Hnil n) as [Hp Hn]. destruct (Hnil n') as [Hp' Hn'].
  pose proof (NilZero.isi _ Hp Hn) as Hi. pose proof (NilZero.isi _ Hp' Hn') as Hi'.
  rewrite Heq in Hi. rewrite Hi in Hi'. now injection Hi'.
Qed.

Lemma number_toString_own (n : Z) : number_toString n ∉ Object_prototype.
Proof.
  assert (Hhead : exists c rest,
            number_toString n = String c rest
            /\ (c = "-" \/ c = "0" \/ c = "1" \/ c = "2" \/ c = "3" \/ c = "4" \/ c = "5"
                \/ c = "6" \/ c = "7" \/ c = "8" \/ c = "9")%char).
  { unfold number_toString.
    destruct (Z.to_int n) as [u|u]; simpl; [|do 2 eexists; split; [reflexivity | now left]].
    destruct u; simpl; do 2 eexists; (split; [reflexivity|]); tauto. }
  destruct Hhead as (c & rest & -> & Hc). unfold Object_prototype.
  intros Hin. repeat (apply elem_of_cons in Hin as [Hin|Hin];
                      [injection Hin as -> _; repeat (destruct Hc as [Hc|Hc]; [discriminate Hc|]);
                       discriminate Hc|]).
  now apply elem_of_nil in Hin.
Qed.

Lemma sheet_member_number (byId : gmap Z nat) (id : Z) :
  sheet_member byId (JNum id)
  = match byId !! id with Some a => Own a | None => Missing end.
Proof.
  unfold sheet_member. simpl toString.
  destruct (find _ (map_to_list byId)) as [[k a]|] eqn:Hfind.
  - apply List.find_some in Hfind as [Hin Hk]. simpl in Hk.
    apply String.eqb_eq, number_toString_inj in Hk. subst k.
    apply list_elem_of_In, elem_of_map_to_list in Hin. now rewrite Hin.
  - rewrite bool_decide_eq_false_2 by apply number_toString_own.
    destruct (byId !! id) as [a|] eqn:Hid; [|reflexivity].
    apply elem_of_map_to_list, list_elem_of_In in Hid.
    apply (List.find_none _ _ Hfind) in Hid. simpl in Hid.
    now rewrite String.eqb_refl in Hid.
Qed.

Lemma omit_field (keys : list string) (o : list (string * Json)) (k : string) :
  get_field k (omit keys o)
  = if existsb (String.eqb k) keys then JUndefined else get_field k o.
Proof.
  induction o as [|[k' v] o IH]; simpl; [now destruct (existsb _ _)|].
  destruct (String.eqb_spec k' k) as [->|Hne].
  - destruct (existsb (String.eqb k) keys) eqn:Hk; simpl.
    + rewrite IH. now rewrite ?Hk.
    + now rewrite String.eqb_refl.
  - destruct (existsb (String.eqb k') keys); simpl; [exact IH|].
    destruct (String.eqb_spec k' k); [congruence | exact IH].
Qed.

Section AddingSheets.
Context {W : WorksheetClass} {U : Utils} {R : RemoteService}.
Variable setHeaderRow : nat -> Json -> Json -> M unit.

(** X18: [addSheet] returns the worksheet object that the cache holds,
    after the echo of its [addSheet] request is merged, under the sheet id
    named in the reply; when the echo lists that id there is such an
    object. The request carries the properties given without
    [headerValues] and [headerRowIndex]. Without header values nothing else
    is sent; with header values the header row is set on that very object,
    and the call is what setting it makes of it. *)
Theorem X18_add_sheet_returns_cached (properties : list (string * Json)) (w : World)
    (wired : Request) (response : BatchUpdateResponse)
    (reply : list (string * Json)) (rest : list (list (string * Json)))
    (added described : list (string * Json)) (id : Z) :
  _setAxiosRequestAuth (auth (doc w))
    (envelope (doc w) "addSheet"
       (JObj [("properties", JObj (omit ["headerValues"; "headerRowIndex"] properties))]))
  = Ok wired ->
  reply_batchUpdate (sent w) wired = inr response ->
  replies response = reply :: rest ->
  get_field "addSheet" reply = JObj added ->
  get_field "properties" added = JObj described ->
  get_field "sheetId" described = JNum id ->
  (get_field "headerValues" (omit ["headerValues"; "headerRowIndex"] properties) = JUndefined
   /\ get_field "headerRowIndex" (omit ["headerValues"; "headerRowIndex"] properties)
      = JUndefined
   /\ forall k, k <> "headerValues" -> k <> "headerRowIndex" ->
                get_field k (omit ["headerValues"; "headerRowIndex"] properties)
                = get_field k properties)
  /\ (truthy (get_field "headerValues" properties) = false ->
      addSheet setHeaderRow properties w
      = (Ok match _rawSheets
                    (doc (after (apply_snapshot (updatedSpreadsheet response))
                            (put_sent wired w))) !! id with
            | Some a => Own a
            | None => Missing
            end,
         after (apply_snapshot (updatedSpreadsheet response)) (put_sent wired w)))
  /\ (forall a,
        truthy (get_field "headerValues" properties) = true ->
        _rawSheets (doc (after (apply_snapshot (updatedSpreadsheet response))
                           (put_sent wired w))) !! id = Some a ->
        addSheet setHeaderRow properties w
        = (setHeaderRow a (get_field "headerValues" properties)
             (get_field "headerRowIndex" properties);;
           mret (Own a))
            (after (apply_snapshot (updatedSpreadsheet response)) (put_sent wired w)))
  /\ (id ∈ sheetIds (updatedSpreadsheet response) ->
      is_Some (_rawSheets (doc (after (apply_snapshot (updatedSpreadsheet response))
                                  (put_sent wired w))) !! id)).
Proof.
  intros Hwired Hreply Hreplies Hadded Hdescribed Hid.
  set (w' := after (apply_snapshot (updatedSpreadsheet response)) (put_sent wired w)).
  assert (Hrun : forall k : Found -> M Found,
            (response ← _makeSingleUpdateRequest "addSheet"
               (JObj [("properties",
                       JObj (omit ["headerValues"; "headerRowIndex"] properties))]);
             response_properties ← lift (member response "properties");
             newSheetId ← lift (member response_properties "sheetId");
             byId ← sheetsById;
             k (sheet_member byId newSheetId)) w
            = k (match _rawSheets (doc w') !! id with
                 | Some a => Own a
                 | None => Missing
                 end) w').
  { intros k. rewrite bind_run, single_update_run, Hwired, Hreply, Hreplies, Hadded.
    fold w'. rewrite bind_run. simpl. rewrite Hdescribed. rewrite bind_run. simpl.
    rewrite Hid. rewrite bind_run.
    destruct (apply_snapshot_frame (updatedSpreadsheet response) (put_sent wired w))
      as [_ Hp]. fold w' in Hp.
    unfold sheetsById, _ensureInfoLoaded, mbind, M_bind, mret, M_ret, this.
    simpl. rewrite Hp. simpl. now rewrite sheet_member_number. }
  pose (rest_of_call := fun newSheet : Found =>
          (if truthy (get_field "headerValues" properties)
           then match newSheet with
                | Own a =>
                    setHeaderRow a (get_field "headerValues" properties)
                      (get_field "headerRowIndex" properties)
                | Inherited =>
                    throw (Error TypeError "newSheet.setHeaderRow is not a function")
                | Missing => throw (Error TypeError "Cannot read properties of undefined")
                end
           else mret tt);;
          mret newSheet).
  assert (Hadd : addSheet setHeaderRow properties w
                 = rest_of_call (match _rawSheets (doc w') !! id with
                                 | Some a => Own a
                                 | None => Missing
                                 end) w')
    by exact (Hrun rest_of_call).
  split; [|split; [|split]].
  - rewrite !omit_field. simpl. split; [reflexivity|]. split; [reflexivity|].
    intros k Hk1 Hk2. rewrite omit_field. simpl.
    destruct (String.eqb_spec k "headerValues"); [congruence|].
    destruct (String.eqb_spec k "headerRowIndex"); [congruence|]. reflexivity.
  - intros Hfalsy. rewrite Hadd. unfold rest_of_call. rewrite Hfalsy. reflexivity.
  - intros a Htruthy Ha. rewrite Hadd. unfold rest_of_call. rewrite Htruthy.
    fold w' in Ha. now rewrite Ha.
  - intros Hin. apply elem_of_dom. subst w'. unfold after.
    rewrite apply_snapshot_run. simpl.
    rewrite upserts_dom.
    apply elem_of_union_r, elem_of_list_to_set. exact Hin.
Qed.

End AddingSheets.

Lemma X18_add_sheet_returns_cached_witness :
  exists wired,
    _setAxiosRequestAuth Fixture.token_auth
      (envelope (new_GoogleSpreadsheet "doc-1" Fixture.token_auth) "addSheet"
         (JObj [("properties", JObj [("title", JStr "Notes")])]))
    = Ok wired
    /\ @addSheet Fixture.worksheet adding_service (fun _ _ _ => mret tt)
         [("title", JStr "Notes"); ("headerRowIndex", JNum 2)]
         (Fixture.fresh Fixture.token_auth)
       = (Ok match _rawSheets
                     (doc (after (apply_snapshot Fixture.snapshot)
                             (put_sent wired (Fixture.fresh Fixture.token_auth)))) !! 7 with
             | Some a => Own a
             | None => Missing
             end,
          after (apply_snapshot Fixture.snapshot)
            (put_sent wired (Fixture.fresh Fixture.token_auth))).
Proof.
  eexists. split; [reflexivity|].
  apply (@X18_add_sheet_returns_cached Fixture.worksheet adding_service (fun _ _ _ => mret tt)
           [("title", JStr "Notes"); ("headerRowIndex", JNum 2)]
           (Fixture.fresh Fixture.token_auth) _
           {| updatedSpreadsheet := Fixture.snapshot;
              replies := [[("addSheet",
                            JObj [("properties",
                                   JObj [("sheetId", JNum 7); ("title", JStr "Notes")])])]] |}
           [("addSheet",
             JObj [("properties", JObj [("sheetId", JNum 7); ("title", JStr "Notes")])])]
           []
           [("properties", JObj [("sheetId", JNum 7); ("title", JStr "Notes")])]
           [("sheetId", JNum 7); ("title", JStr "Notes")] 7).
  - reflexivity.
  - reflexivity.
  - reflexivity.
  - reflexivity.
  - reflexivity.
  - reflexivity.
  - reflexivity.
Defined.
